(** * gnubg dice.c: the random dice subsystem

    A shallow embedding of [dice.c] (GNU Backgammon): the rejection
    sampler of the ISAAC and Mersenne-Twister backends, the Blum-Blum-Shub
    engine (factor validation, bit and trit extraction, seed check), the
    MD5 counter backend, the dice file reader and the [RollDice]
    dispatcher with its fallback.

    Conventions.
    - C integers are [Z]; the wrap-around of [unsigned int] (32 bits) and
      [unsigned long] (64 bits, LP64) is written out with [u32] and [u64].
    - [mpz_t] values are unbounded [Z].
    - A function that loops is given a [fuel : nat]; [None] means that the
      call did not return normally within the fuel (a loop still running,
      a failed [g_assert], or a GMP division by zero).
    - Text printed with [g_print]/[outputerrf] is recorded as a list of
      [event]s, oldest first.
    - The file is modelled with [HAVE_LIBGMP] defined. *)

From Stdlib Require Import ZArith List Bool Lia String Ascii.
From Stdlib.Strings Require Import Byte.
Import ListNotations.
Open Scope Z_scope.

Set Implicit Arguments.

(** ** Option as the monad of calls that may not return *)

Definition bind {A B : Type} (m : option A) (k : A -> option B) : option B :=
  match m with
  | Some a => k a
  | None => None
  end.

Notation "x <- m ;; k" := (bind m (fun x => k))
  (at level 61, m at next level, right associativity).
Notation "' p <- m ;; k" := (bind m (fun x => let 'p := x in k))
  (at level 61, p pattern, m at next level, right associativity).

(** ** C integer types *)

Definition u32 (x : Z) : Z := x mod 2 ^ 32.
Definition u64 (x : Z) : Z := x mod 2 ^ 64.

(** [(unsigned int) (-1)], the failure value of [ReadDiceFile]. *)
Definition UINT_MINUS_ONE : Z := u32 (-1).

(** ** The rejection sampler of [RollDice] *)

Definition exp232_q : Z := 715827882.
Definition exp232_l : Z := 4294967292.

(** [while ((tmprnd = gen(st)) >= exp232_l);] for a generator [gen] that
    returns a 32-bit word and its next state.  The result is the accepted
    word and the state after it. *)
Fixpoint draw_loop {S : Type} (gen : S -> Z * S) (fuel : nat) (st : S)
  : option (Z * S) :=
  match fuel with
  | O => None
  | Datatypes.S fuel' =>
      let '(r, st') := gen st in
      let tmprnd := u32 r in
      if tmprnd >=? exp232_l then draw_loop gen fuel' st'
      else Some (tmprnd, st')
  end.

(** [1 + (unsigned int) (tmprnd / exp232_q)] *)
Definition die_of_raw (tmprnd : Z) : Z := u32 (1 + u32 (tmprnd / exp232_q)).

(** The state of a generator after [k] draws, and its [k]-th raw word. *)
Fixpoint gen_state {S : Type} (gen : S -> Z * S) (k : nat) (st : S) : S :=
  match k with
  | O => st
  | Datatypes.S k' => gen_state gen k' (snd (gen st))
  end.

Definition gen_raw {S : Type} (gen : S -> Z * S) (k : nat) (st : S) : Z :=
  u32 (fst (gen (gen_state gen k st))).

(** Number of integers [r] in [lo, lo + n) with [P r]. *)
Fixpoint count_from (P : Z -> bool) (lo : Z) (n : nat) : Z :=
  match n with
  | O => 0
  | Datatypes.S n' => (if P lo then 1 else 0) + count_from P (lo + 1) n'
  end.

(** The raw words that the sampler accepts and maps to face [f]. *)
Definition accepted_as (f : Z) (r : Z) : bool :=
  negb (r >=? exp232_l) && (die_of_raw r =? f).

(** ** The GMP operations that dice.c uses *)

Definition mpz_sgn (x : Z) : Z := Z.sgn x.

(** [mpz_get_ui]: the least significant limb of the absolute value. *)
Definition mpz_get_ui (x : Z) : Z := u64 (Z.abs x).

(** [mpz_cmp x y]: negative, zero or positive. *)
Definition mpz_cmp (x y : Z) : Z := Z.sgn (x - y).

(** [mpz_powm_ui (r, b, e, m)]: [b^e] modulo [|m|]; GMP divides by zero
    when [m] is zero. *)
Definition mpz_powm_ui (b : Z) (e : Z) (m : Z) : option Z :=
  if m =? 0 then None else Some ((b ^ e) mod (Z.abs m)).

Definition isspace (ch : ascii) : bool :=
  let k := nat_of_ascii ch in
  (Nat.eqb k 32 || (Nat.leb 9 k && Nat.leb k 13))%bool.

Definition digit_value (ch : ascii) : option Z :=
  let k := nat_of_ascii ch in
  if (Nat.leb 48 k && Nat.leb k 57)%bool then Some (Z.of_nat k - 48) else None.

Fixpoint skip_space (s : list ascii) : list ascii :=
  match s with
  | ch :: s' => if isspace ch then skip_space s' else s
  | [] => []
  end.

(** The digits of a decimal number, white space between them ignored;
    [acc] is the value read so far. *)
Fixpoint read_digits (acc : Z) (s : list ascii) : option Z :=
  match s with
  | [] => Some acc
  | ch :: s' =>
      if isspace ch then read_digits acc s'
      else match digit_value ch with
           | Some d => read_digits (10 * acc + d) s'
           | None => None
           end
  end.

(** [mpz_set_str (x, sz, 10)]: [Some v] when it returns 0 and sets [x] to
    [v], [None] when it returns -1.  Leading white space, an optional
    minus sign, then at least one digit. *)
Definition mpz_set_str (sz : string) : option Z :=
  match skip_space (list_ascii_of_string sz) with
  | [] => None
  | ch :: s' =>
      let neg := Ascii.eqb ch "-"%char in
      let body := if neg then s' else ch :: s' in
      match body with
      | [] => None
      | d :: _ =>
          match digit_value d with
          | None => None
          | Some _ =>
              match read_digits 0 body with
              | Some v => Some (if neg then - v else v)
              | None => None
              end
          end
      end
  end.

(** ** Generator kinds, the dice file and the context *)

Inductive rng : Type :=
| RNG_BBS
| RNG_ISAAC
| RNG_MD5
| RNG_MERSENNE
| RNG_MANUAL
| RNG_RANDOM_DOT_ORG
| RNG_FILE.

Definition rng_eqb (a b : rng) : bool :=
  match a, b with
  | RNG_BBS, RNG_BBS | RNG_ISAAC, RNG_ISAAC | RNG_MD5, RNG_MD5
  | RNG_MERSENNE, RNG_MERSENNE | RNG_MANUAL, RNG_MANUAL
  | RNG_RANDOM_DOT_ORG, RNG_RANDOM_DOT_ORG | RNG_FILE, RNG_FILE => true
  | _, _ => false
  end.

(** A stdio stream opened for reading: its bytes, the read position, the
    end-of-file indicator, and whether the device fails on every read. *)
Record FILE : Type := mkFILE {
  f_bytes : list byte;
  f_pos : nat;
  f_eof : bool;
  f_fail : bool
}.

(** [fread (&uch, 1, 1, f)]: the count read, the byte, and the stream. *)
Definition fread1 (f : FILE) : Z * Z * FILE :=
  if f_fail f then (0, 0, f)
  else match nth_error (f_bytes f) (f_pos f) with
       | Some b => (1, Z.of_N (Byte.to_N b), mkFILE (f_bytes f) (S (f_pos f)) (f_eof f) false)
       | None => (0, 0, mkFILE (f_bytes f) (f_pos f) true false)
       end.

Definition feof (f : FILE) : bool := f_eof f.

(** [fseek (f, 0, SEEK_SET)] *)
Definition fseek0 (f : FILE) : FILE := mkFILE (f_bytes f) 0 false (f_fail f).

Inductive event : Type :=
| EvInvalidBlumFactor (sz : string) (pch : Z)
| EvBBSInvalidSeed
| EvRewinding (name : option string)
| EvDiceFileError (name : option string)
| EvNotWorking.

Definition event_is_fallback (e : event) : bool :=
  match e with
  | EvNotWorking => true
  | _ => false
  end.

(** [struct rngcontext], over the state types of the ISAAC and SFMT
    libraries. *)
Record rngcontext (randctx sfmt_t : Type) : Type := mkctx {
  fDice : option FILE;
  szDiceFilename : option string;
  rc : randctx;
  nMD5 : Z;
  sfmt : sfmt_t;
  zModulus : Z;
  zSeed : Z;
  zZero : Z;
  zOne : Z;
  fZInit : bool;
  c : Z;
  nz : Z;
  n : Z
}.

(** ** What dice.c takes from the rest of the program *)

Class Library : Type := {
  (* isaac.h *)
  randctx : Type;
  RANDSIZ : nat;
  randrsl_set : randctx -> nat -> Z -> randctx;
  irand : randctx -> Z * randctx;
  irandinit : randctx -> bool -> randctx;
  (* SFMT.h *)
  sfmt_t : Type;
  sfmt_genrand_uint32 : sfmt_t -> Z * sfmt_t;
  sfmt_init_gen_rand : sfmt_t -> Z -> sfmt_t;
  (* md5.h: [h.an[0]] and [h.an[1]] after [md5_buffer] on the four bytes
     of the seed *)
  md5_buffer : Z -> Z * Z;
  (* gmp.h *)
  mpz_probab_prime_p : Z -> Z -> Z;
  (* the user interface, random.org and the set commands *)
  world : Type;
  GetManualDice : Z * Z -> world -> Z * (Z * Z) * world;
  LIBCURL_PROTOCOL_HTTPS : bool;
  getDiceRandomDotOrg : world -> Z * world;
  reselect : rng -> rngcontext randctx sfmt_t -> world -> rng ->
             rngcontext randctx sfmt_t * world
}.

(** ** The trit automaton over an arbitrary source of bits

    [BBSGetTrit] draws its bits with [BBSGetBit]; the automaton is written
    over any bit source so that it can also be run on coin tosses. *)

Section Automaton.

Variable St : Type.
Variable getbit : St -> option (Z * St).

Fixpoint BBSGetTrit_loop (fuel : nat) (state : Z) (st : St) : option (Z * St) :=
  match fuel with
  | O => None
  | S fuel' =>
      match state with
      | 0 =>
          '(b, st') <- getbit st ;;
          BBSGetTrit_loop fuel' (u32 (b + 1)) st'
      | 1 =>
          '(b, st') <- getbit st ;;
          if negb (b =? 0) then BBSGetTrit_loop fuel' 3 st' else Some (0, st')
      | 2 =>
          '(b, st') <- getbit st ;;
          if negb (b =? 0) then Some (2, st') else BBSGetTrit_loop fuel' 4 st'
      | 3 =>
          '(b, st') <- getbit st ;;
          if negb (b =? 0) then Some (1, st') else BBSGetTrit_loop fuel' 1 st'
      | 4 =>
          '(b, st') <- getbit st ;;
          if negb (b =? 0) then BBSGetTrit_loop fuel' 2 st' else Some (1, st')
      | _ => BBSGetTrit_loop fuel' state st
      end
  end.

Definition BBSGetTrit_from (fuel : nat) (st : St) : option (Z * St) :=
  BBSGetTrit_loop fuel 0 st.

(** [BBSGetTrit (rngctx) + BBSGetBit (rngctx) * 3 + 1], the operands
    evaluated from left to right. *)
Definition BBS_die_from (fuel : nat) (st : St) : option (Z * St) :=
  '(t, st1) <- BBSGetTrit_from fuel st ;;
  '(b, st2) <- getbit st1 ;;
  Some (u32 (t + b * 3 + 1), st2).

End Automaton.

(** Coin tosses as a bit source: the next bit of a list. *)
Definition toss (bs : list bool) : option (Z * list bool) :=
  match bs with
  | [] => None
  | b :: bs' => Some (Z.b2z b, bs')
  end.

(** Number of bit strings [bs] of length [n] with [P bs]. *)
Fixpoint count_bits (n : nat) (P : list bool -> bool) : Z :=
  match n with
  | O => if P [] then 1 else 0
  | S n' => count_bits n' (fun bs => P (false :: bs))
            + count_bits n' (fun bs => P (true :: bs))
  end.

Definition returns_value (r : option (Z * list bool)) (v : Z) : bool :=
  match r with
  | Some (x, _) => x =? v
  | None => false
  end.

(** Bit strings of length [n] on which the automaton, with fuel to read
    them all, returns trit [t]; and on which a die comes out as face [f]. *)
Definition trit_count (n : nat) (t : Z) : Z :=
  count_bits n (fun bs => returns_value (BBSGetTrit_from toss (S n) bs) t).

Definition face_count (n : nat) (f : Z) : Z :=
  count_bits n (fun bs => returns_value (BBS_die_from toss (S n) bs) f).

(** The same counts with the automaton started in state [s]: the trit
    returned, the face made of the trit and the next bit, and the face
    made of a trit [t] already in hand and the next bit. *)
Definition trit_count_from (s : Z) (n : nat) (t : Z) : Z :=
  count_bits n (fun bs => returns_value (BBSGetTrit_loop toss (S n) s bs) t).

Definition die_from_state (s : Z) (fuel : nat) (bs : list bool) : option (Z * list bool) :=
  '(t, st1) <- BBSGetTrit_loop toss fuel s bs ;;
  '(b, st2) <- toss st1 ;;
  Some (u32 (t + b * 3 + 1), st2).

Definition face_count_from (s : Z) (n : nat) (f : Z) : Z :=
  count_bits n (fun bs => returns_value (die_from_state s (S n) bs) f).

Definition bit_count (t : Z) (n : nat) (f : Z) : Z :=
  count_bits n (fun bs => returns_value ('(b, st2) <- toss bs ;; Some (u32 (t + b * 3 + 1), st2)) f).

(** ** dice.c *)

Section Dice.

Context {L : Library}.

Abbreviation ctx := (rngcontext randctx sfmt_t).

Definition set_fDice (x : ctx) (v : option FILE) : ctx :=
  mkctx v (szDiceFilename x) (rc x) (nMD5 x) (sfmt x) (zModulus x) (zSeed x)
        (zZero x) (zOne x) (fZInit x) (c x) (nz x) (n x).
Definition set_rc (x : ctx) (v : randctx) : ctx :=
  mkctx (fDice x) (szDiceFilename x) v (nMD5 x) (sfmt x) (zModulus x) (zSeed x)
        (zZero x) (zOne x) (fZInit x) (c x) (nz x) (n x).
Definition set_nMD5 (x : ctx) (v : Z) : ctx :=
  mkctx (fDice x) (szDiceFilename x) (rc x) v (sfmt x) (zModulus x) (zSeed x)
        (zZero x) (zOne x) (fZInit x) (c x) (nz x) (n x).
Definition set_sfmt (x : ctx) (v : sfmt_t) : ctx :=
  mkctx (fDice x) (szDiceFilename x) (rc x) (nMD5 x) v (zModulus x) (zSeed x)
        (zZero x) (zOne x) (fZInit x) (c x) (nz x) (n x).
Definition set_zModulus (x : ctx) (v : Z) : ctx :=
  mkctx (fDice x) (szDiceFilename x) (rc x) (nMD5 x) (sfmt x) v (zSeed x)
        (zZero x) (zOne x) (fZInit x) (c x) (nz x) (n x).
Definition set_zSeed (x : ctx) (v : Z) : ctx :=
  mkctx (fDice x) (szDiceFilename x) (rc x) (nMD5 x) (sfmt x) (zModulus x) v
        (zZero x) (zOne x) (fZInit x) (c x) (nz x) (n x).
Definition set_c (x : ctx) (v : Z) : ctx :=
  mkctx (fDice x) (szDiceFilename x) (rc x) (nMD5 x) (sfmt x) (zModulus x) (zSeed x)
        (zZero x) (zOne x) (fZInit x) v (nz x) (n x).
Definition set_n (x : ctx) (v : Z) : ctx :=
  mkctx (fDice x) (szDiceFilename x) (rc x) (nMD5 x) (sfmt x) (zModulus x) (zSeed x)
        (zZero x) (zOne x) (fZInit x) (c x) (nz x) v.

(** [rngctx->c += 2] on an [unsigned long] *)
Definition count2 (x : ctx) : ctx := set_c x (u64 (c x + 2)).

(** *** The Blum-Blum-Shub engine *)

Definition InitRNGBBS (x : ctx) : ctx :=
  if fZInit x then x
  else mkctx (fDice x) (szDiceFilename x) (rc x) (nMD5 x) (sfmt x) 0 0 0 1 true
             (c x) (nz x) (n x).

Definition BBSGood (x : Z) : bool :=
  (Z.land (mpz_get_ui x) 3 =? 3)
  && (mpz_cmp x 19 >=? 0)
  && negb (mpz_probab_prime_p x 10 =? 0).

(** [do mpz_add_ui (x, x, 1); while (!BBSGood (x));] *)
Fixpoint BBSFindGood (fuel : nat) (x : Z) : option Z :=
  match fuel with
  | O => None
  | S fuel' =>
      let x' := x + 1 in
      if BBSGood x' then Some x' else BBSFindGood fuel' x'
  end.

Definition InitRNGBBSFactors (fuel : nat) (sz0 sz1 : option string) (x : ctx)
  : option (Z * ctx * list event) :=
  match sz0, sz1 with
  | Some s0, Some s1 =>
      match mpz_set_str s0 with
      | None => Some (-1, x, [])
      | Some p =>
          if mpz_sgn p <? 1 then Some (-1, x, [])
          else
            match mpz_set_str s1 with
            | None => Some (-1, x, [])
            | Some q =>
                if mpz_sgn p <? 1 then Some (-1, x, [])
                else
                  '(p, out0) <-
                    (if negb (BBSGood p) then
                       p' <- BBSFindGood fuel p ;;
                       Some (p', [EvInvalidBlumFactor s0 p'])
                     else Some (p, [])) ;;
                  '(q, out1) <-
                    (if negb (BBSGood q) || (mpz_cmp p q =? 0) then
                       q' <- BBSFindGood fuel q ;;
                       q'' <- (if mpz_cmp p q' =? 0 then BBSFindGood fuel q'
                               else Some q') ;;
                       Some (q'', [EvInvalidBlumFactor s1 q''])
                     else Some (q, [])) ;;
                  Some (0, set_zModulus (InitRNGBBS x) (p * q), out0 ++ out1)
            end
      end
  | _, _ => Some (-1, x, [])
  end.

Definition BBSGetBit (x : ctx) : option (Z * ctx) :=
  s <- mpz_powm_ui (zSeed x) 2 (zModulus x) ;;
  Some (Z.land (mpz_get_ui s) 1, set_zSeed x s).

Definition BBSGetTrit (fuel : nat) (x : ctx) : option (Z * ctx) :=
  BBSGetTrit_from BBSGetBit fuel x.

Definition BBSCheck (x : ctx) : Z :=
  if negb (mpz_cmp (zSeed x) (zZero x) =? 0)
     && negb (mpz_cmp (zSeed x) (zOne x) =? 0)
  then 0 else -1.

Definition BBSInitialSeedFailure (x : ctx) : Z * ctx * list event :=
  (-1, set_zSeed x (zZero x), [EvBBSInvalidSeed]).

(** [for (i = 0; i < 8; i++) mpz_powm_ui (z, z, 2, zModulus);] with
    [k] iterations left. *)
Fixpoint square_loop (k : nat) (z m : Z) : option Z :=
  match k with
  | O => Some z
  | S k' => z' <- mpz_powm_ui z 2 m ;; square_loop k' z' m
  end.

(** The recurrence loop with [k] iterations left: the value of [i] when
    it ends, 16 when the reference point did not come back. *)
Fixpoint cycle_loop (k : nat) (i : Z) (z zCycle m : Z) : option Z :=
  match k with
  | O => Some i
  | S k' =>
      z' <- mpz_powm_ui z 2 m ;;
      if mpz_cmp z' zCycle =? 0 then Some i
      else cycle_loop k' (i + 1) z' zCycle m
  end.

(** The loop over [iAttempt] with [k] iterations left: the value of
    [iAttempt] when it ends, and the context. *)
Fixpoint attempt_loop (k : nat) (iAttempt : Z) (x : ctx) : option (Z * ctx) :=
  match k with
  | O => Some (iAttempt, x)
  | S k' =>
      z <- square_loop 8 (zSeed x) (zModulus x) ;;
      i <- cycle_loop 16 0 z z (zModulus x) ;;
      if i =? 16 then Some (iAttempt, x)
      else attempt_loop k' (iAttempt + 1) (set_zSeed x (zSeed x + 1))
  end.

Definition BBSCheckInitialSeed (x : ctx) : option (Z * ctx * list event) :=
  if mpz_sgn (zSeed x) <? 1 then Some (BBSInitialSeedFailure x)
  else
    '(iAttempt, x1) <- attempt_loop 32 0 x ;;
    let '(x2, out) :=
      if iAttempt =? 32 then
        let '(_, x2, out) := BBSInitialSeedFailure x1 in (x2, out)
      else (x1, []) in
    Some (if iAttempt <? 32 then 0 else -1, x2, out).

(** *** Seeding *)

(** [for (i = 0; i < RANDSIZ; i++) rngctx->rc.randrsl[i] = (ub4) n;] *)
Definition fill_randrsl (r : randctx) (v : Z) : randctx :=
  fold_left (fun r' i => randrsl_set r' i v) (seq 0 RANDSIZ) r.

Definition InitRNGSeed (n0 : Z) (rngx : rng) (x : ctx)
  : option (ctx * list event) :=
  let n0 := u32 n0 in
  let x := set_c (set_n x n0) 0 in
  match rngx with
  | RNG_BBS =>
      if fZInit x then
        '(_, x', out) <- BBSCheckInitialSeed (set_zSeed x n0) ;;
        Some (x', out)
      else None
  | RNG_ISAAC => Some (set_rc x (irandinit (fill_randrsl (rc x) n0) true), [])
  | RNG_MD5 => Some (set_nMD5 x n0, [])
  | RNG_MERSENNE => Some (set_sfmt x (sfmt_init_gen_rand (sfmt x) n0), [])
  | RNG_MANUAL | RNG_RANDOM_DOT_ORG | RNG_FILE => Some (x, [])
  end.

(** *** The dice file *)

Fixpoint uglyloop (fuel : nat) (name : option string) (f : FILE)
  : option (Z * FILE * list event) :=
  match fuel with
  | O => None
  | S fuel' =>
      let '(k, uch, f1) := fread1 f in
      if feof f1 then
        '(r, f2, out) <- uglyloop fuel' name (fseek0 f1) ;;
        Some (r, f2, EvRewinding name :: out)
      else if negb (k =? 1) then
        Some (UINT_MINUS_ONE, f1, [EvDiceFileError name])
      else if (uch >=? 49) && (uch <=? 54) then
        Some (u32 (uch - 48), f1, [])
      else uglyloop fuel' name f1
  end.

Definition ReadDiceFile (fuel : nat) (x : ctx) : option (Z * ctx * list event) :=
  match fDice x with
  | None => Some (UINT_MINUS_ONE, x, [])
  | Some f =>
      '(r, f', out) <- uglyloop fuel (szDiceFilename x) f ;;
      Some (r, set_fDice x (Some f'), out)
  end.

(** *** Rolling *)

(** Modelled from the spec: [SetRNG] is defined in set.c, which is not
    among the sources.  The dispatcher "switches the active kind to
    TwistedFeedback", a reselection "which reinitializes state": the
    kind becomes [rngNew] and the context and the rest of the program
    are changed by [reselect], about which nothing is assumed. *)
Definition SetRNG (prng : rng) (x : ctx) (w : world) (rngNew : rng)
  : rng * ctx * world :=
  let '(x', w') := reselect prng x w rngNew in (rngNew, x', w').

(** The MD5 retry loop: [h] is the digest in hand. *)
Fixpoint md5_loop (fuel : nat) (h : Z * Z) (x : ctx) : option (Z * Z * ctx) :=
  if (u32 (fst h) >=? exp232_l) || (u32 (snd h) >=? exp232_l) then
    match fuel with
    | O => None
    | S fuel' =>
        let h' := md5_buffer (nMD5 x) in
        md5_loop fuel' h' (set_nMD5 x (u32 (nMD5 x + 1)))
    end
  else Some (h, x).

Definition out_of_range (d : Z * Z) : bool :=
  (fst d <? 1) || (snd d <? 1) || (fst d >? 6) || (snd d >? 6).

(** The [switch] of [RollDice] for every kind but [RNG_MANUAL], which
    returns from inside it: the dice, the context, the rest of the
    program and what was printed. *)
Definition roll_switch (fuel : nat) (prng : rng) (x : ctx) (w : world)
  : option (Z * Z * ctx * world * list event) :=
  match prng with
  | RNG_BBS =>
      if negb (BBSCheck x =? 0) then
        let '(_, x', out) := BBSInitialSeedFailure x in
        Some (0, 0, x', w, out)
      else
        '(d0, x1) <- BBS_die_from BBSGetBit fuel x ;;
        '(d1, x2) <- BBS_die_from BBSGetBit fuel x1 ;;
        Some (d0, d1, count2 x2, w, [])
  | RNG_ISAAC =>
      '(r0, rc1) <- draw_loop irand fuel (rc x) ;;
      '(r1, rc2) <- draw_loop irand fuel rc1 ;;
      Some (die_of_raw r0, die_of_raw r1, count2 (set_rc x rc2), w, [])
  | RNG_MANUAL => None
  | RNG_MD5 =>
      '(h, x1) <- md5_loop fuel (md5_buffer (nMD5 x)) x ;;
      let d0 := u32 (u32 (fst h) / exp232_q + 1) in
      let d1 := u32 (u32 (snd h) / exp232_q + 1) in
      Some (d0, d1, count2 (set_nMD5 x1 (u32 (nMD5 x1 + 1))), w, [])
  | RNG_MERSENNE =>
      '(r0, s1) <- draw_loop sfmt_genrand_uint32 fuel (sfmt x) ;;
      '(r1, s2) <- draw_loop sfmt_genrand_uint32 fuel s1 ;;
      Some (die_of_raw r0, die_of_raw r1, count2 (set_sfmt x s2), w, [])
  | RNG_RANDOM_DOT_ORG =>
      if LIBCURL_PROTOCOL_HTTPS then
        let '(v0, w1) := getDiceRandomDotOrg w in
        let d0 := u32 v0 in
        if d0 >? 0 then
          let '(v1, w2) := getDiceRandomDotOrg w1 in
          Some (d0, u32 v1, x, w2, [])
        else Some (d0, d0, x, w1, [])
      else Some (0, 0, x, w, [])
  | RNG_FILE =>
      '(d0, x1, out0) <- ReadDiceFile fuel x ;;
      '(d1, x2, out1) <- ReadDiceFile fuel x1 ;;
      Some (d0, d1, count2 x2, w, out0 ++ out1)
  end.

(** What a call of [RollDice] leaves: its return value, [anDice],
    [*prng], the context, the rest of the program and what was printed. *)
Record rolled : Type := mkrolled {
  ret : Z;
  anDice : Z * Z;
  kind : rng;
  rctx : ctx;
  rworld : world;
  printed : list event
}.

Fixpoint RollDice (fuel : nat) (prng : rng) (x : ctx) (w : world)
  : option rolled :=
  match fuel with
  | O => None
  | S fuel' =>
      match prng with
      | RNG_MANUAL =>
          let '(r, d, w') := GetManualDice (0, 0) w in
          Some (mkrolled r (u32 (fst d), u32 (snd d)) prng x w' [])
      | _ =>
          '(d0, d1, x1, w1, out1) <- roll_switch fuel' prng x w ;;
          if out_of_range (d0, d1) then
            let '(prng2, x2, w2) := SetRNG prng x1 w1 RNG_MERSENNE in
            r <- RollDice fuel' prng2 x2 w2 ;;
            Some (mkrolled 0 (anDice r) (kind r) (rctx r) (rworld r)
                           (out1 ++ EvNotWorking :: printed r))
          else Some (mkrolled 0 (d0, d1) prng x1 w1 out1)
      end
  end.

(** [k] calls of [RollDice] in a row: the pairs of dice, with the kind,
    context and rest of the program after the last call. *)
Fixpoint RollDice_times (fuel : nat) (k : nat) (prng : rng) (x : ctx) (w : world)
  : option (list (Z * Z) * rng * ctx * world) :=
  match k with
  | O => Some ([], prng, x, w)
  | S k' =>
      r <- RollDice fuel prng x w ;;
      '(ds, prng', x', w') <- RollDice_times fuel k' (kind r) (rctx r) (rworld r) ;;
      Some (anDice r :: ds, prng', x', w')
  end.

(** [k] calls of [ReadDiceFile] in a row: the faces read. *)
Fixpoint ReadDiceFile_times (fuel : nat) (k : nat) (x : ctx)
  : option (list Z * ctx) :=
  match k with
  | O => Some ([], x)
  | S k' =>
      '(r, x1, _) <- ReadDiceFile fuel x ;;
      '(rs, x2) <- ReadDiceFile_times fuel k' x1 ;;
      Some (r :: rs, x2)
  end.

(** A run that seeds with [n0] and then rolls [k] times: the pairs of
    dice. *)
Definition seeded_rolls (fuel : nat) (n0 : Z) (k : nat) (prng : rng) (x : ctx)
  (w : world) : option (list (Z * Z)) :=
  '(x1, _) <- InitRNGSeed n0 prng x ;;
  '(ds, _, _, _) <- RollDice_times fuel k prng x1 w ;;
  Some ds.

End Dice.

(** ** Properties named in the statements *)

(** The [k]-th word of the generator from [st] is its first below the
    limit. *)
Definition first_accepted {S : Type} (gen : S -> Z * S) (st : S) (k : nat) : Prop :=
  (forall j : nat, (j < k)%nat -> exp232_l <= gen_raw gen j st)
  /\ 0 <= gen_raw gen k st < exp232_l.

(** The two dice [d] are sampled from the first accepted words of the
    generator, the [k0]-th from [st] and the [k1]-th after it, and [st']
    is the state after the second. *)
Definition sampled_pair {S : Type} (gen : S -> Z * S) (st : S) (k0 k1 : nat)
  (d : Z * Z) (st' : S) : Prop :=
  let st1 := gen_state gen (Datatypes.S k0) st in
  first_accepted gen st k0
  /\ first_accepted gen st1 k1
  /\ d = (1 + gen_raw gen k0 st / exp232_q, 1 + gen_raw gen k1 st1 / exp232_q)
  /\ st' = gen_state gen (Datatypes.S k1) st1.

(** A digest one of whose two words the sampler rejects. *)
Definition rejected_digest (h : Z * Z) : bool :=
  (u32 (fst h) >=? exp232_l) || (u32 (snd h) >=? exp232_l).

(** The dice that [RollDice] makes of an accepted digest. *)
Definition digest_dice (h : Z * Z) : Z * Z :=
  (u32 (u32 (fst h) / exp232_q + 1), u32 (u32 (snd h) / exp232_q + 1)).

Definition in_range (d : Z * Z) : Prop :=
  1 <= fst d <= 6 /\ 1 <= snd d <= 6.

(** ** Definitions that follow the words of the specification *)

Section Worded.

Context {L : Library}.

Abbreviation ctx := (rngcontext randctx sfmt_t).

(** One modular squaring, [seed <- seed^2 mod modulus]. *)
Definition squared (m z : Z) : Z := (z * z) mod (Z.abs m).

(** "square the seed 8 times to reach a reference point" *)
Definition reference_point (m s : Z) : Z := Nat.iter 8 (squared m) s.

(** "square up to 16 more times checking for recurrence of that
    reference" *)
Definition recurs (m s : Z) : bool :=
  existsb (fun i => Nat.iter i (squared m) (reference_point m s) =? reference_point m s)
          (seq 1 16).

(** The first of the 32 attempts [s, s+1, ...] without recurrence. *)
Definition first_sound_attempt (m s : Z) : option nat :=
  find (fun k => negb (recurs m (s + Z.of_nat k))) (seq 0 32).

Definition seed_check_described (x : ctx) : Z * ctx * list event :=
  if zSeed x <=? 0 then (-1, set_zSeed x 0, [EvBBSInvalidSeed])
  else match first_sound_attempt (zModulus x) (zSeed x) with
       | Some k => (0, set_zSeed x (zSeed x + Z.of_nat k), [])
       | None => (-1, set_zSeed x 0, [EvBBSInvalidSeed])
       end.

(** "on rejection, increment the counter seed and recompute": the retry
    as the specification words it, the digest taken from the seed after
    the increment. *)
Fixpoint md5_retry_described (fuel : nat) (h : Z * Z) (x : ctx)
  : option (Z * Z * ctx) :=
  if (u32 (fst h) >=? exp232_l) || (u32 (snd h) >=? exp232_l) then
    match fuel with
    | O => None
    | S fuel' =>
        let x' := set_nMD5 x (u32 (nMD5 x + 1)) in
        md5_retry_described fuel' (md5_buffer (nMD5 x')) x'
    end
  else Some (h, x).






(** What [InitRNGBBSFactors] does with the factors [p] and [q] once both
    strings are parsed and the sign is checked: the first factor used,
    then the second, each with what is printed for it. *)
Definition first_factor (fuel : nat) (s0 : string) (p : Z) : option (Z * list event) :=
  if negb (BBSGood p) then
    p' <- BBSFindGood fuel p ;; Some (p', [EvInvalidBlumFactor s0 p'])
  else Some (p, []).

Definition second_factor (fuel : nat) (s1 : string) (p' q : Z)
  : option (Z * list event) :=
  if negb (BBSGood q) || (mpz_cmp p' q =? 0) then
    q' <- BBSFindGood fuel q ;;
    q'' <- (if mpz_cmp p' q' =? 0 then BBSFindGood fuel q' else Some q') ;;
    Some (q'', [EvInvalidBlumFactor s1 q''])
  else Some (q, []).

Definition choose_factors (fuel : nat) (s0 s1 : string) (p q : Z)
  : option (Z * Z * list event) :=
  '(p', out0) <- first_factor fuel s0 p ;;
  '(q', out1) <- second_factor fuel s1 p' q ;;
  Some (p', q', out0 ++ out1).

(** The dice [d] that a roll of kind [k] leaves, with context [x'], are
    sampled from the generator of that kind in context [x]. *)
Definition sampled_by (k : rng) (x : ctx) (k0 k1 : nat) (d : Z * Z) (x' : ctx) : Prop :=
  match k with
  | RNG_ISAAC => sampled_pair irand (rc x) k0 k1 d (rc x')
  | RNG_MERSENNE => sampled_pair sfmt_genrand_uint32 (sfmt x) k0 k1 d (sfmt x')
  | _ => False
  end.

End Worded.

(** ** A small library to run the code on

    Linear congruential words stand in for ISAAC and SFMT, trial division
    for GMP's primality test (exact on small operands), a user who cancels
    the manual dice dialog, and a random.org request that fails. *)

Definition lcg (s : Z) : Z := (s * 1664525 + 1013904223) mod 2 ^ 32.

Fixpoint no_divisor (k : nat) (d x : Z) : bool :=
  match k with
  | O => true
  | S k' => if x mod d =? 0 then false else no_divisor k' (d + 1) x
  end.

Definition trial_division (x reps : Z) : Z :=
  if (2 <=? x) && no_divisor (Z.to_nat (x - 2)) 2 x then 2 else 0.

Definition sample_digest (s : Z) : Z * Z :=
  if s =? 7 then (713977480, 4294967293) else (lcg s, lcg (lcg s)).

Definition sample_ctx (A B : Type) (a : A) (b : B) : rngcontext A B :=
  mkctx None None a 0 b 0 0 0 0 false 0 0 0.

#[local] Instance sample_library : Library := {|
  randctx := Z;
  RANDSIZ := 256;
  randrsl_set := fun _ _ v => v;
  irand := fun s => (lcg s, lcg s);
  irandinit := fun s _ => s;
  sfmt_t := Z;
  sfmt_genrand_uint32 := fun s => (lcg s, lcg s);
  sfmt_init_gen_rand := fun _ v => v;
  md5_buffer := sample_digest;
  mpz_probab_prime_p := trial_division;
  world := unit;
  GetManualDice := fun d w => (-1, d, w);
  LIBCURL_PROTOCOL_HTTPS := true;
  getDiceRandomDotOrg := fun w => (0, w);
  reselect := fun _ x w _ => (x, w)
|}.

(** Modelled from the spec: md5.c is not among the sources.  The
    DigestCounter backend is "MD5-based" and computes "a 128-bit digest
    of the current counter seed"; this is MD5 (RFC 1321) of the four
    bytes of the seed as a little-endian host stores them, one padded
    block, and [md5_words] gives the first two 32-bit words of the
    digest as that host reads them, [h.an[0]] and [h.an[1]]. *)
Definition md5_K : list Z :=
  [3614090360; 3905402710; 606105819; 3250441966; 4118548399; 1200080426;
   2821735955; 4249261313; 1770035416; 2336552879; 4294925233; 2304563134;
   1804603682; 4254626195; 2792965006; 1236535329; 4129170786; 3225465664;
   643717713; 3921069994; 3593408605; 38016083; 3634488961; 3889429448;
   568446438; 3275163606; 4107603335; 1163531501; 2850285829; 4243563512;
   1735328473; 2368359562; 4294588738; 2272392833; 1839030562; 4259657740;
   2763975236; 1272893353; 4139469664; 3200236656; 681279174; 3936430074;
   3572445317; 76029189; 3654602809; 3873151461; 530742520; 3299628645;
   4096336452; 1126891415; 2878612391; 4237533241; 1700485571; 2399980690;
   4293915773; 2240044497; 1873313359; 4264355552; 2734768916; 1309151649;
   4149444226; 3174756917; 718787259; 3951481745].

Definition md5_shift : list Z :=
  [7; 12; 17; 22; 7; 12; 17; 22; 7; 12; 17; 22; 7; 12; 17; 22;
   5; 9; 14; 20; 5; 9; 14; 20; 5; 9; 14; 20; 5; 9; 14; 20;
   4; 11; 16; 23; 4; 11; 16; 23; 4; 11; 16; 23; 4; 11; 16; 23;
   6; 10; 15; 21; 6; 10; 15; 21; 6; 10; 15; 21; 6; 10; 15; 21].

Definition rotl32 (v k : Z) : Z :=
  Z.lor (u32 (Z.shiftl v k)) (Z.shiftr v (32 - k)).

Definition not32 (v : Z) : Z := Z.lxor v 4294967295.

(** The one block of a four-byte message: the word, the padding bit, and
    the length in bits. *)
Definition md5_block (seed : Z) : list Z :=
  [seed; 128; 0; 0; 0; 0; 0; 0; 0; 0; 0; 0; 0; 0; 32; 0].

Definition md5_step (m : list Z) (st : Z * Z * Z * Z) (i : nat) : Z * Z * Z * Z :=
  let '(a, b, c0, d) := st in
  let iz := Z.of_nat i in
  let '(f, g) :=
    if iz <? 16 then (Z.lor (Z.land b c0) (Z.land (not32 b) d), iz)
    else if iz <? 32 then (Z.lor (Z.land d b) (Z.land (not32 d) c0), (5 * iz + 1) mod 16)
    else if iz <? 48 then (Z.lxor (Z.lxor b c0) d, (3 * iz + 5) mod 16)
    else (Z.lxor c0 (Z.lor b (not32 d)), (7 * iz) mod 16) in
  let f' := u32 (f + a + nth i md5_K 0 + nth (Z.to_nat g) m 0) in
  (d, u32 (b + rotl32 f' (nth i md5_shift 0)), b, c0).

Definition md5_words (seed : Z) : Z * Z :=
  let a0 := 1732584193 in
  let b0 := 4023233417 in
  let c0 := 2562383102 in
  let d0 := 271733878 in
  let '(a, b, _, _) :=
    fold_left (md5_step (md5_block (u32 seed))) (seq 0 64) (a0, b0, c0, d0) in
  (u32 (a0 + a), u32 (b0 + b)).

Definition md5_library : Library := {|
  randctx := Z;
  RANDSIZ := 256;
  randrsl_set := fun _ _ v => v;
  irand := fun s => (lcg s, lcg s);
  irandinit := fun s _ => s;
  sfmt_t := Z;
  sfmt_genrand_uint32 := fun s => (lcg s, lcg s);
  sfmt_init_gen_rand := fun _ v => v;
  md5_buffer := md5_words;
  mpz_probab_prime_p := trial_division;
  world := unit;
  GetManualDice := fun d w => (-1, d, w);
  LIBCURL_PROTOCOL_HTTPS := true;
  getDiceRandomDotOrg := fun w => (0, w);
  reselect := fun _ x w _ => (x, w)
|}.

Definition ctx0 : rngcontext Z Z := sample_ctx 1 1.

(** [ctx0] after [InitRNGSeed (382864299, RNG_MD5, ...)], and after the
    roll that follows. *)
Definition ctx_md5_seeded : rngcontext Z Z :=
  mkctx None None 1 382864299 1 0 0 0 0 false 0 0 382864299.

Definition ctx_md5_rolled : rngcontext Z Z :=
  mkctx None None 1 382864302 1 0 0 0 0 false 2 0 382864299.

(** A context whose BBS part is set up with modulus 19 * 23 and seed 1. *)
Definition ctx_bbs_seed1 : rngcontext Z Z :=
  mkctx None None 1 0 1 437 1 0 1 true 0 0 0.

(** The dice file of the specification: the bytes "1", "9", "3", "6". *)
Definition file1936 : FILE := mkFILE [x31; x39; x33; x36] 0 false false.

(** The same file with the read position at [p]. *)
Definition file_at (p : nat) : FILE := mkFILE [x31; x39; x33; x36] p false false.

(** The read positions at which the file stands before a read of phase
    0 (next face 1), 1 (next face 3) and 2 (next face 6). *)
Definition phase_pos (j p : nat) : Prop :=
  match j with
  | O => p = 0%nat \/ p = 4%nat
  | S O => p = 1%nat
  | _ => p = 3%nat
  end.

(** A stream after one more byte was read from it. *)
Definition advanced (f : FILE) : FILE :=
  mkFILE (f_bytes f) (S (f_pos f)) (f_eof f) false.

(** A context with the file just opened, and the same after one roll. *)
Definition ctx_file_opened : rngcontext Z Z :=
  mkctx (Some (file_at 0)) None 1 0 1 0 0 0 0 false 0 0 0.

Definition ctx_file_rolled : rngcontext Z Z :=
  mkctx (Some (file_at 3)) None 1 0 1 0 0 0 0 false 2 0 0.

(** The face that the file hands out at its [i]-th read. *)
Definition face1936 (i : nat) : Z := nth (i mod 3) [1; 3; 6] 0.

(** The pairs of [k] rolls from the file, the first die being its [i]-th
    face. *)
Fixpoint pairs1936 (i k : nat) : list (Z * Z) :=
  match k with
  | O => []
  | S k' => (face1936 i, face1936 (S i)) :: pairs1936 (S (S i)) k'
  end.

(** ** The rest of dice.c: the modulus, long seeds, the system seed,
    the dice file and the messages

    [CloseRNG], [CloseDiceFile], [free_rngctx] and [CopyRNGContext] are
    about the lifetime and the sharing of memory and streams, of which
    this embedding keeps no account; they are left out. *)

(** [UINT_MAX] *)
Definition UINT_MAX : Z := 4294967295.

Definition mpz_cmp_ui (x v : Z) : Z := Z.sgn (x - v).

(** [mpz_export (NULL, &cb, -1, 4, 0, 0, n)]: the 32-bit words of the
    absolute value, least significant first; none for zero. *)
Definition mpz_export32 (v : Z) : list Z :=
  let a := Z.abs v in
  let cb := if a =? 0 then O else Z.to_nat (Z.log2 a / 32 + 1) in
  map (fun i => (a / 2 ^ (32 * Z.of_nat i)) mod 2 ^ 32) (seq 0 cb).

(** [mpz_import (x, count, -1, 4, 0, 0, words)]: the number whose 32-bit
    words, least significant first, are [words]. *)
Fixpoint mpz_import32 (words : list Z) : Z :=
  match words with
  | [] => 0
  | wd :: rest => u32 wd + 2 ^ 32 * mpz_import32 rest
  end.

(** What [PrintRNGCounter] and [PrintRNGSeed] print. *)
Inductive shown : Type :=
| ShCallsSinceSeed (v : Z)
| ShDiceInBatch (v : Z)
| ShDiceFromFile (v : Z)
| ShSeed (v : Z)
| ShSeedAndModulus (seed modulus : Z)
| ShReadingFile (name : option string)
| ShCannotShowSeed.

(** SFMT.h, for seeds longer than a word. *)
Class LongSeedLibrary (L : Library) : Type := {
  SFMT_N32 : nat;
  sfmt_init_by_array : sfmt_t -> list Z -> sfmt_t
}.

Section DiceRest.

Context {L : Library} {LS : LongSeedLibrary L}.

Abbreviation ctx := (rngcontext randctx sfmt_t).

Definition set_nz (x : ctx) (v : Z) : ctx :=
  mkctx (fDice x) (szDiceFilename x) (rc x) (nMD5 x) (sfmt x) (zModulus x) (zSeed x)
        (zZero x) (zOne x) (fZInit x) (c x) v (n x).
Definition set_szDiceFilename (x : ctx) (v : option string) : ctx :=
  mkctx (fDice x) v (rc x) (nMD5 x) (sfmt x) (zModulus x) (zSeed x)
        (zZero x) (zOne x) (fZInit x) (c x) (nz x) (n x).

(** [mpz_set_str] writes the modulus only when the string is a number. *)
Definition InitRNGBBSModulus (sz : option string) (x : ctx) : Z * ctx :=
  match sz with
  | None => (-1, x)
  | Some s =>
      let x1 := InitRNGBBS x in
      match mpz_set_str s with
      | None => (-1, x1)
      | Some m =>
          let x2 := set_zModulus x1 m in
          if mpz_sgn m <? 1 then (-1, x2) else (0, x2)
      end
  end.

Definition PrintRNGCounter (rngx : rng) (x : ctx) : list shown :=
  match rngx with
  | RNG_BBS | RNG_ISAAC | RNG_MD5 => [ShCallsSinceSeed (c x)]
  | RNG_RANDOM_DOT_ORG => [ShDiceInBatch (c x)]
  | RNG_FILE => [ShDiceFromFile (c x)]
  | RNG_MERSENNE | RNG_MANUAL => []
  end.

Definition PrintRNGSeed (rngx : rng) (x : ctx) : list shown :=
  match rngx with
  | RNG_BBS => [ShSeedAndModulus (zSeed x) (zModulus x)]
  | RNG_MD5 => [ShSeed (nMD5 x)]
  | RNG_FILE => [ShReadingFile (szDiceFilename x)]
  | RNG_ISAAC | RNG_MERSENNE => [ShSeed (nz x)]
  | RNG_MANUAL | RNG_RANDOM_DOT_ORG => [ShCannotShowSeed]
  end.

(** The two loops that copy the exported words into an array of [size]
    cells, [store i v] writing cell [i]: the words first, then zeros. *)
Definition copy_words {A : Type} (store : A -> nat -> Z -> A) (size : nat)
  (words : list Z) (a : A) : A :=
  let k := Nat.min size (List.length words) in
  let a1 := fold_left (fun a' i => store a' i (nth i words 0)) (seq 0 k) a in
  fold_left (fun a' i => store a' i 0) (seq k (size - k)) a1.

(** [tempmtkey] after the same two loops. *)
Definition mt_key (words : list Z) : list Z :=
  let k := Nat.min SFMT_N32 (List.length words) in
  map (fun i => nth i words 0) (seq 0 k) ++ repeat 0 (SFMT_N32 - k).

Definition InitRNGSeedMP (n0 : Z) (rngx : rng) (x : ctx)
  : option (ctx * list event) :=
  let x := set_c (set_nz x n0) 0 in
  match rngx with
  | RNG_MERSENNE =>
      if mpz_cmp_ui n0 UINT_MAX >? 0 then
        Some (set_sfmt x (sfmt_init_by_array (sfmt x) (mt_key (mpz_export32 n0))), [])
      else InitRNGSeed (u32 (mpz_get_ui n0)) rngx x
  | RNG_MD5 => InitRNGSeed (u32 (mpz_get_ui n0 mod UINT_MAX)) rngx x
  | RNG_BBS =>
      if fZInit x then
        '(_, x', out) <- BBSCheckInitialSeed (set_zSeed x n0) ;;
        Some (x', out)
      else None
  | RNG_ISAAC =>
      Some (set_rc x (irandinit (copy_words randrsl_set RANDSIZ (mpz_export32 n0) (rc x))
                                true), [])
  | RNG_MANUAL | RNG_RANDOM_DOT_ORG | RNG_FILE => Some (x, [])
  end.

Definition InitRNGSeedLong (sz : string) (rngx : rng) (x : ctx)
  : option (Z * ctx * list event) :=
  match mpz_set_str sz with
  | None => Some (-1, x, [])
  | Some n0 =>
      if mpz_sgn n0 <? 0 then Some (-1, x, [])
      else
        '(x', out) <- InitRNGSeedMP n0 rngx x ;;
        Some (0, x', out)
  end.

(** [(unsigned int) (((guint64) tv >> 32) ^ ((guint64) tv & 0xFFFFFFFF))] *)
Definition clock_seed (tv : Z) : Z :=
  let t := u64 tv in
  u32 (Z.lxor (Z.shiftr t 32) (Z.land t 4294967295)).

(** [RNGSystemSeed] with glib 2.28 or later, not on Windows.  [want] says
    whether [pnSeed] is given, [device] is what reading 64 bytes of
    /dev/urandom gives, as 16 words, when it succeeds, and [tv] the time
    of [g_get_real_time].  The result is the value returned, the context,
    what is printed and [*pnSeed]. *)
Definition RNGSystemSeed (rngx : rng) (x : ctx) (want : bool)
  (device : option (list Z)) (tv : Z)
  : option (bool * ctx * list event * option Z) :=
  let by_clock :=
    let n0 := clock_seed tv in
    '(x1, out) <- InitRNGSeed n0 rngx x ;;
    Some (false, set_nz x1 n0, out, if want then Some n0 else None) in
  if want then by_clock
  else
    match device with
    | Some words =>
        '(x1, out) <- InitRNGSeedMP (mpz_import32 words) rngx x ;;
        Some (true, x1, out, None)
    | None => by_clock
    end.

(** [OpenDiceFile]; [opened] is what [g_fopen (sz, "r")] gives. *)
Definition OpenDiceFile (x : ctx) (sz : string) (opened : option FILE)
  : option FILE * ctx :=
  (opened, set_fDice (set_szDiceFilename x (Some sz)) opened).

Definition GetDiceFileName (x : ctx) : option string := szDiceFilename x.

End DiceRest.

(** A library for long seeds to run the code on: a key of four words,
    taken as the number they make. *)
#[local] Instance sample_long_seeds : LongSeedLibrary sample_library := {|
  SFMT_N32 := 4;
  sfmt_init_by_array := fun _ key => mpz_import32 key
|}.

(** A context set up for BBS with modulus 19 * 23 and seed 2, and the
    same after one roll. *)
Definition ctx_bbs_seed2 : rngcontext Z Z :=
  mkctx None None 1 0 1 437 2 0 1 true 0 0 0.

Definition ctx_bbs_rolled2 : rngcontext Z Z :=
  mkctx None None 1 0 1 437 54 0 1 true 2 0 0.


(** *** Reading the dice file, said with positions

    [ReadDiceFile] accepts the bytes '1' to '6'.  [find_face bytes pos]
    is the position of the first such byte at or after [pos], and
    [next_face] goes on from the start of the file when there is none,
    telling whether it did. *)
Definition is_face (b : byte) : bool :=
  (49 <=? Z.of_N (Byte.to_N b)) && (Z.of_N (Byte.to_N b) <=? 54).

Definition face_of (b : byte) : Z := Z.of_N (Byte.to_N b) - 48.

Definition face_at (bytes : list byte) (i : nat) : bool :=
  match nth_error bytes i with
  | Some b => is_face b
  | None => false
  end.

Definition find_face (bytes : list byte) (pos : nat) : option nat :=
  find (face_at bytes) (seq pos (List.length bytes - pos)).

Definition next_face (bytes : list byte) (pos : nat) : option (nat * bool) :=
  match find_face bytes pos with
  | Some i => Some (i, false)
  | None => match find_face bytes 0 with
            | Some i => Some (i, true)
            | None => None
            end
  end.

(** A stream that reads [bytes] without failure, at position [pos]. *)
Definition reading (bytes : list byte) (pos : nat) : FILE :=
  mkFILE bytes pos false false.

(** A dice file with no digit in it, and an empty one. *)
Definition file_no_face : FILE := mkFILE [x30; x37; x0a] 0 false false.

Definition ctx_file_no_face : rngcontext Z Z :=
  mkctx (Some file_no_face) None 1 0 1 0 0 0 0 false 0 0 0.

(** The file "6x\n21" read from position 1. *)
Definition file_6x21 : FILE := mkFILE [x36; x78; x0a; x32; x31] 1 false false.

Definition ctx_file_6x21 : rngcontext Z Z :=
  mkctx (Some file_6x21) None 1 0 1 0 0 0 0 false 0 0 0.


(** A context whose dice file fails on every read. *)
Definition file_failing : FILE := mkFILE [x31] 0 false true.

Definition ctx_file_failing : rngcontext Z Z :=
  mkctx (Some file_failing) (Some "dice.txt"%string) 1 0 1 0 0 0 0 false 0 0 0.


(** What the two reads of a roll print when the file cannot be read. *)
Definition unreadable_printed {A B : Type} (x : rngcontext A B) : list event :=
  match fDice x with
  | None => []
  | Some _ => [EvDiceFileError (szDiceFilename x);
               EvDiceFileError (szDiceFilename x)]
  end.

(** The same library with a random.org that hands out the numbers of a
    list and fails with -1 when the list is used up. *)
Definition dotorg_library : Library := {|
  randctx := Z;
  RANDSIZ := 256;
  randrsl_set := fun _ _ v => v;
  irand := fun s => (lcg s, lcg s);
  irandinit := fun s _ => s;
  sfmt_t := Z;
  sfmt_genrand_uint32 := fun s => (lcg s, lcg s);
  sfmt_init_gen_rand := fun _ v => v;
  md5_buffer := sample_digest;
  mpz_probab_prime_p := trial_division;
  world := list Z;
  GetManualDice := fun d w => (-1, d, w);
  LIBCURL_PROTOCOL_HTTPS := true;
  getDiceRandomDotOrg := fun w => match w with
                                  | [] => (-1, [])
                                  | a :: w' => (a, w')
                                  end;
  reselect := fun _ x w _ => (x, w)
|}.


(** The fields that a roll of kind [k] has no business with: all but the
    counter and the state of the generator of that kind. *)
Definition kept_by_roll {A B : Type} (k : rng) (x y : rngcontext A B) : Prop :=
  szDiceFilename y = szDiceFilename x /\ zModulus y = zModulus x
  /\ zZero y = zZero x /\ zOne y = zOne x /\ fZInit y = fZInit x
  /\ nz y = nz x /\ n y = n x
  /\ (k <> RNG_FILE -> fDice y = fDice x)
  /\ (k <> RNG_ISAAC -> rc y = rc x)
  /\ (k <> RNG_MD5 -> nMD5 y = nMD5 x)
  /\ (k <> RNG_MERSENNE -> sfmt y = sfmt x)
  /\ (k <> RNG_BBS -> zSeed y = zSeed x).

(** What [PrintRNGCounter] shows for kind [k] when the counter is [v]. *)
Definition counter_shown (k : rng) (v : Z) : list shown :=
  match k with
  | RNG_BBS | RNG_ISAAC | RNG_MD5 => [ShCallsSinceSeed v]
  | RNG_RANDOM_DOT_ORG => [ShDiceInBatch v]
  | RNG_FILE => [ShDiceFromFile v]
  | RNG_MERSENNE | RNG_MANUAL => []
  end.


(** The context with the file of the specification after two rolls. *)
Definition ctx_file_rolled_twice : rngcontext Z Z :=
  mkctx (Some (file_at 1)) None 1 0 1 0 0 0 0 false 4 0 0.


(** A context whose MD5 seed is 7, the seed whose digest the sample
    library has rejected. *)
Definition ctx_md5_seven : rngcontext Z Z :=
  mkctx None None 1 7 1 0 0 0 0 false 0 0 0.


(** The fields that seeding kind [k] has no business with: all but the
    counter, the two copies of the seed and the state of the generator
    of that kind. *)
Definition kept_by_seed {A B : Type} (k : rng) (x y : rngcontext A B) : Prop :=
  fDice y = fDice x /\ szDiceFilename y = szDiceFilename x
  /\ zModulus y = zModulus x /\ zZero y = zZero x /\ zOne y = zOne x
  /\ fZInit y = fZInit x
  /\ (k <> RNG_ISAAC -> rc y = rc x)
  /\ (k <> RNG_MD5 -> nMD5 y = nMD5 x)
  /\ (k <> RNG_MERSENNE -> sfmt y = sfmt x)
  /\ (k <> RNG_BBS -> zSeed y = zSeed x).

(** The [i]-th 32-bit word of a number, least significant first. *)
Definition word32 (v : Z) (i : nat) : Z :=
  (Z.abs v / 2 ^ (32 * Z.of_nat i)) mod 2 ^ 32.


(** *** A new context

    [g_try_new0] gives a context of zero bytes, or NULL.  The states of
    ISAAC and SFMT made of zero bytes, the latter with
    [idx = SFMT_N32 + 1], are taken from their libraries. *)
Class FreshStates (L : Library) : Type := {
  rc_zero : randctx;
  sfmt_fresh : sfmt_t
}.

Section NewContext.

Context {L : Library} {LS : LongSeedLibrary L} {FS : FreshStates L}.

Definition fresh_context : rngcontext randctx sfmt_t :=
  mkctx None None rc_zero 0 sfmt_fresh 0 0 0 0 false 0 0 0.

(** [InitRNG]: [allocated] says whether [g_try_new0] succeeded, [want]
    whether [pnSeed] is given; the other arguments are those of
    [RNGSystemSeed].  The result is [None] when the call does not
    return, and otherwise the context returned, if any, with
    [*pfInitFrom], what is printed and [*pnSeed]. *)
Definition InitRNG (allocated want fSet : bool) (rngx : rng)
  (device : option (list Z)) (tv : Z)
  : option (option (rngcontext randctx sfmt_t * bool * list event * option Z)) :=
  if allocated then
    if fSet then
      '(f, x, out, pn) <- RNGSystemSeed rngx fresh_context want device tv ;;
      Some (Some (x, f, out, pn))
    else Some (Some (fresh_context, false, [], None))
  else Some None.

End NewContext.

#[local] Instance sample_fresh : FreshStates sample_library := {|
  rc_zero := 0;
  sfmt_fresh := 0
|}.


(** The faces of a dice file in the order of the file, the [t]-th face
    that a reader going round the file meets, and dice made of
    consecutive faces. *)
Definition file_faces (bytes : list byte) : list byte := filter is_face bytes.

Definition cyclic_face (bytes : list byte) (t : nat) : Z :=
  face_of (nth (t mod List.length (file_faces bytes)) (file_faces bytes) x00).

Fixpoint pair_up (l : list Z) : list (Z * Z) :=
  match l with
  | a :: b :: l' => (a, b) :: pair_up l'
  | _ => []
  end.

(** The faces still ahead of position [pos]. *)
Definition faces_ahead (bytes : list byte) (pos : nat) : list byte :=
  filter is_face (skipn pos bytes).

(** The next face for a reader with the faces [ahead] before the end of
    the file, and the faces ahead after it. *)
Definition pop_face (faces ahead : list byte) : option (byte * list byte) :=
  match ahead with
  | b :: ahead' => Some (b, ahead')
  | [] => match faces with
          | b :: faces' => Some (b, faces')
          | [] => None
          end
  end.

Fixpoint replay (faces ahead : list byte) (k : nat) : list Z :=
  match k with
  | O => []
  | S k' => match pop_face faces ahead with
            | Some (b, ahead') => face_of b :: replay faces ahead' k'
            | None => []
            end
  end.


(** A library whose seeding routines keep what the generator held
    before: each write to the seed array of ISAAC adds to the state, and
    so does seeding SFMT.  And a context whose generators hold 2. *)
Definition leaky_library : Library := {|
  randctx := Z;
  RANDSIZ := 256;
  randrsl_set := fun r _ v => r + v;
  irand := fun s => (lcg s, lcg s);
  irandinit := fun s _ => s;
  sfmt_t := Z;
  sfmt_genrand_uint32 := fun s => (lcg s, lcg s);
  sfmt_init_gen_rand := fun s v => s + v;
  md5_buffer := sample_digest;
  mpz_probab_prime_p := trial_division;
  world := unit;
  GetManualDice := fun d w => (-1, d, w);
  LIBCURL_PROTOCOL_HTTPS := true;
  getDiceRandomDotOrg := fun w => (0, w);
  reselect := fun _ x w _ => (x, w)
|}.

Definition ctx_two : rngcontext Z Z :=
  mkctx None None 2 0 2 0 0 0 0 false 0 0 0.


(** * Proofs *)

Unset Implicit Arguments.

(** ** Integer casts *)

Lemma u32_range (x : Z) : 0 <= u32 x < 4294967296.
Proof. unfold u32. change (2 ^ 32) with 4294967296. apply Z.mod_pos_bound. lia. Qed.

Lemma u32_small (x : Z) : 0 <= x < 4294967296 -> u32 x = x.
Proof. intros H. unfold u32. change (2 ^ 32) with 4294967296. apply Z.mod_small. exact H. Qed.

Lemma die_of_raw_small (r : Z) :
  0 <= r < 4294967296 -> die_of_raw r = 1 + r / exp232_q.
Proof.
  intros H. unfold die_of_raw, exp232_q.
  assert (0 <= r / 715827882 <= 6) by (Z.div_mod_to_equations; lia).
  rewrite (u32_small (r / 715827882)) by lia.
  apply u32_small. lia.
Qed.

Lemma die_of_raw_accepted (r : Z) :
  0 <= r < exp232_l -> 1 <= die_of_raw r <= 6.
Proof.
  unfold exp232_l. intros H. rewrite die_of_raw_small by lia.
  unfold exp232_q. Z.div_mod_to_equations. lia.
Qed.

(** ** The rejection loop *)

Lemma draw_loop_sound {S : Type} (gen : S -> Z * S) (fuel : nat) :
  forall (st : S) (r : Z) (st' : S),
    draw_loop gen fuel st = Some (r, st') ->
    exists k : nat,
      (k < fuel)%nat
      /\ (forall j : nat, (j < k)%nat -> exp232_l <= gen_raw gen j st)
      /\ gen_raw gen k st = r
      /\ 0 <= r < exp232_l
      /\ st' = gen_state gen (Datatypes.S k) st.
Proof.
  induction fuel as [|fuel IH]; intros st r st' H; [discriminate|].
  cbn [draw_loop] in H.
  destruct (gen st) as [r0 st0] eqn:Eg.
  destruct (u32 r0 >=? exp232_l) eqn:Ec.
  - apply IH in H. destruct H as (k & Hk & Hrej & Hr & Hlt & Hst).
    exists (Datatypes.S k). repeat split; try lia.
    + intros [|j] Hj.
      * unfold gen_raw. cbn [gen_state]. rewrite Eg. cbn [fst]. lia.
      * unfold gen_raw. cbn [gen_state]. rewrite Eg. cbn [snd].
        apply Hrej. lia.
    + unfold gen_raw. cbn [gen_state]. rewrite Eg. cbn [snd]. exact Hr.
    + rewrite Hst. cbn [gen_state]. rewrite Eg. reflexivity.
  - inversion H; subst. exists O. repeat split; try lia.
    + unfold gen_raw. cbn [gen_state]. rewrite Eg. reflexivity.
    + pose proof (u32_range r0). lia.
    + cbn [gen_state]. rewrite Eg. reflexivity.
Qed.

Lemma draw_loop_complete {S : Type} (gen : S -> Z * S) (fuel : nat) :
  forall (st : S) (k : nat),
    (k < fuel)%nat ->
    (forall j : nat, (j < k)%nat -> exp232_l <= gen_raw gen j st) ->
    gen_raw gen k st < exp232_l ->
    draw_loop gen fuel st = Some (gen_raw gen k st, gen_state gen (Datatypes.S k) st).
Proof.
  induction fuel as [|fuel IH]; intros st k Hk Hrej Hacc; [lia|].
  cbn [draw_loop].
  destruct (gen st) as [r0 st0] eqn:Eg.
  destruct k as [|k].
  - unfold gen_raw in Hacc. cbn [gen_state] in Hacc. rewrite Eg in Hacc. cbn [fst] in Hacc.
    destruct (u32 r0 >=? exp232_l) eqn:Ec; [lia|].
    unfold gen_raw. cbn [gen_state]. rewrite Eg. reflexivity.
  - pose proof (Hrej O ltac:(lia)) as H0.
    unfold gen_raw in H0. cbn [gen_state] in H0. rewrite Eg in H0. cbn [fst] in H0.
    destruct (u32 r0 >=? exp232_l) eqn:Ec; [|lia].
    assert (E1 : forall j, gen_raw gen (Datatypes.S j) st = gen_raw gen j st0).
    { intros j. unfold gen_raw. cbn [gen_state]. rewrite Eg. reflexivity. }
    assert (E2 : forall j, gen_state gen (Datatypes.S j) st = gen_state gen j st0).
    { intros j. cbn [gen_state]. rewrite Eg. reflexivity. }
    rewrite E1, E2. apply IH; [lia| |rewrite <- E1; exact Hacc].
    intros j Hj. rewrite <- E1. apply Hrej. lia.
Qed.

(** ** Counting the accepted words of a face *)

Lemma count_from_app (P : Z -> bool) (a b : nat) :
  forall lo : Z,
    count_from P lo (a + b) = count_from P lo a + count_from P (lo + Z.of_nat a) b.
Proof.
  induction a as [|a IH]; intros lo.
  - cbn [count_from Nat.add]. replace (lo + Z.of_nat 0) with lo by lia. lia.
  - cbn [count_from Nat.add]. rewrite IH.
    replace (lo + 1 + Z.of_nat a) with (lo + Z.of_nat (Datatypes.S a)) by lia. lia.
Qed.

Lemma count_from_const (P : Z -> bool) (v : bool) (k : nat) :
  forall lo : Z,
    (forall r : Z, lo <= r < lo + Z.of_nat k -> P r = v) ->
    count_from P lo k = if v then Z.of_nat k else 0.
Proof.
  induction k as [|k IH]; intros lo H.
  - destruct v; reflexivity.
  - cbn [count_from]. rewrite IH by (intros r Hr; apply H; lia).
    rewrite (H lo) by lia. destruct v; lia.
Qed.

Lemma accepted_as_interval (f r : Z) :
  1 <= f <= 6 -> 0 <= r < 4294967296 ->
  accepted_as f r = ((f - 1) * exp232_q <=? r) && (r <? f * exp232_q).
Proof.
  intros Hf Hr. unfold accepted_as. rewrite die_of_raw_small by exact Hr.
  unfold exp232_l, exp232_q.
  destruct (r >=? 4294967292) eqn:E1; destruct (1 + r / 715827882 =? f) eqn:E2;
    destruct ((f - 1) * 715827882 <=? r) eqn:E3; destruct (r <? f * 715827882) eqn:E4;
    try reflexivity; exfalso; Z.div_mod_to_equations; lia.
Qed.

Lemma accepted_count (f : Z) :
  1 <= f <= 6 ->
  count_from (accepted_as f) 0 (Z.to_nat 4294967296) = exp232_q.
Proof.
  intros Hf.
  set (a := Z.to_nat ((f - 1) * exp232_q)).
  set (b := Z.to_nat exp232_q).
  set (d := Z.to_nat (4294967296 - f * exp232_q)).
  assert (Ha : Z.of_nat a = (f - 1) * exp232_q) by (unfold a, exp232_q; lia).
  assert (Hb : Z.of_nat b = exp232_q) by (unfold b, exp232_q; lia).
  assert (Hd : Z.of_nat d = 4294967296 - f * exp232_q) by (unfold d, exp232_q; lia).
  replace (Z.to_nat 4294967296) with (a + (b + d))%nat by (unfold exp232_q in *; lia).
  rewrite !count_from_app.
  rewrite (count_from_const _ false a), (count_from_const _ true b),
    (count_from_const _ false d).
  - lia.
  - intros r Hr. rewrite accepted_as_interval by (unfold exp232_q in *; lia).
    unfold exp232_q in *. lia.
  - intros r Hr. rewrite accepted_as_interval by (unfold exp232_q in *; lia).
    unfold exp232_q in *. lia.
  - intros r Hr. rewrite accepted_as_interval by (unfold exp232_q in *; lia).
    unfold exp232_q in *. lia.
Qed.

Lemma gen_raw_range {S : Type} (gen : S -> Z * S) (k : nat) (st : S) :
  0 <= gen_raw gen k st < 4294967296.
Proof. unfold gen_raw. apply u32_range. Qed.

Lemma draw_loop_first {S : Type} (gen : S -> Z * S) (fuel : nat) (st : S) (r : Z) (st' : S) :
  draw_loop gen fuel st = Some (r, st') ->
  exists k : nat,
    (k < fuel)%nat /\ first_accepted gen st k
    /\ r = gen_raw gen k st /\ st' = gen_state gen (Datatypes.S k) st.
Proof.
  intros H. apply draw_loop_sound in H.
  destruct H as (k & Hk & Hrej & Hr & Hlt & Hst).
  exists k. unfold first_accepted. subst r. auto.
Qed.

Lemma two_draws {S : Type} (gen : S -> Z * S) (fuel : nat) (st s1 s2 : S) (r0 r1 : Z) :
  draw_loop gen fuel st = Some (r0, s1) ->
  draw_loop gen fuel s1 = Some (r1, s2) ->
  exists k0 k1 : nat,
    (k0 < fuel)%nat /\ (k1 < fuel)%nat
    /\ sampled_pair gen st k0 k1 (die_of_raw r0, die_of_raw r1) s2
    /\ in_range (die_of_raw r0, die_of_raw r1).
Proof.
  intros H0 H1.
  apply draw_loop_first in H0. destruct H0 as (k0 & Hk0 & Hf0 & Hr0 & Hs1).
  apply draw_loop_first in H1. destruct H1 as (k1 & Hk1 & Hf1 & Hr1 & Hs2).
  exists k0, k1. subst s1. split; [exact Hk0|]. split; [exact Hk1|].
  pose proof Hf0 as [_ Hb0]. pose proof Hf1 as [_ Hb1].
  split.
  - unfold sampled_pair. cbv zeta. split; [exact Hf0|]. split; [exact Hf1|].
    split; [|exact Hs2]. subst r0 r1.
    rewrite !die_of_raw_small by apply gen_raw_range. reflexivity.
  - subst r0 r1. split; cbn [fst snd]; apply die_of_raw_accepted; assumption.
Qed.

Lemma two_draws_return {S : Type} (gen : S -> Z * S) (fuel : nat) (st st' : S)
  (k0 k1 : nat) (d : Z * Z) :
  (k0 < fuel)%nat -> (k1 < fuel)%nat ->
  sampled_pair gen st k0 k1 d st' ->
  exists r0 s1 r1,
    draw_loop gen fuel st = Some (r0, s1)
    /\ draw_loop gen fuel s1 = Some (r1, st')
    /\ d = (die_of_raw r0, die_of_raw r1).
Proof.
  intros Hk0 Hk1 (Hf0 & Hf1 & Hd & Hst).
  exists (gen_raw gen k0 st), (gen_state gen (Datatypes.S k0) st),
    (gen_raw gen k1 (gen_state gen (Datatypes.S k0) st)).
  destruct Hf0 as [Hr0 Ha0]. destruct Hf1 as [Hr1 Ha1].
  split; [apply draw_loop_complete; [exact Hk0|exact Hr0|lia]|].
  split; [rewrite Hst; apply draw_loop_complete; [exact Hk1|exact Hr1|lia]|].
  rewrite !die_of_raw_small by apply gen_raw_range. exact Hd.
Qed.

Lemma in_range_not_out (d : Z * Z) : in_range d <-> out_of_range d = false.
Proof.
  unfold in_range, out_of_range. destruct d as [a b]. cbn [fst snd].
  destruct (a <? 1) eqn:E1, (b <? 1) eqn:E2, (a >? 6) eqn:E3, (b >? 6) eqn:E4;
    cbn; split; intros H; try discriminate; try lia; reflexivity.
Qed.

Section Rolling.

Context {L : Library}.

Abbreviation ctx := (rngcontext randctx sfmt_t).

Lemma RollDice_unfold (fuel : nat) (prng : rng) (x : ctx) (w : world) :
  prng <> RNG_MANUAL ->
  RollDice (S fuel) prng x w =
    ('(d0, d1, x1, w1, out1) <- roll_switch fuel prng x w ;;
     if out_of_range (d0, d1) then
       let '(prng2, x2, w2) := SetRNG prng x1 w1 RNG_MERSENNE in
       r <- RollDice fuel prng2 x2 w2 ;;
       Some (mkrolled 0 (anDice r) (kind r) (rctx r) (rworld r)
                      (out1 ++ EvNotWorking :: printed r))
     else Some (mkrolled 0 (d0, d1) prng x1 w1 out1)).
Proof. intros H. destruct prng; try reflexivity. congruence. Qed.

Lemma RollDice_direct (fuel : nat) (prng : rng) (x x1 : ctx) (w w1 : world)
  (d : Z * Z) (out1 : list event) :
  prng <> RNG_MANUAL ->
  roll_switch fuel prng x w = Some (fst d, snd d, x1, w1, out1) ->
  in_range d ->
  RollDice (S fuel) prng x w = Some (mkrolled 0 d prng x1 w1 out1).
Proof.
  intros Hm Hs Hr. rewrite RollDice_unfold by exact Hm. rewrite Hs. cbn [bind].
  destruct d as [d0 d1]. cbn [fst snd].
  apply in_range_not_out in Hr. rewrite Hr. reflexivity.
Qed.

(** The two ways a call of [RollDice] returns for a kind other than
    manual dice: from the first pass, or from the second pass on the
    Mersenne Twister. *)
Lemma RollDice_inv (fuel : nat) (prng : rng) (x : ctx) (w : world) (r : rolled) :
  prng <> RNG_MANUAL ->
  RollDice fuel prng x w = Some r ->
  exists (f : nat) (d0 d1 : Z) (x1 : ctx) (w1 : world) (out1 : list event),
    fuel = S f
    /\ roll_switch f prng x w = Some (d0, d1, x1, w1, out1)
    /\ ((out_of_range (d0, d1) = false /\ r = mkrolled 0 (d0, d1) prng x1 w1 out1)
        \/ (out_of_range (d0, d1) = true
            /\ exists r' : rolled,
                RollDice f RNG_MERSENNE (fst (reselect prng x1 w1 RNG_MERSENNE))
                         (snd (reselect prng x1 w1 RNG_MERSENNE)) = Some r'
                /\ r = mkrolled 0 (anDice r') (kind r') (rctx r') (rworld r')
                                (out1 ++ EvNotWorking :: printed r'))).
Proof.
  intros Hm H. destruct fuel as [|f]; [discriminate|].
  rewrite RollDice_unfold in H by exact Hm.
  destruct (roll_switch f prng x w) as [[[[[d0 d1] x1] w1] out1]|] eqn:Es;
    [|discriminate].
  cbn [bind] in H. exists f, d0, d1, x1, w1, out1.
  split; [reflexivity|]. split; [exact Es|].
  destruct (out_of_range (d0, d1)) eqn:Eo.
  - right. split; [reflexivity|]. unfold SetRNG in H.
    destruct (reselect prng x1 w1 RNG_MERSENNE) as [x2 w2]. cbn [fst snd].
    destruct (RollDice f RNG_MERSENNE x2 w2) as [r'|]; [|discriminate].
    cbn [bind] in H. exists r'. split; [reflexivity|]. congruence.
  - left. split; [reflexivity|]. congruence.
Qed.

Lemma roll_switch_ISAAC (fuel : nat) (x x1 : ctx) (w w1 : world) (d0 d1 : Z)
  (out1 : list event) :
  roll_switch fuel RNG_ISAAC x w = Some (d0, d1, x1, w1, out1) ->
  exists r0 s1 r1 s2,
    draw_loop irand fuel (rc x) = Some (r0, s1)
    /\ draw_loop irand fuel s1 = Some (r1, s2)
    /\ d0 = die_of_raw r0 /\ d1 = die_of_raw r1
    /\ x1 = count2 (set_rc x s2) /\ w1 = w /\ out1 = [].
Proof.
  cbn [roll_switch]. intros H.
  destruct (draw_loop irand fuel (rc x)) as [[r0 s1]|]; [|discriminate].
  cbn [bind] in H.
  destruct (draw_loop irand fuel s1) as [[r1 s2]|] eqn:E1; [|discriminate].
  cbn [bind] in H. inversion H; subst.
  exists r0, s1, r1, s2. repeat split; try reflexivity. exact E1.
Qed.

Lemma roll_switch_MERSENNE (fuel : nat) (x x1 : ctx) (w w1 : world) (d0 d1 : Z)
  (out1 : list event) :
  roll_switch fuel RNG_MERSENNE x w = Some (d0, d1, x1, w1, out1) ->
  exists r0 s1 r1 s2,
    draw_loop sfmt_genrand_uint32 fuel (sfmt x) = Some (r0, s1)
    /\ draw_loop sfmt_genrand_uint32 fuel s1 = Some (r1, s2)
    /\ d0 = die_of_raw r0 /\ d1 = die_of_raw r1
    /\ x1 = count2 (set_sfmt x s2) /\ w1 = w /\ out1 = [].
Proof.
  cbn [roll_switch]. intros H.
  destruct (draw_loop sfmt_genrand_uint32 fuel (sfmt x)) as [[r0 s1]|]; [|discriminate].
  cbn [bind] in H.
  destruct (draw_loop sfmt_genrand_uint32 fuel s1) as [[r1 s2]|] eqn:E1; [|discriminate].
  cbn [bind] in H. inversion H; subst.
  exists r0, s1, r1, s2. repeat split; try reflexivity. exact E1.
Qed.

End Rolling.

(** ** Claim C1: the rejection sampler of ISAAC and the Mersenne Twister *)

(** C1.  With [q = 715827882 = floor (2^32 / 6)] and [limit = 4294967292
    = 6 q], a roll of kind ISAAC or Mersenne Twister that returns leaves
    two dice sampled by rejection: each is [1 + floor (r / q)] for the
    first word [r] of the generator below the limit, all words before it
    being discarded; both dice lie in [1,6], the kind is kept and nothing
    is printed.  The roll does return once both accepted words come within
    the fuel.  Each face is the image of exactly [q] of the 2^32 raw
    words. *)
Theorem RollDice_rejection_sampling :
  forall (L : Library) (k : rng) (fuel : nat)
         (x : rngcontext randctx sfmt_t) (w : world),
    k = RNG_ISAAC \/ k = RNG_MERSENNE ->
    exp232_q = 2 ^ 32 / 6
    /\ exp232_l = 6 * exp232_q
    /\ (forall r : rolled,
           RollDice fuel k x w = Some r ->
           (exists k0 k1 : nat, sampled_by k x k0 k1 (anDice r) (rctx r))
           /\ in_range (anDice r) /\ kind r = k /\ printed r = [] /\ ret r = 0)
    /\ (forall (k0 k1 : nat) (d : Z * Z) (x' : rngcontext randctx sfmt_t),
           (k0 < fuel)%nat -> (k1 < fuel)%nat ->
           sampled_by k x k0 k1 d x' ->
           exists r : rolled, RollDice (S fuel) k x w = Some r /\ anDice r = d)
    /\ (forall f : Z,
           1 <= f <= 6 ->
           count_from (accepted_as f) 0 (Z.to_nat (2 ^ 32)) = exp232_q).
Proof.
  intros L k fuel x w Hk.
  split; [reflexivity|]. split; [reflexivity|].
  split; [|split].
  - intros r Hr.
    assert (Hm : k <> RNG_MANUAL) by (destruct Hk; subst; discriminate).
    destruct (RollDice_inv _ _ _ _ _ Hm Hr)
      as (f & d0 & d1 & x1 & w1 & out1 & Hf & Hs & Hcase).
    destruct Hk; subst k.
    + apply roll_switch_ISAAC in Hs.
      destruct Hs as (r0 & s1 & r1 & s2 & E0 & E1 & -> & -> & -> & -> & ->).
      destruct (two_draws _ _ _ _ _ _ _ E0 E1) as (k0 & k1 & _ & _ & Hsp & Hin).
      destruct Hcase as [[_ ->]|[Ho _]].
      * cbn [anDice rctx kind printed ret]. repeat split; try apply Hin.
        exists k0, k1. exact Hsp.
      * apply in_range_not_out in Hin. congruence.
    + apply roll_switch_MERSENNE in Hs.
      destruct Hs as (r0 & s1 & r1 & s2 & E0 & E1 & -> & -> & -> & -> & ->).
      destruct (two_draws _ _ _ _ _ _ _ E0 E1) as (k0 & k1 & _ & _ & Hsp & Hin).
      destruct Hcase as [[_ ->]|[Ho _]].
      * cbn [anDice rctx kind printed ret]. repeat split; try apply Hin.
        exists k0, k1. exact Hsp.
      * apply in_range_not_out in Hin. congruence.
  - intros k0 k1 d x' Hk0 Hk1 Hsp.
    destruct Hk; subst k; cbn [sampled_by] in Hsp.
    + destruct (two_draws_return _ fuel _ _ _ _ _ Hk0 Hk1 Hsp)
        as (r0 & s1 & r1 & E0 & E1 & Hd).
      assert (Hin : in_range d).
      { destruct (two_draws _ _ _ _ _ _ _ E0 E1) as (_ & _ & _ & _ & _ & Hin).
        rewrite Hd. exact Hin. }
      exists (mkrolled 0 d RNG_ISAAC (count2 (set_rc x (rc x'))) w []).
      split; [|reflexivity].
      apply RollDice_direct; [discriminate| |exact Hin].
      cbn [roll_switch]. rewrite E0. cbn [bind]. rewrite E1. cbn [bind].
      rewrite Hd. reflexivity.
    + destruct (two_draws_return _ fuel _ _ _ _ _ Hk0 Hk1 Hsp)
        as (r0 & s1 & r1 & E0 & E1 & Hd).
      assert (Hin : in_range d).
      { destruct (two_draws _ _ _ _ _ _ _ E0 E1) as (_ & _ & _ & _ & _ & Hin).
        rewrite Hd. exact Hin. }
      exists (mkrolled 0 d RNG_MERSENNE (count2 (set_sfmt x (sfmt x'))) w []).
      split; [|reflexivity].
      apply RollDice_direct; [discriminate| |exact Hin].
      cbn [roll_switch]. rewrite E0. cbn [bind]. rewrite E1. cbn [bind].
      rewrite Hd. reflexivity.
  - intros f Hf. change (2 ^ 32) with 4294967296. apply accepted_count. exact Hf.
Qed.

(** ** Claim C2: the trit automaton on coin tosses *)

Lemma count_bits_const (n : nat) (v : bool) :
  count_bits n (fun _ => v) = if v then 2 ^ Z.of_nat n else 0.
Proof.
  induction n as [|n IH].
  - destruct v; reflexivity.
  - cbn [count_bits]. rewrite IH. rewrite Nat2Z.inj_succ, Z.pow_succ_r by lia.
    destruct v; lia.
Qed.

Lemma trit_count_start (n : nat) (t : Z) :
  trit_count_from 0 (S n) t = trit_count_from 1 n t + trit_count_from 2 n t.
Proof. reflexivity. Qed.

Lemma trit_count_1 (n : nat) (t : Z) :
  trit_count_from 1 (S n) t
  = (if 0 =? t then 2 ^ Z.of_nat n else 0) + trit_count_from 3 n t.
Proof. rewrite <- count_bits_const. reflexivity. Qed.

Lemma trit_count_2 (n : nat) (t : Z) :
  trit_count_from 2 (S n) t
  = trit_count_from 4 n t + (if 2 =? t then 2 ^ Z.of_nat n else 0).
Proof. rewrite <- count_bits_const. reflexivity. Qed.

Lemma trit_count_3 (n : nat) (t : Z) :
  trit_count_from 3 (S n) t
  = trit_count_from 1 n t + (if 1 =? t then 2 ^ Z.of_nat n else 0).
Proof. rewrite <- count_bits_const. reflexivity. Qed.

Lemma trit_count_4 (n : nat) (t : Z) :
  trit_count_from 4 (S n) t
  = (if 1 =? t then 2 ^ Z.of_nat n else 0) + trit_count_from 2 n t.
Proof. rewrite <- count_bits_const. reflexivity. Qed.

Ltac eval_closed_eqb :=
  repeat match goal with
         | |- context [?a =? ?b] =>
             let v := eval vm_compute in (a =? b) in
             progress change (a =? b) with v
         end;
  cbv beta iota.

(** From the four inner states the counts stay within 2/3 of the
    probabilities 2/3, 1/3 and 0. *)
Lemma trit_count_inner (n : nat) :
  (0 <= 2 * 2 ^ Z.of_nat n - 3 * trit_count_from 1 n 0 <= 2
   /\ 0 <= 2 ^ Z.of_nat n - 3 * trit_count_from 1 n 1 <= 2
   /\ trit_count_from 1 n 2 = 0)
  /\ (trit_count_from 2 n 0 = 0
      /\ 0 <= 2 ^ Z.of_nat n - 3 * trit_count_from 2 n 1 <= 2
      /\ 0 <= 2 * 2 ^ Z.of_nat n - 3 * trit_count_from 2 n 2 <= 2)
  /\ (0 <= 2 ^ Z.of_nat n - 3 * trit_count_from 3 n 0 <= 2
      /\ 0 <= 2 * 2 ^ Z.of_nat n - 3 * trit_count_from 3 n 1 <= 2
      /\ trit_count_from 3 n 2 = 0)
  /\ (trit_count_from 4 n 0 = 0
      /\ 0 <= 2 * 2 ^ Z.of_nat n - 3 * trit_count_from 4 n 1 <= 2
      /\ 0 <= 2 ^ Z.of_nat n - 3 * trit_count_from 4 n 2 <= 2).
Proof.
  induction n as [|n IH].
  - change (Z.of_nat 0) with 0. change (2 ^ 0) with 1.
    repeat match goal with
           | |- context [trit_count_from ?s 0 ?t] =>
               change (trit_count_from s 0 t) with 0
           end.
    lia.
  - rewrite !trit_count_1, !trit_count_2, !trit_count_3, !trit_count_4.
    eval_closed_eqb.
    rewrite Nat2Z.inj_succ, Z.pow_succ_r by lia.
    set (p := 2 ^ Z.of_nat n) in *. lia.
Qed.

Lemma trit_count_bounds (n : nat) (t : Z) :
  0 <= t <= 2 -> 0 <= 2 ^ Z.of_nat n - 3 * trit_count n t <= 4.
Proof.
  intros Ht. change (trit_count n t) with (trit_count_from 0 n t).
  destruct n as [|n].
  - change (trit_count_from 0 0 t) with 0. change (2 ^ Z.of_nat 0) with 1. lia.
  - rewrite trit_count_start. rewrite Nat2Z.inj_succ, Z.pow_succ_r by lia.
    pose proof (trit_count_inner n) as H.
    set (p := 2 ^ Z.of_nat n) in *.
    assert (Hc : t = 0 \/ t = 1 \/ t = 2) by lia.
    destruct Hc as [->|[->| ->]]; lia.
Qed.

Lemma BBSGetTrit_loop_values {St : Type} (getbit : St -> option (Z * St)) (fuel : nat) :
  forall (s : Z) (st : St) (t : Z) (st' : St),
    BBSGetTrit_loop getbit fuel s st = Some (t, st') -> 0 <= t <= 2.
Proof.
  induction fuel as [|fuel IH]; intros s st t st' H; [discriminate|].
  cbn [BBSGetTrit_loop] in H.
  destruct s as [|p|p]; try (eapply IH; exact H).
  - destruct (getbit st) as [[b st1]|]; [|discriminate]. cbn [bind] in H.
    eapply IH; exact H.
  - destruct p as [p|p|]; try destruct p as [p|p|]; try destruct p as [p|p|];
      try (eapply IH; exact H);
      (destruct (getbit st) as [[b st1]|]; [|discriminate]); cbn [bind] in H;
      destruct (negb (b =? 0));
      try (eapply IH; exact H); inversion H; lia.
Qed.

Lemma bit_count_succ (t : Z) (n : nat) (f : Z) :
  bit_count t (S n) f
  = (if u32 (t + 0 * 3 + 1) =? f then 2 ^ Z.of_nat n else 0)
    + (if u32 (t + 1 * 3 + 1) =? f then 2 ^ Z.of_nat n else 0).
Proof. rewrite <- !count_bits_const. reflexivity. Qed.

Lemma face_count_start (n : nat) (f : Z) :
  face_count_from 0 (S n) f = face_count_from 1 n f + face_count_from 2 n f.
Proof. reflexivity. Qed.

Lemma face_count_1 (n : nat) (f : Z) :
  face_count_from 1 (S n) f = bit_count 0 n f + face_count_from 3 n f.
Proof. reflexivity. Qed.

Lemma face_count_2 (n : nat) (f : Z) :
  face_count_from 2 (S n) f = face_count_from 4 n f + bit_count 2 n f.
Proof. reflexivity. Qed.

Lemma face_count_3 (n : nat) (f : Z) :
  face_count_from 3 (S n) f = face_count_from 1 n f + bit_count 1 n f.
Proof. reflexivity. Qed.

Lemma face_count_4 (n : nat) (f : Z) :
  face_count_from 4 (S n) f = bit_count 1 n f + face_count_from 2 n f.
Proof. reflexivity. Qed.

(** One more bit read after the trit: the strings of length [n + 1] that
    give trit [t] and then bit [b] are as many as the strings of length
    [n] that give trit [t]. *)
Lemma face_count_inner (t b : Z) (n : nat) :
  0 <= t <= 2 -> 0 <= b <= 1 ->
  face_count_from 1 (S n) (t + 3 * b + 1) = trit_count_from 1 n t
  /\ face_count_from 2 (S n) (t + 3 * b + 1) = trit_count_from 2 n t
  /\ face_count_from 3 (S n) (t + 3 * b + 1) = trit_count_from 3 n t
  /\ face_count_from 4 (S n) (t + 3 * b + 1) = trit_count_from 4 n t.
Proof.
  intros Ht Hb.
  assert (Hc : (t = 0 \/ t = 1 \/ t = 2) /\ (b = 0 \/ b = 1)) by lia.
  induction n as [|n IH].
  - repeat split; reflexivity.
  - destruct IH as (I1 & I2 & I3 & I4).
    rewrite (face_count_1 (S n)), (face_count_2 (S n)), (face_count_3 (S n)),
      (face_count_4 (S n)).
    rewrite I1, I2, I3, I4.
    rewrite (trit_count_1 n), (trit_count_2 n), (trit_count_3 n), (trit_count_4 n).
    rewrite !bit_count_succ.
    destruct Hc as [[->|[->| ->]] [->| ->]]; eval_closed_eqb; lia.
Qed.

Lemma face_count_as_trit_count (t b : Z) (n : nat) :
  0 <= t <= 2 -> 0 <= b <= 1 ->
  face_count (S n) (t + 3 * b + 1) = trit_count n t.
Proof.
  intros Ht Hb.
  change (face_count (S n) (t + 3 * b + 1))
    with (face_count_from 0 (S n) (t + 3 * b + 1)).
  change (trit_count n t) with (trit_count_from 0 n t).
  rewrite face_count_start.
  destruct n as [|n]; [reflexivity|].
  destruct (face_count_inner t b n Ht Hb) as (I1 & I2 & _ & _).
  rewrite I1, I2, trit_count_start. reflexivity.
Qed.

Lemma face_count_bounds (n : nat) (f : Z) :
  1 <= f <= 6 -> 0 <= 2 ^ Z.of_nat n - 6 * face_count n f <= 8.
Proof.
  intros Hf.
  destruct n as [|n].
  - change (face_count 0 f) with 0. change (2 ^ Z.of_nat 0) with 1. lia.
  - assert (Hs : exists t b, 0 <= t <= 2 /\ 0 <= b <= 1 /\ f = t + 3 * b + 1).
    { destruct (Z_le_gt_dec f 3).
      - exists (f - 1), 0. lia.
      - exists (f - 4), 1. lia. }
    destruct Hs as (t & b & Ht & Hb & ->).
    rewrite face_count_as_trit_count by assumption.
    rewrite Nat2Z.inj_succ, Z.pow_succ_r by lia.
    pose proof (trit_count_bounds n t Ht). lia.
Qed.

Lemma land_1_bit (x : Z) : Z.land x 1 = 0 \/ Z.land x 1 = 1.
Proof.
  assert (H : Z.land x 1 = x mod 2) by exact (Z.land_ones x 1 ltac:(lia)).
  rewrite H. pose proof (Z.mod_pos_bound x 2). lia.
Qed.

Lemma BBS_die_from_range {St : Type} (getbit : St -> option (Z * St)) (fuel : nat)
  (st st' : St) (f : Z) :
  (forall s b s', getbit s = Some (b, s') -> b = 0 \/ b = 1) ->
  BBS_die_from getbit fuel st = Some (f, st') -> 1 <= f <= 6.
Proof.
  intros Hbit H. unfold BBS_die_from in H.
  destruct (BBSGetTrit_from getbit fuel st) as [[t st1]|] eqn:Et; [|discriminate].
  cbn [bind] in H.
  destruct (getbit st1) as [[b st2]|] eqn:Eb; [|discriminate].
  cbn [bind] in H. inversion H; subst.
  apply BBSGetTrit_loop_values in Et. apply Hbit in Eb.
  rewrite u32_small by lia. lia.
Qed.

Section BBSRolling.

Context {L : Library}.

Abbreviation ctx := (rngcontext randctx sfmt_t).

Lemma BBSGetBit_bit (x x' : ctx) (b : Z) :
  BBSGetBit x = Some (b, x') -> b = 0 \/ b = 1.
Proof.
  unfold BBSGetBit. intros H.
  destruct (mpz_powm_ui (zSeed x) 2 (zModulus x)) as [s|]; [|discriminate].
  cbn [bind] in H. inversion H. apply land_1_bit.
Qed.

Lemma BBS_die_range (fuel : nat) (x x' : ctx) (f : Z) :
  BBS_die_from BBSGetBit fuel x = Some (f, x') -> 1 <= f <= 6.
Proof.
  apply BBS_die_from_range. intros s b s' H. eapply BBSGetBit_bit. exact H.
Qed.

Lemma roll_switch_BBS_sound (fuel : nat) (x : ctx) (w : world) :
  BBSCheck x = 0 ->
  roll_switch fuel RNG_BBS x w =
    ('(d0, x1) <- BBS_die_from BBSGetBit fuel x ;;
     '(d1, x2) <- BBS_die_from BBSGetBit fuel x1 ;;
     Some (d0, d1, count2 x2, w, [])).
Proof. intros H. cbn [roll_switch]. rewrite H. reflexivity. Qed.

Lemma roll_switch_BBS_failed (fuel : nat) (x : ctx) (w : world) :
  BBSCheck x <> 0 ->
  roll_switch fuel RNG_BBS x w
  = Some (0, 0, set_zSeed x (zZero x), w, [EvBBSInvalidSeed]).
Proof.
  intros H. cbn [roll_switch].
  destruct (BBSCheck x =? 0) eqn:E; [apply Z.eqb_eq in E; contradiction|].
  reflexivity.
Qed.

Lemma roll_switch_BBS_range (fuel : nat) (x x1 : ctx) (w w1 : world) (d0 d1 : Z)
  (out1 : list event) :
  BBSCheck x = 0 ->
  roll_switch fuel RNG_BBS x w = Some (d0, d1, x1, w1, out1) ->
  in_range (d0, d1) /\ w1 = w /\ out1 = [].
Proof.
  intros Hc H. rewrite roll_switch_BBS_sound in H by exact Hc.
  destruct (BBS_die_from BBSGetBit fuel x) as [[e0 y1]|] eqn:E0; [|discriminate].
  cbn [bind] in H.
  destruct (BBS_die_from BBSGetBit fuel y1) as [[e1 y2]|] eqn:E1; [|discriminate].
  cbn [bind] in H. inversion H; subst.
  apply BBS_die_range in E0. apply BBS_die_range in E1.
  repeat split; cbn [fst snd]; lia.
Qed.

End BBSRolling.

(** C2.  Whatever the bits, [BBSGetTrit] returns 0, 1 or 2.  On coin
    tosses, of the [2^n] bit strings of length [n] those on which it has
    returned [t] number between [(2^n - 4) / 3] and [2^n / 3], for each
    [t]: the measure of the strings that return [t] is [1/3] up to
    [4 / (3 * 2^n)] for every [n], hence exactly [1/3].  A BBS die is
    [trit + 3 * bit + 1] with one more bit, in [1,6]; every combination
    of trit and bit has as many strings of length [n + 1] as its trit has
    of length [n], so that each face has measure [1/6]. *)
Theorem BBSGetTrit_uniform :
  forall L : Library,
    (forall (St : Type) (getbit : St -> option (Z * St)) (fuel : nat)
            (st st' : St) (t : Z),
        BBSGetTrit_from getbit fuel st = Some (t, st') -> 0 <= t <= 2)
    /\ (forall (n : nat) (t : Z),
           0 <= t <= 2 -> 0 <= 2 ^ Z.of_nat n - 3 * trit_count n t <= 4)
    /\ (forall (fuel : nat) (x : rngcontext randctx sfmt_t) (w : world),
           BBSCheck x = 0 ->
           roll_switch fuel RNG_BBS x w =
             ('(d0, x1) <- BBS_die_from BBSGetBit fuel x ;;
              '(d1, x2) <- BBS_die_from BBSGetBit fuel x1 ;;
              Some (d0, d1, count2 x2, w, [])))
    /\ (forall (St : Type) (getbit : St -> option (Z * St)) (fuel : nat) (st : St),
           BBS_die_from getbit fuel st =
             ('(t, st1) <- BBSGetTrit_from getbit fuel st ;;
              '(b, st2) <- getbit st1 ;;
              Some (u32 (t + b * 3 + 1), st2)))
    /\ (forall (fuel : nat) (x x' : rngcontext randctx sfmt_t) (f : Z),
           BBS_die_from BBSGetBit fuel x = Some (f, x') -> 1 <= f <= 6)
    /\ (forall (n : nat) (t b : Z),
           0 <= t <= 2 -> 0 <= b <= 1 ->
           face_count (S n) (t + 3 * b + 1) = trit_count n t)
    /\ (forall (n : nat) (f : Z),
           1 <= f <= 6 -> 0 <= 2 ^ Z.of_nat n - 6 * face_count n f <= 8).
Proof.
  intros L. split; [|split; [|split; [|split; [|split; [|split]]]]].
  - intros St getbit fuel st st' t H. eapply BBSGetTrit_loop_values. exact H.
  - intros n t Ht. apply trit_count_bounds. exact Ht.
  - intros fuel x w H. apply roll_switch_BBS_sound. exact H.
  - intros St getbit fuel st. reflexivity.
  - intros fuel x x' f H. eapply BBS_die_range. exact H.
  - intros n t b Ht Hb. apply face_count_as_trit_count; assumption.
  - intros n f Hf. apply face_count_bounds. exact Hf.
Qed.

Lemma BBSGetTrit_uniform_witness :
  0 <= 2 ^ Z.of_nat 6 - 3 * trit_count 6 0 <= 4
  /\ face_count 7 4 = trit_count 6 0.
Proof.
  destruct (BBSGetTrit_uniform sample_library) as (_ & Ht & _ & _ & _ & Hf & _).
  split.
  - apply (Ht 6%nat 0). lia.
  - apply (Hf 6%nat 0 1); lia.
Defined.

Lemma RollDice_rejection_sampling_witness :
  RollDice (L := sample_library) 3 RNG_ISAAC ctx0 tt
  = Some (mkrolled 0 (2, 3) RNG_ISAAC (count2 (set_rc ctx0 1586005467)) tt [])
  /\ in_range (2, 3).
Proof.
  assert (E : RollDice (L := sample_library) 3 RNG_ISAAC ctx0 tt
              = Some (mkrolled 0 (2, 3) RNG_ISAAC
                               (count2 (set_rc ctx0 1586005467)) tt []))
    by reflexivity.
  split; [exact E|].
  destruct (RollDice_rejection_sampling sample_library RNG_ISAAC 3 ctx0 tt
              (or_introl eq_refl)) as (_ & _ & H & _).
  destruct (H _ E) as (_ & Hin & _). exact Hin.
Defined.

(** ** Claim C3: the fallback of [RollDice] *)

Section Fallback.

Context {L : Library}.

Abbreviation ctx := (rngcontext randctx sfmt_t).

Lemma RollDice_MERSENNE_inv (fuel : nat) (x : ctx) (w : world) (r : rolled) :
  RollDice fuel RNG_MERSENNE x w = Some r ->
  (exists k0 k1 : nat,
      (S k0 < fuel)%nat /\ (S k1 < fuel)%nat
      /\ sampled_pair sfmt_genrand_uint32 (sfmt x) k0 k1 (anDice r) (sfmt (rctx r)))
  /\ in_range (anDice r) /\ kind r = RNG_MERSENNE /\ printed r = []
  /\ ret r = 0 /\ rworld r = w.
Proof.
  intros Hr.
  assert (Hm : RNG_MERSENNE <> RNG_MANUAL) by discriminate.
  destruct (RollDice_inv _ _ _ _ _ Hm Hr)
    as (f & d0 & d1 & x1 & w1 & out1 & Hf & Hs & Hcase).
  apply roll_switch_MERSENNE in Hs.
  destruct Hs as (r0 & s1 & r1 & s2 & E0 & E1 & -> & -> & -> & -> & ->).
  destruct (two_draws _ _ _ _ _ _ _ E0 E1) as (k0 & k1 & Hk0 & Hk1 & Hsp & Hin).
  destruct Hcase as [[_ ->]|[Ho _]].
  - cbn [anDice rctx kind printed ret rworld]. repeat split; try apply Hin.
    exists k0, k1. repeat split; try lia; apply Hsp.
  - apply in_range_not_out in Hin. congruence.
Qed.

Lemma RollDice_MERSENNE_return (fuel : nat) (x x' : ctx) (w : world)
  (k0 k1 : nat) (d : Z * Z) :
  (k0 < fuel)%nat -> (k1 < fuel)%nat ->
  sampled_pair sfmt_genrand_uint32 (sfmt x) k0 k1 d (sfmt x') ->
  RollDice (S fuel) RNG_MERSENNE x w
  = Some (mkrolled 0 d RNG_MERSENNE (count2 (set_sfmt x (sfmt x'))) w []).
Proof.
  intros Hk0 Hk1 Hsp.
  destruct (two_draws_return _ fuel _ _ _ _ _ Hk0 Hk1 Hsp)
    as (r0 & s1 & r1 & E0 & E1 & Hd).
  assert (Hin : in_range d).
  { destruct (two_draws _ _ _ _ _ _ _ E0 E1) as (_ & _ & _ & _ & _ & Hin).
    rewrite Hd. exact Hin. }
  apply RollDice_direct; [discriminate| |exact Hin].
  cbn [roll_switch]. rewrite E0. cbn [bind]. rewrite E1. cbn [bind].
  rewrite Hd. reflexivity.
Qed.

Lemma uglyloop_quiet (fuel : nat) (name : option string) :
  forall (f f' : FILE) (r : Z) (out : list event),
    uglyloop fuel name f = Some (r, f', out) ->
    filter event_is_fallback out = [].
Proof.
  induction fuel as [|fuel IH]; intros f f' r out H; [discriminate|].
  cbn [uglyloop] in H.
  destruct (fread1 f) as [[k uch] f1].
  destruct (feof f1).
  - destruct (uglyloop fuel name (fseek0 f1)) as [[[r2 f2] out2]|] eqn:E;
      [|discriminate].
    cbn [bind] in H. inversion H; subst. cbn [filter event_is_fallback].
    eapply IH. exact E.
  - destruct (negb (k =? 1)); [inversion H; reflexivity|].
    destruct ((uch >=? 49) && (uch <=? 54)); [inversion H; reflexivity|].
    eapply IH. exact H.
Qed.

Lemma ReadDiceFile_quiet (fuel : nat) (x x' : ctx) (r : Z) (out : list event) :
  ReadDiceFile fuel x = Some (r, x', out) ->
  filter event_is_fallback out = [].
Proof.
  unfold ReadDiceFile. intros H.
  destruct (fDice x) as [f|]; [|inversion H; reflexivity].
  destruct (uglyloop fuel (szDiceFilename x) f) as [[[r2 f2] out2]|] eqn:E;
    [|discriminate].
  cbn [bind] in H. inversion H; subst. eapply uglyloop_quiet. exact E.
Qed.

Lemma md5_loop_accepted (fuel : nat) :
  forall (h h' : Z * Z) (x x' : ctx),
    md5_loop fuel h x = Some (h', x') ->
    0 <= u32 (fst h') < exp232_l /\ 0 <= u32 (snd h') < exp232_l.
Proof.
  induction fuel as [|fuel IH]; intros h h' x x' H; cbn [md5_loop] in H.
  - destruct (u32 (fst h) >=? exp232_l) eqn:E0;
      destruct (u32 (snd h) >=? exp232_l) eqn:E1; cbn [orb] in H;
      try discriminate.
    inversion H; subst. pose proof (u32_range (fst h')).
    pose proof (u32_range (snd h')). lia.
  - destruct (u32 (fst h) >=? exp232_l) eqn:E0;
      destruct (u32 (snd h) >=? exp232_l) eqn:E1; cbn [orb] in H;
      try (eapply IH; exact H).
    inversion H; subst. pose proof (u32_range (fst h')).
    pose proof (u32_range (snd h')). lia.
Qed.

Lemma md5_die_range (a : Z) :
  0 <= a < exp232_l -> 1 <= u32 (a / exp232_q + 1) <= 6.
Proof.
  unfold exp232_l, exp232_q. intros H.
  assert (0 <= a / 715827882 <= 5) by (Z.div_mod_to_equations; lia).
  rewrite u32_small by lia. lia.
Qed.

Lemma roll_switch_MD5 (fuel : nat) (x x1 : ctx) (w w1 : world) (d0 d1 : Z)
  (out1 : list event) :
  roll_switch fuel RNG_MD5 x w = Some (d0, d1, x1, w1, out1) ->
  exists (h : Z * Z) (y : ctx),
    md5_loop fuel (md5_buffer (nMD5 x)) x = Some (h, y)
    /\ d0 = u32 (u32 (fst h) / exp232_q + 1)
    /\ d1 = u32 (u32 (snd h) / exp232_q + 1)
    /\ x1 = count2 (set_nMD5 y (u32 (nMD5 y + 1)))
    /\ w1 = w /\ out1 = [] /\ in_range (d0, d1).
Proof.
  cbn [roll_switch]. intros H.
  destruct (md5_loop fuel (md5_buffer (nMD5 x)) x) as [[h y]|] eqn:E; [|discriminate].
  cbn [bind] in H. inversion H; subst.
  exists h, y. repeat split; try reflexivity;
    cbn [fst snd]; apply md5_loop_accepted in E; apply md5_die_range; apply E.
Qed.

(** The [switch] itself never prints the fallback warning. *)
Lemma roll_switch_quiet (fuel : nat) (k : rng) (x x1 : ctx) (w w1 : world)
  (d0 d1 : Z) (out1 : list event) :
  roll_switch fuel k x w = Some (d0, d1, x1, w1, out1) ->
  filter event_is_fallback out1 = [].
Proof.
  intros H. destruct k.
  - cbn [roll_switch] in H. destruct (negb (BBSCheck x =? 0)).
    + inversion H. reflexivity.
    + destruct (BBS_die_from BBSGetBit fuel x) as [[e0 y1]|]; [|discriminate].
      cbn [bind] in H.
      destruct (BBS_die_from BBSGetBit fuel y1) as [[e1 y2]|]; [|discriminate].
      cbn [bind] in H. inversion H. reflexivity.
  - apply roll_switch_ISAAC in H.
    destruct H as (? & ? & ? & ? & _ & _ & _ & _ & _ & _ & ->). reflexivity.
  - apply roll_switch_MD5 in H.
    destruct H as (? & ? & _ & _ & _ & _ & _ & -> & _). reflexivity.
  - apply roll_switch_MERSENNE in H.
    destruct H as (? & ? & ? & ? & _ & _ & _ & _ & _ & _ & ->). reflexivity.
  - discriminate.
  - cbn [roll_switch] in H. destruct LIBCURL_PROTOCOL_HTTPS.
    + destruct (getDiceRandomDotOrg w) as [v0 w2].
      destruct (u32 v0 >? 0).
      * destruct (getDiceRandomDotOrg w2) as [v1 w3]. inversion H. reflexivity.
      * inversion H. reflexivity.
    + inversion H. reflexivity.
  - cbn [roll_switch] in H.
    destruct (ReadDiceFile fuel x) as [[[e0 y1] o0]|] eqn:E0; [|discriminate].
    cbn [bind] in H.
    destruct (ReadDiceFile fuel y1) as [[[e1 y2] o1]|] eqn:E1; [|discriminate].
    cbn [bind] in H. inversion H; subst.
    rewrite filter_app.
    rewrite (ReadDiceFile_quiet _ _ _ _ _ E0), (ReadDiceFile_quiet _ _ _ _ _ E1).
    reflexivity.
Qed.

End Fallback.

(** C3 as stated fails for manual dice: the [RNG_MANUAL] branch returns
    from inside the [switch].  With a user who cancels the dialog the
    call returns -1 with the pair (0,0), prints no warning and keeps the
    kind. *)
Lemma RollDice_manual_skips_fallback :
  RollDice (L := sample_library) 1 RNG_MANUAL ctx0 tt
  = Some (mkrolled (-1) (0, 0) RNG_MANUAL ctx0 tt [])
  /\ out_of_range (0, 0) = true
  /\ ~ (forall (k : rng) (r : rolled),
           RollDice (L := sample_library) 1 k ctx0 tt = Some r ->
           in_range (anDice r)).
Proof.
  split; [reflexivity|]. split; [reflexivity|].
  intros H.
  specialize (H RNG_MANUAL (mkrolled (-1) (0, 0) RNG_MANUAL ctx0 tt []) eq_refl).
  destruct H as [[H _] _]. cbn in H. lia.
Qed.

(** C3, amended.  For every kind other than manual dice: a call that
    returns returns 0 with a pair in [1,6] and has printed the warning at
    most once.  Either the pair of the first pass was in range and is the
    result, with the kind kept and no warning; or it was out of range,
    the warning was printed once after the output of the first pass, the
    kind is [RNG_MERSENNE] and the result is that of one Mersenne Twister
    roll on the reselected context, which does not fall back again.  That
    retry returns once its two accepted words come within the fuel. *)
Theorem RollDice_fallback_once :
  forall (L : Library) (k : rng) (fuel : nat)
         (x : rngcontext randctx sfmt_t) (w : world),
    k <> RNG_MANUAL ->
    (forall r : rolled,
        RollDice fuel k x w = Some r ->
        ret r = 0
        /\ in_range (anDice r)
        /\ (List.length (filter event_is_fallback (printed r)) <= 1)%nat
        /\ exists (f : nat) (d0 d1 : Z) (x1 : rngcontext randctx sfmt_t)
                  (w1 : world) (out1 : list event),
            fuel = S f
            /\ roll_switch f k x w = Some (d0, d1, x1, w1, out1)
            /\ ((in_range (d0, d1) /\ r = mkrolled 0 (d0, d1) k x1 w1 out1
                 /\ filter event_is_fallback (printed r) = [])
                \/ (~ in_range (d0, d1)
                    /\ kind r = RNG_MERSENNE
                    /\ printed r = out1 ++ [EvNotWorking]
                    /\ filter event_is_fallback (printed r) = [EvNotWorking]
                    /\ RollDice f RNG_MERSENNE
                                (fst (reselect k x1 w1 RNG_MERSENNE))
                                (snd (reselect k x1 w1 RNG_MERSENNE))
                       = Some (mkrolled 0 (anDice r) RNG_MERSENNE (rctx r)
                                        (rworld r) []))))
    /\ (forall (d0 d1 : Z) (x1 x' : rngcontext randctx sfmt_t) (w1 : world)
               (out1 : list event) (k0 k1 : nat) (d : Z * Z),
           roll_switch (S fuel) k x w = Some (d0, d1, x1, w1, out1) ->
           ~ in_range (d0, d1) ->
           (k0 < fuel)%nat -> (k1 < fuel)%nat ->
           sampled_pair sfmt_genrand_uint32
                        (sfmt (fst (reselect k x1 w1 RNG_MERSENNE))) k0 k1 d (sfmt x') ->
           exists r : rolled,
             RollDice (S (S fuel)) k x w = Some r
             /\ anDice r = d /\ kind r = RNG_MERSENNE
             /\ printed r = out1 ++ [EvNotWorking]).
Proof.
  intros L k fuel x w Hm. split.
  - intros r Hr.
    destruct (RollDice_inv _ _ _ _ _ Hm Hr)
      as (f & d0 & d1 & x1 & w1 & out1 & Hf & Hs & Hcase).
    pose proof (roll_switch_quiet _ _ _ _ _ _ _ _ _ Hs) as Hq.
    destruct Hcase as [[Ho ->]|[Ho (r' & Hr' & ->)]].
    + apply in_range_not_out in Ho. cbn [ret anDice printed].
      split; [reflexivity|]. split; [exact Ho|]. rewrite Hq.
      split; [cbn; lia|].
      exists f, d0, d1, x1, w1, out1. split; [exact Hf|]. split; [exact Hs|].
      left. auto.
    + pose proof (RollDice_MERSENNE_inv _ _ _ _ Hr')
        as (_ & Hin & Hk & Hp & Hret & _).
      cbn [ret anDice printed kind rctx rworld]. rewrite Hp.
      assert (Hfl : filter event_is_fallback (out1 ++ [EvNotWorking]) = [EvNotWorking]).
      { rewrite filter_app, Hq. reflexivity. }
      split; [reflexivity|]. split; [exact Hin|]. rewrite Hfl.
      split; [cbn; lia|].
      exists f, d0, d1, x1, w1, out1. split; [exact Hf|]. split; [exact Hs|].
      right. split; [rewrite in_range_not_out; congruence|].
      split; [exact Hk|]. split; [reflexivity|]. split; [reflexivity|].
      rewrite Hr'. destruct r' as [rr dd kk cc ww pp].
      cbn [ret anDice printed kind rctx rworld] in *. subst. reflexivity.
  - intros d0 d1 x1 x' w1 out1 k0 k1 d Hs Ho Hk0 Hk1 Hsp.
    rewrite RollDice_unfold by exact Hm. rewrite Hs. cbn [bind].
    destruct (out_of_range (d0, d1)) eqn:Eo;
      [|apply in_range_not_out in Eo; contradiction].
    unfold SetRNG.
    destruct (reselect k x1 w1 RNG_MERSENNE) as [x2 w2] eqn:Er.
    cbn [fst snd] in Hsp.
    rewrite (RollDice_MERSENNE_return _ _ _ _ _ _ _ Hk0 Hk1 Hsp). cbn [bind].
    eexists. split; [reflexivity|]. cbn [anDice kind printed]. auto.
Qed.

Lemma RollDice_fallback_once_witness :
  RNG_RANDOM_DOT_ORG <> RNG_MANUAL
  /\ RollDice (L := sample_library) 3 RNG_RANDOM_DOT_ORG ctx0 tt
     = Some (mkrolled 0 (2, 3) RNG_MERSENNE
                      (count2 (set_sfmt ctx0 1586005467)) tt [EvNotWorking])
  /\ in_range (2, 3).
Proof.
  assert (Hm : RNG_RANDOM_DOT_ORG <> RNG_MANUAL) by discriminate.
  assert (E : RollDice (L := sample_library) 3 RNG_RANDOM_DOT_ORG ctx0 tt
              = Some (mkrolled 0 (2, 3) RNG_MERSENNE
                               (count2 (set_sfmt ctx0 1586005467)) tt [EvNotWorking]))
    by reflexivity.
  split; [exact Hm|]. split; [exact E|].
  destruct (RollDice_fallback_once sample_library RNG_RANDOM_DOT_ORG 3 ctx0 tt Hm)
    as [H _].
  destruct (H _ E) as (_ & Hin & _). exact Hin.
Defined.

(** ** Claim C6: rolling BBS dice with seed 0 or 1 *)

Section BBSFault.

Context {L : Library}.

Abbreviation ctx := (rngcontext randctx sfmt_t).

Lemma BBSCheck_fails (x : ctx) :
  zSeed x = zZero x \/ zSeed x = zOne x -> BBSCheck x = -1.
Proof.
  unfold BBSCheck, mpz_cmp. intros [H|H]; rewrite H, Z.sub_diag; cbn [Z.sgn].
  - reflexivity.
  - change (0 =? 0) with true. cbn [negb]. rewrite andb_false_r. reflexivity.
Qed.

Lemma BBSCheck_passes (x : ctx) :
  zSeed x <> zZero x -> zSeed x <> zOne x -> BBSCheck x = 0.
Proof.
  unfold BBSCheck, mpz_cmp. intros H0 H1.
  destruct (Z.sgn (zSeed x - zZero x) =? 0) eqn:E0; [apply Z.eqb_eq in E0; lia|].
  destruct (Z.sgn (zSeed x - zOne x) =? 0) eqn:E1; [apply Z.eqb_eq in E1; lia|].
  reflexivity.
Qed.

End BBSFault.

(** C6 as stated fails: in a context set up for BBS with modulus 437 and
    seed 1 the call returns 0, and it returns with [RNG_MERSENNE] selected
    and a pair drawn from the Mersenne Twister. *)
Lemma RollDice_BBS_fault_falls_back :
  zSeed ctx_bbs_seed1 = 1
  /\ RollDice (L := sample_library) 3 RNG_BBS ctx_bbs_seed1 tt
     = Some (mkrolled 0 (2, 3) RNG_MERSENNE
                      (count2 (set_sfmt (set_zSeed ctx_bbs_seed1 0) 1586005467)) tt
                      [EvBBSInvalidSeed; EvNotWorking]).
Proof. split; reflexivity. Qed.

(** C6, amended.  If [RollDice] is called with BBS active while the BBS
    seed equals 0 or 1, no BBS bit is drawn: the failure of the seed is
    reported, the stored seed is set to 0 and the pair stays (0,0), so
    that the fallback applies.  A call that returns returns 0, having
    printed the seed failure and then the warning, with [RNG_MERSENNE]
    selected and the pair of one Mersenne Twister roll on the reselected
    context; it returns once the two accepted words of that roll come
    within the fuel. *)
Theorem RollDice_BBS_fault :
  forall (L : Library) (fuel : nat) (x : rngcontext randctx sfmt_t) (w : world),
    zZero x = 0 -> zOne x = 1 ->
    zSeed x = 0 \/ zSeed x = 1 ->
    roll_switch fuel RNG_BBS x w = Some (0, 0, set_zSeed x 0, w, [EvBBSInvalidSeed])
    /\ (forall r : rolled,
           RollDice fuel RNG_BBS x w = Some r ->
           ret r = 0 /\ kind r = RNG_MERSENNE /\ in_range (anDice r)
           /\ printed r = [EvBBSInvalidSeed; EvNotWorking]
           /\ exists f : nat,
               fuel = S f
               /\ RollDice f RNG_MERSENNE
                           (fst (reselect RNG_BBS (set_zSeed x 0) w RNG_MERSENNE))
                           (snd (reselect RNG_BBS (set_zSeed x 0) w RNG_MERSENNE))
                  = Some (mkrolled 0 (anDice r) RNG_MERSENNE (rctx r) (rworld r) []))
    /\ (forall (k0 k1 : nat) (d : Z * Z) (x' : rngcontext randctx sfmt_t),
           (k0 < fuel)%nat -> (k1 < fuel)%nat ->
           sampled_pair sfmt_genrand_uint32
             (sfmt (fst (reselect RNG_BBS (set_zSeed x 0) w RNG_MERSENNE)))
             k0 k1 d (sfmt x') ->
           exists r : rolled,
             RollDice (S (S fuel)) RNG_BBS x w = Some r
             /\ anDice r = d /\ kind r = RNG_MERSENNE).
Proof.
  intros L fuel x w Hz Ho Hs.
  assert (Hc : BBSCheck x <> 0).
  { rewrite BBSCheck_fails; [discriminate|]. rewrite Hz, Ho. exact Hs. }
  assert (Hm : RNG_BBS <> RNG_MANUAL) by discriminate.
  assert (Hsw : forall f, roll_switch f RNG_BBS x w
                          = Some (0, 0, set_zSeed x 0, w, [EvBBSInvalidSeed])).
  { intros f. rewrite roll_switch_BBS_failed by exact Hc. rewrite Hz. reflexivity. }
  split; [apply Hsw|]. split.
  - intros r Hr.
    destruct (RollDice_inv _ _ _ _ _ Hm Hr)
      as (f & d0 & d1 & x1 & w1 & out1 & Hf & Hs1 & Hcase).
    rewrite Hsw in Hs1. inversion Hs1; subst d0 d1 x1 w1 out1.
    destruct Hcase as [[Hout _]|[_ (r' & Hr' & ->)]]; [discriminate|].
    pose proof (RollDice_MERSENNE_inv _ _ _ _ Hr')
      as (_ & Hin & Hk & Hp & Hret & _).
    cbn [ret anDice printed kind rctx rworld]. rewrite Hp.
    repeat split; try apply Hin; try assumption.
    exists f. split; [exact Hf|]. rewrite Hr'.
    destruct r' as [rr dd kk cc ww pp].
    cbn [ret anDice printed kind rctx rworld] in *. subst. reflexivity.
  - intros k0 k1 d x' Hk0 Hk1 Hsp.
    rewrite RollDice_unfold by exact Hm. rewrite Hsw. cbn [bind].
    change (out_of_range (0, 0)) with true. cbv iota. unfold SetRNG.
    destruct (reselect RNG_BBS (set_zSeed x 0) w RNG_MERSENNE) as [x2 w2].
    cbn [fst snd] in Hsp.
    rewrite (RollDice_MERSENNE_return _ _ _ _ _ _ _ Hk0 Hk1 Hsp). cbn [bind].
    eexists. split; [reflexivity|]. cbn [anDice kind]. auto.
Qed.

Lemma RollDice_BBS_fault_witness :
  (zZero ctx_bbs_seed1 = 0 /\ zOne ctx_bbs_seed1 = 1
   /\ (zSeed ctx_bbs_seed1 = 0 \/ zSeed ctx_bbs_seed1 = 1))
  /\ roll_switch (L := sample_library) 3 RNG_BBS ctx_bbs_seed1 tt
     = Some (0, 0, set_zSeed ctx_bbs_seed1 0, tt, [EvBBSInvalidSeed]).
Proof.
  split; [repeat split; right; reflexivity|].
  apply (RollDice_BBS_fault sample_library 3 ctx_bbs_seed1 tt eq_refl eq_refl
           (or_intror eq_refl)).
Defined.

(** ** Claim C7: dice read from a file *)

Lemma succ_mod3 (i : nat) : (S i mod 3 = S (i mod 3) mod 3)%nat.
Proof.
  change (S i) with (1 + i)%nat. rewrite Nat.Div0.add_mod.
  change (1 mod 3)%nat with 1%nat. reflexivity.
Qed.

Lemma mod3_cases (i : nat) : (i mod 3 = 0 \/ i mod 3 = 1 \/ i mod 3 = 2)%nat.
Proof. pose proof (Nat.mod_upper_bound i 3). lia. Qed.

Lemma uglyloop_1936 (fuel : nat) (name : option string) (i p : nat) :
  (2 <= fuel)%nat ->
  phase_pos (i mod 3) p ->
  exists (p' : nat) (out : list event),
    uglyloop fuel name (file_at p) = Some (face1936 i, file_at p', out)
    /\ phase_pos (S i mod 3) p'.
Proof.
  intros Hf Hp. destruct fuel as [|[|fuel]]; try lia.
  rewrite succ_mod3. unfold face1936.
  destruct (mod3_cases i) as [E|[E|E]]; rewrite E in *; cbn [phase_pos] in Hp.
  - destruct Hp as [-> | ->].
    + exists 1%nat, []. split; reflexivity.
    + exists 1%nat, [EvRewinding name]. split; reflexivity.
  - subst p. exists 3%nat, []. split; reflexivity.
  - subst p. exists 4%nat, []. split; [reflexivity|]. right. reflexivity.
Qed.

Section DiceFile.

Context {L : Library}.

Abbreviation ctx := (rngcontext randctx sfmt_t).

Lemma ReadDiceFile_1936 (fuel : nat) (x : ctx) (i p : nat) :
  (2 <= fuel)%nat ->
  fDice x = Some (file_at p) ->
  phase_pos (i mod 3) p ->
  exists (p' : nat) (out : list event),
    ReadDiceFile fuel x = Some (face1936 i, set_fDice x (Some (file_at p')), out)
    /\ phase_pos (S i mod 3) p'.
Proof.
  intros Hf Hx Hp. unfold ReadDiceFile. rewrite Hx.
  destruct (uglyloop_1936 fuel (szDiceFilename x) i p Hf Hp) as (p' & out & E & Hp').
  rewrite E. cbn [bind]. exists p', out. split; [reflexivity|exact Hp'].
Qed.

Lemma ReadDiceFile_times_1936 (fuel : nat) (k : nat) :
  forall (x : ctx) (i p : nat),
    (2 <= fuel)%nat ->
    fDice x = Some (file_at p) ->
    phase_pos (i mod 3) p ->
    exists x' : ctx,
      ReadDiceFile_times fuel k x = Some (map face1936 (seq i k), x').
Proof.
  induction k as [|k IH]; intros x i p Hf Hx Hp.
  - exists x. reflexivity.
  - destruct (ReadDiceFile_1936 fuel x i p Hf Hx Hp) as (p' & out & E & Hp').
    destruct (IH (set_fDice x (Some (file_at p'))) (S i) p' Hf eq_refl Hp')
      as (x' & E').
    exists x'. cbn [ReadDiceFile_times seq map]. rewrite E. cbn [bind].
    rewrite E'. reflexivity.
Qed.

Lemma face1936_range (i : nat) : 1 <= face1936 i <= 6.
Proof.
  unfold face1936. destruct (mod3_cases i) as [E|[E|E]]; rewrite E; cbn; lia.
Qed.

Lemma RollDice_1936 (fuel : nat) (x : ctx) (w : world) (i p : nat) :
  (3 <= fuel)%nat ->
  fDice x = Some (file_at p) ->
  phase_pos (i mod 3) p ->
  exists (x' : ctx) (p' : nat) (out : list event),
    RollDice fuel RNG_FILE x w
    = Some (mkrolled 0 (face1936 i, face1936 (S i)) RNG_FILE x' w out)
    /\ fDice x' = Some (file_at p')
    /\ phase_pos (S (S i) mod 3) p'.
Proof.
  intros Hf Hx Hp. destruct fuel as [|fuel]; [lia|].
  assert (Hf' : (2 <= fuel)%nat) by lia.
  destruct (ReadDiceFile_1936 fuel x i p Hf' Hx Hp) as (p1 & out0 & E0 & Hp1).
  destruct (ReadDiceFile_1936 fuel (set_fDice x (Some (file_at p1))) (S i) p1
              Hf' eq_refl Hp1) as (p2 & out1 & E1 & Hp2).
  eexists. exists p2, (out0 ++ out1). split; [|split; [|exact Hp2]].
  - apply RollDice_direct; [discriminate| |].
    + cbn [roll_switch fst snd]. rewrite E0. cbn [bind]. rewrite E1. cbn [bind].
      reflexivity.
    + split; cbn [fst snd]; apply face1936_range.
  - reflexivity.
Qed.

Lemma RollDice_times_1936 (fuel : nat) (k : nat) :
  forall (x : ctx) (w : world) (i p : nat),
    (3 <= fuel)%nat ->
    fDice x = Some (file_at p) ->
    phase_pos (i mod 3) p ->
    exists x' : ctx,
      RollDice_times fuel k RNG_FILE x w = Some (pairs1936 i k, RNG_FILE, x', w).
Proof.
  induction k as [|k IH]; intros x w i p Hf Hx Hp.
  - exists x. reflexivity.
  - destruct (RollDice_1936 fuel x w i p Hf Hx Hp) as (x1 & p1 & out & E & Hx1 & Hp1).
    destruct (IH x1 w (S (S i)) p1 Hf Hx1 Hp1) as (x' & E').
    exists x'. cbn [RollDice_times pairs1936]. rewrite E. cbn [bind kind rctx rworld].
    rewrite E'. reflexivity.
Qed.

End DiceFile.

Lemma uglyloop_byte (fuel : nat) (name : option string) (f : FILE) (b : byte) :
  f_eof f = false -> f_fail f = false ->
  nth_error (f_bytes f) (f_pos f) = Some b ->
  uglyloop (S fuel) name f
  = if (49 <=? Z.of_N (Byte.to_N b)) && (Z.of_N (Byte.to_N b) <=? 54)
    then Some (Z.of_N (Byte.to_N b) - 48, advanced f, [])
    else uglyloop fuel name (advanced f).
Proof.
  destruct f as [bytes pos eof fail]. cbn [f_eof f_fail f_bytes f_pos].
  intros He Hf Hn. subst eof fail.
  cbn [uglyloop]. unfold fread1. cbn [f_eof f_fail f_bytes f_pos]. rewrite Hn.
  unfold feof. cbn [f_eof]. change (negb (1 =? 1)) with false.
  cbv iota. rewrite !Z.geb_leb. unfold advanced. cbn [f_eof f_fail f_bytes f_pos].
  destruct ((49 <=? Z.of_N (Byte.to_N b)) && (Z.of_N (Byte.to_N b) <=? 54)) eqn:E;
    [|reflexivity].
  apply andb_true_iff in E. destruct E as [E1 E2].
  apply Z.leb_le in E1. apply Z.leb_le in E2.
  rewrite u32_small by lia. reflexivity.
Qed.

Lemma uglyloop_end (fuel : nat) (name : option string) (f : FILE) :
  f_eof f = false -> f_fail f = false ->
  nth_error (f_bytes f) (f_pos f) = None ->
  uglyloop (S fuel) name f
  = ('(r, f2, out) <- uglyloop fuel name (mkFILE (f_bytes f) 0 false false) ;;
     Some (r, f2, EvRewinding name :: out)).
Proof.
  destruct f as [bytes pos eof fail]. cbn [f_eof f_fail f_bytes f_pos].
  intros He Hf Hn. subst eof fail.
  cbn [uglyloop]. unfold fread1. cbn [f_eof f_fail f_bytes f_pos]. rewrite Hn.
  reflexivity.
Qed.

Lemma uglyloop_error (fuel : nat) (name : option string) (f : FILE) :
  f_eof f = false -> f_fail f = true ->
  uglyloop (S fuel) name f = Some (UINT_MINUS_ONE, f, [EvDiceFileError name]).
Proof.
  destruct f as [bytes pos eof fail]. cbn [f_eof f_fail f_bytes f_pos].
  intros He Hf. subst eof fail. reflexivity.
Qed.

(** C7.  [ReadDiceFile] reads the open file one byte at a time: without
    an open file, or when a read fails, it returns [(unsigned) (-1)] =
    4294967295; a byte [c] in '1'..'6' (49..54) is returned as [c - '0']
    with the position advanced, any other byte is skipped; at the end of
    the file the file is rewound, which is reported, and reading goes on
    from its start.  A roll of kind [RNG_FILE] is two such reads.  On the
    file "1936" the reads give 1,3,6,1,3,6,... for any number of reads
    (two steps of fuel suffice for each), and the rolls the pairs of
    consecutive faces. *)
Theorem ReadDiceFile_replay :
  forall L : Library,
    UINT_MINUS_ONE = 4294967295
    /\ (forall (fuel : nat) (x : rngcontext randctx sfmt_t),
           fDice x = None -> ReadDiceFile fuel x = Some (UINT_MINUS_ONE, x, []))
    /\ (forall (fuel : nat) (name : option string) (f : FILE),
           f_eof f = false -> f_fail f = true ->
           uglyloop (S fuel) name f
           = Some (UINT_MINUS_ONE, f, [EvDiceFileError name]))
    /\ (forall (fuel : nat) (name : option string) (f : FILE) (b : byte),
           f_eof f = false -> f_fail f = false ->
           nth_error (f_bytes f) (f_pos f) = Some b ->
           uglyloop (S fuel) name f
           = if (49 <=? Z.of_N (Byte.to_N b)) && (Z.of_N (Byte.to_N b) <=? 54)
             then Some (Z.of_N (Byte.to_N b) - 48, advanced f, [])
             else uglyloop fuel name (advanced f))
    /\ (forall (fuel : nat) (name : option string) (f : FILE),
           f_eof f = false -> f_fail f = false ->
           nth_error (f_bytes f) (f_pos f) = None ->
           uglyloop (S fuel) name f
           = ('(r, f2, out) <- uglyloop fuel name (mkFILE (f_bytes f) 0 false false) ;;
              Some (r, f2, EvRewinding name :: out)))
    /\ (forall (fuel : nat) (x : rngcontext randctx sfmt_t) (w : world),
           roll_switch fuel RNG_FILE x w
           = ('(d0, x1, out0) <- ReadDiceFile fuel x ;;
              '(d1, x2, out1) <- ReadDiceFile fuel x1 ;;
              Some (d0, d1, count2 x2, w, out0 ++ out1)))
    /\ (forall (fuel k : nat) (x : rngcontext randctx sfmt_t),
           (2 <= fuel)%nat -> fDice x = Some file1936 ->
           exists x' : rngcontext randctx sfmt_t,
             ReadDiceFile_times fuel k x = Some (map face1936 (seq 0 k), x'))
    /\ (forall (fuel k : nat) (x : rngcontext randctx sfmt_t) (w : world),
           (3 <= fuel)%nat -> fDice x = Some file1936 ->
           exists x' : rngcontext randctx sfmt_t,
             RollDice_times fuel k RNG_FILE x w
             = Some (pairs1936 0 k, RNG_FILE, x', w))
    /\ map face1936 (seq 0 7) = [1; 3; 6; 1; 3; 6; 1]
    /\ (forall i : nat, face1936 (3 + i) = face1936 i).
Proof.
  intros L.
  split; [reflexivity|].
  split; [intros fuel x Hx; unfold ReadDiceFile; rewrite Hx; reflexivity|].
  split; [intros; apply uglyloop_error; assumption|].
  split; [intros; apply uglyloop_byte; assumption|].
  split; [intros; apply uglyloop_end; assumption|].
  split; [reflexivity|].
  split; [|split; [|split]].
  - intros fuel k x Hf Hx.
    apply (ReadDiceFile_times_1936 fuel k x 0 0 Hf Hx). left. reflexivity.
  - intros fuel k x w Hf Hx.
    apply (RollDice_times_1936 fuel k x w 0 0 Hf Hx). left. reflexivity.
  - reflexivity.
  - intros i. unfold face1936. rewrite Nat.Div0.add_mod.
    change (3 mod 3)%nat with 0%nat. cbn [Nat.add].
    rewrite Nat.Div0.mod_mod. reflexivity.
Qed.

Lemma ReadDiceFile_replay_witness :
  exists x' : rngcontext Z Z,
    RollDice_times (L := sample_library) 3 3 RNG_FILE
                   (set_fDice ctx0 (Some file1936)) tt
    = Some ([(1, 3); (6, 1); (3, 6)], RNG_FILE, x', tt).
Proof.
  destruct (ReadDiceFile_replay sample_library)
    as (_ & _ & _ & _ & _ & _ & _ & H & _).
  apply (H 3%nat 3%nat (set_fDice (L := sample_library) ctx0 (Some file1936)) tt);
    [lia|reflexivity].
Defined.

(** ** Claim C5: the check of the initial BBS seed *)

Lemma mpz_cmp_eqb (a b : Z) : (mpz_cmp a b =? 0) = (a =? b).
Proof.
  unfold mpz_cmp. destruct (a =? b) eqn:E.
  - apply Z.eqb_eq in E. subst. rewrite Z.sub_diag. reflexivity.
  - apply Z.eqb_neq in E. apply Z.eqb_neq. intros H.
    apply Z.sgn_null_iff in H. lia.
Qed.

Lemma mpz_powm_ui_squared (z m : Z) :
  m <> 0 -> mpz_powm_ui z 2 m = Some (squared m z).
Proof.
  intros Hm. unfold mpz_powm_ui, squared.
  destruct (m =? 0) eqn:E; [apply Z.eqb_eq in E; contradiction|].
  rewrite Z.pow_2_r. reflexivity.
Qed.

Lemma existsb_pointwise {A : Type} (f g : A -> bool) (l : list A) :
  (forall a : A, f a = g a) -> existsb f l = existsb g l.
Proof.
  intros H. induction l as [|a l IH]; [reflexivity|].
  cbn [existsb]. rewrite H, IH. reflexivity.
Qed.

Lemma find_pointwise {A : Type} (f g : A -> bool) (l : list A) :
  (forall a : A, f a = g a) -> find f l = find g l.
Proof.
  intros H. induction l as [|a l IH]; [reflexivity|].
  cbn [find]. rewrite H, IH. reflexivity.
Qed.

Lemma existsb_seq_shift (f : nat -> bool) (k : nat) :
  forall a : nat,
    existsb f (seq (S a) k) = existsb (fun j => f (S j)) (seq a k).
Proof.
  induction k as [|k IH]; intros a; [reflexivity|].
  cbn [seq existsb]. rewrite IH. reflexivity.
Qed.

Lemma find_seq_shift (f : nat -> bool) (k : nat) :
  forall a : nat,
    find f (seq (S a) k) = option_map S (find (fun j => f (S j)) (seq a k)).
Proof.
  induction k as [|k IH]; intros a; [reflexivity|].
  cbn [seq find]. destruct (f (S a)); [reflexivity|]. apply IH.
Qed.

Section SeedCheck.

Context {L : Library}.

Abbreviation ctx := (rngcontext randctx sfmt_t).

Lemma square_loop_iter (m : Z) (k : nat) :
  m <> 0 -> forall z : Z, square_loop k z m = Some (Nat.iter k (squared m) z).
Proof.
  intros Hm. induction k as [|k IH]; intros z; [reflexivity|].
  cbn [square_loop]. rewrite mpz_powm_ui_squared by exact Hm. cbn [bind].
  rewrite IH, Nat.iter_succ_r. reflexivity.
Qed.

(** The recurrence loop ends with [i] short of its bound exactly when one
    of the next [k] squarings gives the reference point back. *)
Lemma cycle_loop_recurs (m zCycle : Z) (k : nat) :
  m <> 0 ->
  forall i z : Z,
  exists r : Z,
    cycle_loop k i z zCycle m = Some r
    /\ i <= r <= i + Z.of_nat k
    /\ (r =? i + Z.of_nat k)
       = negb (existsb (fun j => Nat.iter j (squared m) z =? zCycle) (seq 1 k)).
Proof.
  intros Hm. induction k as [|k IH]; intros i z.
  - exists i. split; [reflexivity|]. split; [lia|].
    cbn [seq existsb negb]. apply Z.eqb_eq. lia.
  - cbn [cycle_loop]. rewrite mpz_powm_ui_squared by exact Hm. cbn [bind].
    rewrite mpz_cmp_eqb. cbn [seq existsb].
    change (Nat.iter 1 (squared m) z) with (squared m z).
    destruct (squared m z =? zCycle) eqn:E.
    + exists i. split; [reflexivity|]. split; [lia|].
      cbn [orb negb]. apply Z.eqb_neq. lia.
    + destruct (IH (i + 1) (squared m z)) as (r & Hr & Hb & Hq).
      exists r. split; [exact Hr|]. split; [lia|]. cbn [orb].
      rewrite existsb_seq_shift.
      replace (i + Z.of_nat (S k)) with (i + 1 + Z.of_nat k) by lia.
      rewrite Hq. f_equal. apply existsb_pointwise. intros j.
      rewrite Nat.iter_succ_r. reflexivity.
Qed.

Lemma attempt_sound (m s : Z) :
  m <> 0 ->
  exists i : Z,
    (z <- square_loop 8 s m ;; cycle_loop 16 0 z z m) = Some i
    /\ (i =? 16) = negb (recurs m s).
Proof.
  intros Hm. rewrite square_loop_iter by exact Hm. cbn [bind].
  destruct (cycle_loop_recurs m (Nat.iter 8 (squared m) s) 16 Hm 0
              (Nat.iter 8 (squared m) s)) as (r & Hr & _ & Hq).
  exists r. split; [exact Hr|]. exact Hq.
Qed.

Lemma set_zSeed_same (x : ctx) : set_zSeed x (zSeed x) = x.
Proof. destruct x. reflexivity. Qed.

Lemma set_zSeed_twice (x : ctx) (a b : Z) :
  set_zSeed (set_zSeed x a) b = set_zSeed x b.
Proof. reflexivity. Qed.

Lemma attempt_loop_find (k : nat) :
  forall (iAttempt : Z) (x : ctx),
    zModulus x <> 0 ->
    attempt_loop k iAttempt x
    = Some (match find (fun j => negb (recurs (zModulus x) (zSeed x + Z.of_nat j)))
                       (seq 0 k) with
            | Some j => (iAttempt + Z.of_nat j, set_zSeed x (zSeed x + Z.of_nat j))
            | None => (iAttempt + Z.of_nat k, set_zSeed x (zSeed x + Z.of_nat k))
            end).
Proof.
  induction k as [|k IH]; intros ia x Hm.
  - cbn [attempt_loop seq find Z.of_nat]. rewrite !Z.add_0_r, (set_zSeed_same x).
    reflexivity.
  - cbn [attempt_loop].
    destruct (attempt_sound (zModulus x) (zSeed x) Hm) as (i & Hi & Hq).
    unfold bind in Hi.
    destruct (square_loop 8 (zSeed x) (zModulus x)) as [z|]; [|discriminate].
    cbn [bind]. rewrite Hi. cbn [bind]. rewrite Hq.
    cbn [seq find Z.of_nat]. rewrite Z.add_0_r.
    destruct (negb (recurs (zModulus x) (zSeed x))).
    + change (Z.of_nat 0) with 0. rewrite !Z.add_0_r, (set_zSeed_same x). reflexivity.
    + rewrite IH by exact Hm. rewrite find_seq_shift.
      change (zModulus (set_zSeed x (zSeed x + 1))) with (zModulus x).
      change (zSeed (set_zSeed x (zSeed x + 1))) with (zSeed x + 1).
      assert (Hext : find (fun j => negb (recurs (zModulus x) (zSeed x + Z.of_nat (S j))))
                          (seq 0 k)
                     = find (fun j => negb (recurs (zModulus x) (zSeed x + 1 + Z.of_nat j)))
                            (seq 0 k)).
      { apply find_pointwise. intros j. do 2 f_equal. lia. }
      rewrite Hext.
      destruct (find (fun j => negb (recurs (zModulus x) (zSeed x + 1 + Z.of_nat j)))
                     (seq 0 k)) as [j|]; cbn [option_map];
        rewrite set_zSeed_twice; rewrite ?Nat2Z.inj_succ, ?Zpos_P_of_succ_nat;
        do 2 f_equal; try lia; f_equal; lia.
Qed.

End SeedCheck.

(** The recurrence test is kept folded from here on. *)
Opaque recurs.

Section SeedCheckResult.

Context {L : Library}.

Abbreviation ctx := (rngcontext randctx sfmt_t).

Lemma BBSCheckInitialSeed_nonpositive (x : ctx) :
  zZero x = 0 -> zSeed x <= 0 ->
  BBSCheckInitialSeed x = Some (-1, set_zSeed x 0, [EvBBSInvalidSeed]).
Proof.
  intros Hz Hs. unfold BBSCheckInitialSeed, mpz_sgn.
  destruct (Z.sgn (zSeed x) <? 1) eqn:E.
  - unfold BBSInitialSeedFailure. rewrite Hz. reflexivity.
  - apply Z.ltb_ge in E. pose proof (Z.sgn_nonpos (zSeed x)). lia.
Qed.

Lemma BBSCheckInitialSeed_refines (x : ctx) :
  zZero x = 0 -> zModulus x <> 0 ->
  BBSCheckInitialSeed x = Some (seed_check_described x).
Proof.
  intros Hz Hm. unfold seed_check_described.
  destruct (zSeed x <=? 0) eqn:Es.
  - apply Z.leb_le in Es. apply BBSCheckInitialSeed_nonpositive; assumption.
  - apply Z.leb_gt in Es. unfold BBSCheckInitialSeed, mpz_sgn.
    destruct (Z.sgn (zSeed x) <? 1) eqn:E.
    { apply Z.ltb_lt in E. pose proof (Z.sgn_pos (zSeed x) ltac:(lia)). lia. }
    rewrite attempt_loop_find by exact Hm. cbn [bind].
    unfold first_sound_attempt.
    destruct (find (fun j => negb (recurs (zModulus x) (zSeed x + Z.of_nat j)))
                   (seq 0 32)) as [j|] eqn:Ef.
    + apply find_some in Ef. destruct Ef as [Hin _]. apply in_seq in Hin.
      destruct (0 + Z.of_nat j =? 32) eqn:E1; [apply Z.eqb_eq in E1; lia|].
      destruct (0 + Z.of_nat j <? 32) eqn:E2; [|apply Z.ltb_ge in E2; lia].
      reflexivity.
    + change (0 + Z.of_nat 32 =? 32) with true.
      change (0 + Z.of_nat 32 <? 32) with false. cbv iota.
      unfold BBSInitialSeedFailure.
      change (zZero (set_zSeed x (zSeed x + Z.of_nat 32))) with (zZero x).
      rewrite Hz. reflexivity.
Qed.

Lemma attempt_loop_crash (k : nat) (iAttempt : Z) (x : ctx) :
  zModulus x = 0 -> attempt_loop (S k) iAttempt x = None.
Proof.
  intros Hm. cbn [attempt_loop]. rewrite Hm.
  change (square_loop 8 (zSeed x) 0) with (@None Z). reflexivity.
Qed.

Lemma BBSCheckInitialSeed_crash (x : ctx) :
  0 < zSeed x -> zModulus x = 0 -> BBSCheckInitialSeed x = None.
Proof.
  intros Hs Hm. unfold BBSCheckInitialSeed, mpz_sgn.
  destruct (Z.sgn (zSeed x) <? 1) eqn:E.
  { apply Z.ltb_lt in E. pose proof (Z.sgn_pos (zSeed x) Hs). lia. }
  rewrite (attempt_loop_crash 31 0 x Hm). reflexivity.
Qed.

End SeedCheckResult.

(** C5.  In a context set up for BBS (so that [zZero] is 0), with a
    modulus other than zero, [BBSCheckInitialSeed] does what is
    described: a seed that is not positive gives -1; otherwise each of at
    most 32 attempts squares a copy of the seed 8 times to a reference
    point and then up to 16 times more, looking for the reference point;
    the first attempt without recurrence ends the check with 0 and the
    seed of that attempt stored, each attempt with recurrence adds 1 to
    the seed; after 32 attempts with recurrence the result is -1.  Every
    -1 comes with the stored seed 0, the failure printed, and a context in
    which [BBSCheck] fails. *)
Theorem BBSCheckInitialSeed_described :
  forall (L : Library) (x : rngcontext randctx sfmt_t),
    zZero x = 0 ->
    (zSeed x <= 0 ->
     BBSCheckInitialSeed x = Some (-1, set_zSeed x 0, [EvBBSInvalidSeed]))
    /\ (zModulus x <> 0 -> BBSCheckInitialSeed x = Some (seed_check_described x))
    /\ (forall (k : nat),
           first_sound_attempt (zModulus x) (zSeed x) = Some k ->
           (k < 32)%nat
           /\ recurs (zModulus x) (zSeed x + Z.of_nat k) = false)
    /\ (first_sound_attempt (zModulus x) (zSeed x) = None ->
        forall k : nat,
          (k < 32)%nat -> recurs (zModulus x) (zSeed x + Z.of_nat k) = true)
    /\ (forall (r : Z) (x' : rngcontext randctx sfmt_t) (out : list event),
           BBSCheckInitialSeed x = Some (r, x', out) ->
           (r = 0 /\ out = [] /\ zSeed x <= zSeed x' < zSeed x + 32)
           \/ (r = -1 /\ out = [EvBBSInvalidSeed] /\ zSeed x' = 0
               /\ BBSCheck x' = -1)).
Proof.
  intros L x Hz.
  split; [apply BBSCheckInitialSeed_nonpositive; exact Hz|].
  split; [apply BBSCheckInitialSeed_refines; exact Hz|].
  split; [|split].
  - intros k Hk. unfold first_sound_attempt in Hk. apply find_some in Hk.
    destruct Hk as [Hin Hb]. apply in_seq in Hin. split; [lia|].
    apply negb_true_iff in Hb. exact Hb.
  - intros Hn k Hk. unfold first_sound_attempt in Hn.
    pose proof (find_none _ _ Hn k) as H.
    specialize (H ltac:(apply in_seq; lia)).
    apply negb_false_iff in H. exact H.
  - intros r x' out H.
    assert (Hfail : forall y : rngcontext randctx sfmt_t,
               zZero y = 0 -> BBSCheck (set_zSeed y 0) = -1).
    { intros y Hy. apply BBSCheck_fails. left.
      change (zSeed (set_zSeed y 0)) with 0.
      change (zZero (set_zSeed y 0)) with (zZero y). lia. }
    destruct (Z_le_gt_dec (zSeed x) 0) as [Hs|Hs].
    + rewrite BBSCheckInitialSeed_nonpositive in H by assumption.
      inversion H; subst. right. repeat split. apply Hfail. exact Hz.
    + destruct (Z.eq_dec (zModulus x) 0) as [Hm|Hm].
      * rewrite BBSCheckInitialSeed_crash in H by lia. discriminate.
      * rewrite BBSCheckInitialSeed_refines in H by assumption.
        unfold seed_check_described in H.
        destruct (zSeed x <=? 0) eqn:E; [apply Z.leb_le in E; lia|].
        destruct (first_sound_attempt (zModulus x) (zSeed x)) as [k|] eqn:Ef.
        -- unfold first_sound_attempt in Ef. apply find_some in Ef.
           destruct Ef as [Hin _]. apply in_seq in Hin.
           inversion H; subst. left.
           change (zSeed (set_zSeed x (zSeed x + Z.of_nat k)))
             with (zSeed x + Z.of_nat k).
           repeat split; lia.
        -- inversion H; subst. right. repeat split. apply Hfail. exact Hz.
Qed.

Lemma BBSCheckInitialSeed_described_witness :
  zZero ctx_bbs_seed1 = 0
  /\ BBSCheckInitialSeed (L := sample_library) ctx_bbs_seed1
     = Some (seed_check_described (L := sample_library) ctx_bbs_seed1).
Proof.
  split; [reflexivity|].
  destruct (BBSCheckInitialSeed_described sample_library ctx_bbs_seed1 eq_refl)
    as (_ & H & _).
  apply H. discriminate.
Defined.

(** ** Claims C4 and C10: the factors of the BBS modulus *)

Section Factors.

Context {L : Library}.

Abbreviation ctx := (rngcontext randctx sfmt_t).

Lemma BBSGood_spec (y : Z) :
  BBSGood y = true ->
  19 <= y /\ y mod 4 = 3 /\ mpz_probab_prime_p y 10 <> 0.
Proof.
  unfold BBSGood. intros H.
  apply andb_true_iff in H. destruct H as [H H3].
  apply andb_true_iff in H. destruct H as [H1 H2].
  rewrite Z.geb_leb in H2. apply Z.leb_le in H2.
  unfold mpz_cmp in H2.
  assert (Hy : 19 <= y).
  { destruct (Z_lt_ge_dec y 19) as [Hlt|Hge]; [|lia].
    pose proof (Z.sgn_neg (y - 19) ltac:(lia)). lia. }
  split; [exact Hy|]. split.
  - apply Z.eqb_eq in H1. unfold mpz_get_ui, u64 in H1.
    rewrite Z.abs_eq in H1 by lia.
    assert (Hl : Z.land (y mod 2 ^ 64) 3 = (y mod 2 ^ 64) mod 4)
      by exact (Z.land_ones (y mod 2 ^ 64) 2 ltac:(lia)).
    rewrite Hl in H1.
    rewrite (Z.mod_mod_divide y (2 ^ 64) 4) in H1;
      [exact H1|exists (2 ^ 62); reflexivity].
  - apply negb_true_iff in H3. apply Z.eqb_neq in H3. exact H3.
Qed.

Lemma BBSFindGood_sound (fuel : nat) :
  forall x y : Z,
    BBSFindGood fuel x = Some y ->
    x < y /\ y - x <= Z.of_nat fuel /\ BBSGood y = true
    /\ (forall z : Z, x < z < y -> BBSGood z = false).
Proof.
  induction fuel as [|fuel IH]; intros x y H; [discriminate|].
  cbn [BBSFindGood] in H. destruct (BBSGood (x + 1)) eqn:E.
  - inversion H; subst. repeat split; try lia. exact E.
  - apply IH in H. destruct H as (H1 & H2 & H3 & H4).
    repeat split; try lia; try exact H3.
    intros z Hz. destruct (Z.eq_dec z (x + 1)) as [->|Hne]; [exact E|].
    apply H4. lia.
Qed.

Lemma BBSFindGood_complete (fuel : nat) :
  forall x g : Z,
    x < g -> BBSGood g = true -> g - x <= Z.of_nat fuel ->
    exists y : Z, BBSFindGood fuel x = Some y /\ y <= g.
Proof.
  induction fuel as [|fuel IH]; intros x g Hx Hg Hf; [lia|].
  cbn [BBSFindGood]. destruct (BBSGood (x + 1)) eqn:E.
  - exists (x + 1). split; [reflexivity|lia].
  - assert (Hne : g <> x + 1) by (intros ->; congruence).
    apply IH; [lia|exact Hg|lia].
Qed.

End Factors.

Section FactorChoice.

Context {L : Library}.

Abbreviation ctx := (rngcontext randctx sfmt_t).

Lemma InitRNGBBSFactors_parsed (fuel : nat) (s0 s1 : string) (p q : Z) (x : ctx) :
  mpz_set_str s0 = Some p -> mpz_set_str s1 = Some q -> 0 < p ->
  InitRNGBBSFactors fuel (Some s0) (Some s1) x
  = ('(p', q', out) <- choose_factors fuel s0 s1 p q ;;
     Some (0, set_zModulus (InitRNGBBS x) (p' * q'), out)).
Proof.
  intros H0 H1 Hp.
  unfold InitRNGBBSFactors, choose_factors, first_factor, second_factor, mpz_sgn.
  rewrite H0, H1. rewrite (Z.sgn_pos p Hp). change (1 <? 1) with false. cbv iota.
  destruct (negb (BBSGood p)).
  - destruct (BBSFindGood fuel p) as [p'|]; [|reflexivity]. cbn [bind].
    destruct (negb (BBSGood q) || (mpz_cmp p' q =? 0)); [|reflexivity].
    destruct (BBSFindGood fuel q) as [q'|]; [|reflexivity]. cbn [bind].
    destruct (mpz_cmp p' q' =? 0); [|reflexivity].
    destruct (BBSFindGood fuel q') as [q''|]; reflexivity.
  - cbn [bind].
    destruct (negb (BBSGood q) || (mpz_cmp p q =? 0)); [|reflexivity].
    destruct (BBSFindGood fuel q) as [q'|]; [|reflexivity]. cbn [bind].
    destruct (mpz_cmp p q' =? 0); [|reflexivity].
    destruct (BBSFindGood fuel q') as [q''|]; reflexivity.
Qed.

Lemma InitRNGBBSFactors_first_sign (fuel : nat) (s0 : string) (sz1 : option string)
  (p : Z) (x : ctx) :
  mpz_set_str s0 = Some p -> p <= 0 ->
  InitRNGBBSFactors fuel (Some s0) sz1 x = Some (-1, x, []).
Proof.
  intros H0 Hp. unfold InitRNGBBSFactors, mpz_sgn.
  destruct sz1 as [s1|]; [|reflexivity]. rewrite H0.
  destruct (Z.sgn p <? 1) eqn:E; [reflexivity|].
  apply Z.ltb_ge in E. pose proof (Z.sgn_nonpos p). lia.
Qed.

Lemma first_factor_sound (fuel : nat) (s0 : string) (p p' : Z) (out0 : list event) :
  first_factor fuel s0 p = Some (p', out0) ->
  BBSGood p' = true
  /\ (BBSGood p = true -> p' = p)
  /\ (BBSGood p = false ->
      p < p' /\ forall z : Z, p < z < p' -> BBSGood z = false)
  /\ out0 = (if BBSGood p then [] else [EvInvalidBlumFactor s0 p']).
Proof.
  unfold first_factor. intros H. destruct (BBSGood p) eqn:Eg; cbn [negb] in H.
  - inversion H; subst. repeat split; try congruence.
  - destruct (BBSFindGood fuel p) as [p1|] eqn:E1; [|discriminate].
    cbn [bind] in H. inversion H; subst.
    apply BBSFindGood_sound in E1. destruct E1 as (A1 & _ & A2 & A3).
    repeat split; try congruence; try lia. exact A3.
Qed.

(** The second factor: [q] itself when it is good and is not [p'],
    otherwise the least good number above [q] other than [p']. *)
Lemma second_factor_sound (fuel : nat) (s1 : string) (p' q q' : Z)
  (out1 : list event) :
  second_factor fuel s1 p' q = Some (q', out1) ->
  (BBSGood q = true /\ q <> p' /\ q' = q /\ out1 = [])
  \/ ((BBSGood q = false \/ q = p')
      /\ BBSGood q' = true /\ q' <> p' /\ q < q'
      /\ (forall z : Z, q < z < q' -> BBSGood z = true -> z = p')
      /\ out1 = [EvInvalidBlumFactor s1 q']).
Proof.
  unfold second_factor. rewrite mpz_cmp_eqb. intros H.
  destruct (negb (BBSGood q) || (p' =? q)) eqn:Ec.
  - right.
    assert (Hc : BBSGood q = false \/ q = p').
    { apply orb_true_iff in Ec. destruct Ec as [Ec|Ec].
      - left. apply negb_true_iff in Ec. exact Ec.
      - right. apply Z.eqb_eq in Ec. congruence. }
    split; [exact Hc|].
    destruct (BBSFindGood fuel q) as [q1|] eqn:E1; [|discriminate].
    cbn [bind] in H.
    apply BBSFindGood_sound in E1. destruct E1 as (A1 & _ & A2 & A3).
    rewrite mpz_cmp_eqb in H. destruct (p' =? q1) eqn:E.
    + apply Z.eqb_eq in E. subst q1.
      destruct (BBSFindGood fuel p') as [q2|] eqn:E2; [|discriminate].
      cbn [bind] in H. inversion H; subst q' out1.
      apply BBSFindGood_sound in E2. destruct E2 as (B1 & _ & B2 & B3).
      repeat split; try lia; try exact B2.
      intros z Hz Hg. destruct (Z.lt_trichotomy z p') as [Hlt|[Heq|Hgt]].
      * rewrite A3 in Hg by lia. discriminate.
      * exact Heq.
      * rewrite B3 in Hg by lia. discriminate.
    + apply Z.eqb_neq in E. cbn [bind] in H. inversion H; subst q' out1.
      repeat split; try lia; try exact A2.
      intros z Hz Hg. rewrite A3 in Hg by lia. discriminate.
  - left. apply orb_false_iff in Ec. destruct Ec as [Ec1 Ec2].
    apply negb_false_iff in Ec1. apply Z.eqb_neq in Ec2.
    inversion H; subst. repeat split; congruence.
Qed.

Lemma choose_factors_inv (fuel : nat) (s0 s1 : string) (p q p' q' : Z)
  (out : list event) :
  choose_factors fuel s0 s1 p q = Some (p', q', out) ->
  exists out0 out1 : list event,
    first_factor fuel s0 p = Some (p', out0)
    /\ second_factor fuel s1 p' q = Some (q', out1)
    /\ out = out0 ++ out1.
Proof.
  unfold choose_factors. intros H.
  destruct (first_factor fuel s0 p) as [[p1 out0]|]; [|discriminate].
  cbn [bind] in H.
  destruct (second_factor fuel s1 p1 q) as [[q1 out1]|] eqn:E2; [|discriminate].
  cbn [bind] in H. inversion H; subst.
  exists out0, out1. repeat split. exact E2.
Qed.

Lemma first_factor_returns (fuel : nat) (s0 : string) (p g : Z) :
  p < g -> BBSGood g = true -> g - p <= Z.of_nat fuel ->
  exists (p' : Z) (out0 : list event),
    first_factor fuel s0 p = Some (p', out0) /\ p' <= Z.max p g.
Proof.
  intros Hp Hg Hf. unfold first_factor. destruct (BBSGood p).
  - exists p, []. split; [reflexivity|lia].
  - cbn [negb]. destruct (BBSFindGood_complete fuel p g Hp Hg Hf) as (y & E & Hy).
    rewrite E. cbn [bind]. exists y, [EvInvalidBlumFactor s0 y].
    split; [reflexivity|lia].
Qed.

Lemma second_factor_returns (fuel : nat) (s1 : string) (p' q g2 g3 : Z) :
  q < g2 -> g2 < g3 -> BBSGood g2 = true -> BBSGood g3 = true ->
  g3 - q <= Z.of_nat fuel ->
  exists (q' : Z) (out1 : list event),
    second_factor fuel s1 p' q = Some (q', out1).
Proof.
  intros H2 H3 Hg2 Hg3 Hf. unfold second_factor.
  destruct (negb (BBSGood q) || (mpz_cmp p' q =? 0)).
  - destruct (BBSFindGood_complete fuel q g2 H2 Hg2 ltac:(lia)) as (y & E & Hy).
    rewrite E. cbn [bind].
    destruct (mpz_cmp p' y =? 0).
    + pose proof (BBSFindGood_sound _ _ _ E) as (A1 & _).
      destruct (BBSFindGood_complete fuel y g3 ltac:(lia) Hg3 ltac:(lia))
        as (y2 & E2 & _).
      rewrite E2. cbn [bind]. eexists. eexists. reflexivity.
    + cbn [bind]. eexists. eexists. reflexivity.
  - eexists. eexists. reflexivity.
Qed.

End FactorChoice.

Section FactorTheorems.

Context {L : Library}.

Abbreviation ctx := (rngcontext randctx sfmt_t).

Lemma BBSGood_iff (y : Z) :
  BBSGood y = true
  <-> 19 <= y /\ y mod 4 = 3 /\ mpz_probab_prime_p y 10 <> 0.
Proof.
  split; [apply BBSGood_spec|].
  intros (Hy & Hm & Hp). unfold BBSGood.
  apply andb_true_iff. split; [apply andb_true_iff; split|].
  - apply Z.eqb_eq. unfold mpz_get_ui, u64. rewrite Z.abs_eq by lia.
    assert (Hl : Z.land (y mod 2 ^ 64) 3 = (y mod 2 ^ 64) mod 4)
      by exact (Z.land_ones (y mod 2 ^ 64) 2 ltac:(lia)).
    rewrite Hl. rewrite (Z.mod_mod_divide y (2 ^ 64) 4); [exact Hm|].
    exists (2 ^ 62). reflexivity.
  - rewrite Z.geb_leb. apply Z.leb_le. unfold mpz_cmp.
    pose proof (Z.sgn_nonneg (y - 19)). lia.
  - apply negb_true_iff. apply Z.eqb_neq. exact Hp.
Qed.

Lemma InitRNGBBSFactors_inv (fuel : nat) (s0 s1 : string) (p q : Z) (x x' : ctx)
  (r : Z) (out : list event) :
  mpz_set_str s0 = Some p -> mpz_set_str s1 = Some q -> 0 < p ->
  InitRNGBBSFactors fuel (Some s0) (Some s1) x = Some (r, x', out) ->
  r = 0
  /\ exists p' q' : Z,
      x' = set_zModulus (InitRNGBBS x) (p' * q')
      /\ p' <> q' /\ BBSGood p' = true /\ BBSGood q' = true
      /\ (if BBSGood p then p' = p
          else p < p' /\ forall z : Z, p < z < p' -> BBSGood z = false)
      /\ (if BBSGood q && negb (q =? p') then q' = q
          else q < q' /\ forall z : Z, q < z < q' -> BBSGood z = true -> z = p')
      /\ out = (if BBSGood p then [] else [EvInvalidBlumFactor s0 p'])
               ++ (if BBSGood q && negb (q =? p') then []
                   else [EvInvalidBlumFactor s1 q']).
Proof.
  intros H0 H1 Hp H.
  rewrite (InitRNGBBSFactors_parsed fuel s0 s1 p q x H0 H1 Hp) in H.
  destruct (choose_factors fuel s0 s1 p q) as [[[p' q'] out']|] eqn:Ec;
    [|discriminate].
  cbn [bind] in H. inversion H; subst r x' out'. split; [reflexivity|].
  apply choose_factors_inv in Ec. destruct Ec as (out0 & out1 & E0 & E1 & ->).
  apply first_factor_sound in E0. destruct E0 as (Gp & Kp & Rp & ->).
  apply second_factor_sound in E1.
  exists p', q'. split; [reflexivity|].
  assert (Hfirst : if BBSGood p then p' = p
                   else p < p' /\ forall z : Z, p < z < p' -> BBSGood z = false).
  { destruct (BBSGood p); auto. }
  destruct E1 as [(Gq & Nq & -> & ->)|(Hc & Gq & Nq & Lq & Mq & ->)].
  - assert (Eb : BBSGood q && negb (q =? p') = true).
    { rewrite Gq. cbn [andb]. apply negb_true_iff. apply Z.eqb_neq. exact Nq. }
    rewrite Eb. repeat split; try congruence; exact Hfirst.
  - assert (Eb : BBSGood q && negb (q =? p') = false).
    { destruct Hc as [Hc|Hc].
      - rewrite Hc. reflexivity.
      - subst q. rewrite Z.eqb_refl. cbn [negb]. apply andb_false_r. }
    rewrite Eb. repeat split; try congruence; try exact Hfirst; try lia.
    exact Mq.
Qed.

Lemma InitRNGBBSFactors_returns (fuel : nat) (s0 s1 : string) (p q g1 g2 g3 : Z)
  (x : ctx) :
  mpz_set_str s0 = Some p -> mpz_set_str s1 = Some q -> 0 < p ->
  p < g1 -> BBSGood g1 = true ->
  q < g2 -> g2 < g3 -> BBSGood g2 = true -> BBSGood g3 = true ->
  g1 - p <= Z.of_nat fuel -> g3 - q <= Z.of_nat fuel ->
  exists (x' : ctx) (out : list event),
    InitRNGBBSFactors fuel (Some s0) (Some s1) x = Some (0, x', out).
Proof.
  intros H0 H1 Hp Hg1 G1 Hg2 Hg3 G2 G3 F1 F3.
  rewrite (InitRNGBBSFactors_parsed fuel s0 s1 p q x H0 H1 Hp).
  unfold choose_factors.
  destruct (first_factor_returns fuel s0 p g1 Hg1 G1 F1) as (p' & out0 & E0 & _).
  rewrite E0. cbn [bind].
  destruct (second_factor_returns fuel s1 p' q g2 g3 Hg2 Hg3 G2 G3 F3)
    as (q' & out1 & E1).
  rewrite E1. cbn [bind]. eexists. eexists. reflexivity.
Qed.

End FactorTheorems.

(** C4 as stated fails on the second factor: with the factors "19" and
    "4" the bad factor 4 is replaced by 23, although 19 is good and lies
    strictly between them; 19 is passed over because it is the first
    factor. *)
Lemma InitRNGBBSFactors_skips_first_factor :
  InitRNGBBSFactors (L := sample_library) 30 (Some "19"%string) (Some "4"%string) ctx0
  = Some (0, set_zModulus (InitRNGBBS ctx0) (19 * 23),
          [EvInvalidBlumFactor "4" 23])
  /\ mpz_set_str "19" = Some 19 /\ mpz_set_str "4" = Some 4
  /\ BBSGood (L := sample_library) 4 = false
  /\ BBSGood (L := sample_library) 19 = true
  /\ 4 < 19 < 23.
Proof. repeat split; reflexivity. Qed.

(** C4, amended.  For all parsable positive factor inputs, a call of
    [InitRNGBBSFactors] that returns returns 0 and sets the modulus to
    the exact product [p' * q'] of two distinct factors, each of them
    good: at least 19, congruent to 3 mod 4 and passing the primality
    test with 10 rounds.  The first factor is kept when good and
    otherwise replaced by the least good integer above it.  The second
    is kept when good and different from [p'], and otherwise replaced by
    the least good integer above it other than [p'].  Each replacement is
    printed.  The call returns once the fuel reaches a good integer above
    the first factor and two above the second. *)
Theorem InitRNGBBSFactors_good :
  forall (L : Library) (fuel : nat) (s0 s1 : string) (p q : Z)
         (x : rngcontext randctx sfmt_t),
    mpz_set_str s0 = Some p -> mpz_set_str s1 = Some q ->
    0 < p -> 0 < q ->
    (forall y : Z,
        BBSGood y = true
        <-> 19 <= y /\ y mod 4 = 3 /\ mpz_probab_prime_p y 10 <> 0)
    /\ (forall (r : Z) (x' : rngcontext randctx sfmt_t) (out : list event),
           InitRNGBBSFactors fuel (Some s0) (Some s1) x = Some (r, x', out) ->
           r = 0
           /\ exists p' q' : Z,
               zModulus x' = p' * q'
               /\ p' <> q' /\ BBSGood p' = true /\ BBSGood q' = true
               /\ (if BBSGood p then p' = p
                   else p < p' /\ forall z : Z, p < z < p' -> BBSGood z = false)
               /\ (if BBSGood q && negb (q =? p') then q' = q
                   else q < q'
                        /\ forall z : Z, q < z < q' -> BBSGood z = true -> z = p')
               /\ out = (if BBSGood p then [] else [EvInvalidBlumFactor s0 p'])
                        ++ (if BBSGood q && negb (q =? p') then []
                            else [EvInvalidBlumFactor s1 q']))
    /\ (forall g1 g2 g3 : Z,
           p < g1 -> BBSGood g1 = true ->
           q < g2 -> g2 < g3 -> BBSGood g2 = true -> BBSGood g3 = true ->
           g1 - p <= Z.of_nat fuel -> g3 - q <= Z.of_nat fuel ->
           exists (x' : rngcontext randctx sfmt_t) (out : list event),
             InitRNGBBSFactors fuel (Some s0) (Some s1) x = Some (0, x', out)).
Proof.
  intros L fuel s0 s1 p q x H0 H1 Hp Hq.
  split; [apply BBSGood_iff|]. split.
  - intros r x' out H.
    destruct (InitRNGBBSFactors_inv fuel s0 s1 p q x x' r out H0 H1 Hp H)
      as (Hr & p' & q' & -> & Hrest).
    split; [exact Hr|]. exists p', q'. split; [reflexivity|exact Hrest].
  - intros g1 g2 g3 A1 A2 A3 A4 A5 A6 A7 A8.
    exact (InitRNGBBSFactors_returns fuel s0 s1 p q g1 g2 g3 x
             H0 H1 Hp A1 A2 A3 A4 A5 A6 A7 A8).
Qed.

Lemma InitRNGBBSFactors_good_witness :
  (mpz_set_str "4" = Some 4 /\ mpz_set_str "9" = Some 9 /\ 0 < 4 /\ 0 < 9)
  /\ exists (x' : rngcontext Z Z) (out : list event),
      InitRNGBBSFactors (L := sample_library) 30 (Some "4"%string) (Some "9"%string) ctx0
      = Some (0, x', out).
Proof.
  split; [repeat split; reflexivity|].
  destruct (InitRNGBBSFactors_good sample_library 30 "4" "9" 4 9 ctx0
              eq_refl eq_refl eq_refl eq_refl) as (_ & _ & H).
  apply (H 19 19 23); try reflexivity; lia.
Defined.

(** C10.  [InitRNGBBSFactors] tests the sign of the first factor twice
    and that of the second never.  With a positive first factor, a call
    on a parsable negative second factor never returns -1: when it
    returns it returns 0, with a modulus set and the replacement of the
    second factor printed; so it does on "23" and "-5", where -5 is
    replaced by 19.  The call with the negative factor first returns -1
    and leaves the context as it was, with nothing printed. *)
Theorem InitRNGBBSFactors_second_sign :
  (forall (L : Library) (fuel : nat) (s0 s1 : string) (p q : Z)
          (x x' : rngcontext randctx sfmt_t) (r : Z) (out : list event),
      mpz_set_str s0 = Some p -> 0 < p ->
      mpz_set_str s1 = Some q -> q < 0 ->
      InitRNGBBSFactors fuel (Some s0) (Some s1) x = Some (r, x', out) ->
      r = 0
      /\ exists p' q' : Z,
          x' = set_zModulus (InitRNGBBS x) (p' * q')
          /\ 19 <= q' /\ In (EvInvalidBlumFactor s1 q') out)
  /\ (forall (L : Library) (fuel : nat) (s0 : string) (sz1 : option string) (p : Z)
             (x : rngcontext randctx sfmt_t),
         mpz_set_str s0 = Some p -> p < 0 ->
         InitRNGBBSFactors fuel (Some s0) sz1 x = Some (-1, x, []))
  /\ mpz_set_str "-5" = Some (-5)
  /\ InitRNGBBSFactors (L := sample_library) 30 (Some "23"%string) (Some "-5"%string) ctx0
     = Some (0, set_zModulus (InitRNGBBS ctx0) (23 * 19),
             [EvInvalidBlumFactor "-5" 19])
  /\ InitRNGBBSFactors (L := sample_library) 30 (Some "-5"%string) (Some "23"%string) ctx0
     = Some (-1, ctx0, []).
Proof.
  split; [|split; [|repeat split; reflexivity]].
  - intros L fuel s0 s1 p q x x' r out H0 Hp H1 Hq H.
    destruct (InitRNGBBSFactors_inv fuel s0 s1 p q x x' r out H0 H1 Hp H)
      as (Hr & p' & q' & Hx & _ & _ & Gq & _ & Hsecond & Hout).
    split; [exact Hr|]. exists p', q'. split; [exact Hx|].
    apply BBSGood_spec in Gq. split; [lia|].
    assert (Eb : BBSGood q = false).
    { destruct (BBSGood q) eqn:E; [|reflexivity].
      apply BBSGood_spec in E. lia. }
    rewrite Eb in Hout. cbn [andb] in Hout. rewrite Hout.
    apply in_or_app. right. left. reflexivity.
  - intros L fuel s0 sz1 p x H0 Hp.
    apply InitRNGBBSFactors_first_sign with (p := p); [exact H0|lia].
Qed.

Lemma InitRNGBBSFactors_second_sign_witness :
  (mpz_set_str "-5" = Some (-5) /\ -5 < 0)
  /\ InitRNGBBSFactors (L := sample_library) 7 (Some "-5"%string) None ctx0
     = Some (-1, ctx0, []).
Proof.
  split; [split; [reflexivity|lia]|].
  destruct InitRNGBBSFactors_second_sign as (_ & H & _).
  apply (H sample_library 7%nat "-5"%string None (-5) ctx0 eq_refl). lia.
Defined.

(** ** Claim C9: the retry of the MD5 backend *)

Section DigestRetry.

Context {L : Library}.

Abbreviation ctx := (rngcontext randctx sfmt_t).

Lemma md5_loop_rejected (fuel : nat) (h : Z * Z) (x : ctx) :
  rejected_digest h = true ->
  md5_loop (S fuel) h x
  = md5_loop fuel (md5_buffer (nMD5 x)) (set_nMD5 x (u32 (nMD5 x + 1))).
Proof.
  unfold rejected_digest. intros H. cbn [md5_loop]. rewrite H. reflexivity.
Qed.

Lemma md5_loop_accepted_now (fuel : nat) (h : Z * Z) (x : ctx) :
  rejected_digest h = false -> md5_loop fuel h x = Some (h, x).
Proof.
  unfold rejected_digest. intros H. destruct fuel; cbn [md5_loop]; rewrite H;
    reflexivity.
Qed.

Lemma md5_retry_described_rejected (fuel : nat) (h : Z * Z) (x : ctx) :
  rejected_digest h = true ->
  md5_retry_described (S fuel) h x
  = md5_retry_described fuel (md5_buffer (u32 (nMD5 x + 1)))
                        (set_nMD5 x (u32 (nMD5 x + 1))).
Proof.
  unfold rejected_digest. intros H. cbn [md5_retry_described]. rewrite H.
  reflexivity.
Qed.

Lemma md5_retry_described_accepted (fuel : nat) (h : Z * Z) (x : ctx) :
  rejected_digest h = false -> md5_retry_described fuel h x = Some (h, x).
Proof.
  unfold rejected_digest. intros H.
  destruct fuel; cbn [md5_retry_described]; rewrite H; reflexivity.
Qed.

Lemma digest_dice_range (h : Z * Z) :
  rejected_digest h = false -> in_range (digest_dice h).
Proof.
  unfold rejected_digest, digest_dice, in_range. intros H.
  apply orb_false_iff in H. destruct H as [H0 H1].
  rewrite Z.geb_leb in H0, H1. apply Z.leb_gt in H0. apply Z.leb_gt in H1.
  pose proof (u32_range (fst h)). pose proof (u32_range (snd h)).
  cbn [fst snd]. split; apply md5_die_range; lia.
Qed.

End DigestRetry.

(** C9 fails on the code.  When a digest is rejected the loop of
    [RollDice] takes the digest of the stored seed first and adds 1 to
    the seed after it: the first retried digest is that of the seed just
    rejected, and is rejected again; only the next one comes from the
    seed plus 1.  When that one is accepted the dice are made of it, and
    the seed stored after the roll is the old seed plus 3, not plus 2 as
    with the retry that is described, which increments first. *)
Theorem RollDice_MD5_retry_same_seed :
  forall (L : Library) (fuel : nat) (x : rngcontext randctx sfmt_t) (w : world),
    rejected_digest (md5_buffer (nMD5 x)) = true ->
    rejected_digest (md5_buffer (u32 (nMD5 x + 1))) = false ->
    md5_loop (S (S fuel)) (md5_buffer (nMD5 x)) x
    = md5_loop (S fuel) (md5_buffer (nMD5 x)) (set_nMD5 x (u32 (nMD5 x + 1)))
    /\ md5_loop (S (S fuel)) (md5_buffer (nMD5 x)) x
       = Some (md5_buffer (u32 (nMD5 x + 1)),
               set_nMD5 x (u32 (u32 (nMD5 x + 1) + 1)))
    /\ md5_retry_described (S (S fuel)) (md5_buffer (nMD5 x)) x
       = Some (md5_buffer (u32 (nMD5 x + 1)), set_nMD5 x (u32 (nMD5 x + 1)))
    /\ RollDice (S (S (S fuel))) RNG_MD5 x w
       = Some (mkrolled 0 (digest_dice (md5_buffer (u32 (nMD5 x + 1)))) RNG_MD5
                        (count2 (set_nMD5 x (u32 (u32 (u32 (nMD5 x + 1) + 1) + 1))))
                        w []).
Proof.
  intros L fuel x w Hrej Hacc.
  assert (E1 : md5_loop (S (S fuel)) (md5_buffer (nMD5 x)) x
               = md5_loop (S fuel) (md5_buffer (nMD5 x))
                          (set_nMD5 x (u32 (nMD5 x + 1)))).
  { apply md5_loop_rejected. exact Hrej. }
  assert (E2 : md5_loop (S (S fuel)) (md5_buffer (nMD5 x)) x
               = Some (md5_buffer (u32 (nMD5 x + 1)),
                       set_nMD5 x (u32 (u32 (nMD5 x + 1) + 1)))).
  { rewrite E1. rewrite md5_loop_rejected by exact Hrej.
    change (nMD5 (set_nMD5 x (u32 (nMD5 x + 1)))) with (u32 (nMD5 x + 1)).
    rewrite md5_loop_accepted_now by exact Hacc. reflexivity. }
  split; [exact E1|]. split; [exact E2|]. split.
  - rewrite md5_retry_described_rejected by exact Hrej.
    apply md5_retry_described_accepted. exact Hacc.
  - apply RollDice_direct; [discriminate| |apply digest_dice_range; exact Hacc].
    cbn [roll_switch]. rewrite E2. reflexivity.
Qed.

(** The failing input: the seed 382864299, whose MD5 digest has
    4294967293 as its second word.  The roll makes its dice (1,3) of the
    digest of 382864300 and leaves the seed 382864302. *)
Lemma RollDice_MD5_retry_same_seed_witness :
  md5_words 382864299 = (713977480, 4294967293)
  /\ md5_words 382864300 = (192911885, 2086101435)
  /\ InitRNGSeed (L := md5_library) 382864299 RNG_MD5 ctx0
     = Some (ctx_md5_seeded, [])
  /\ RollDice (L := md5_library) 3 RNG_MD5 ctx_md5_seeded tt
     = Some (mkrolled (L := md5_library) 0 (1, 3) RNG_MD5 ctx_md5_rolled tt []).
Proof.
  assert (H0 : md5_words 382864299 = (713977480, 4294967293))
    by (vm_compute; reflexivity).
  assert (H1 : md5_words 382864300 = (192911885, 2086101435))
    by (vm_compute; reflexivity).
  split; [exact H0|]. split; [exact H1|]. split; [reflexivity|].
  destruct (RollDice_MD5_retry_same_seed md5_library 0 ctx_md5_seeded tt)
    as (_ & _ & _ & H).
  - change (rejected_digest (md5_words 382864299) = true). rewrite H0. reflexivity.
  - change (rejected_digest (md5_words 382864300) = false). rewrite H1. reflexivity.
  - rewrite H.
    change (@md5_buffer md5_library (u32 (nMD5 ctx_md5_seeded + 1)))
      with (md5_words 382864300).
    rewrite H1. reflexivity.
Defined.

(** ** Claim C8: rolls after seeding *)




Section Determinism.

Context {L : Library}.

Abbreviation ctx := (rngcontext randctx sfmt_t).





End Determinism.

Section SeededRuns.

Context {L : Library}.

Abbreviation ctx := (rngcontext randctx sfmt_t).

Lemma roll_switch_MERSENNE_range (fuel : nat) (x x1 : ctx) (w w1 : world)
  (d0 d1 : Z) (out1 : list event) :
  roll_switch fuel RNG_MERSENNE x w = Some (d0, d1, x1, w1, out1) ->
  out_of_range (d0, d1) = false.
Proof.
  intros H. apply roll_switch_MERSENNE in H.
  destruct H as (r0 & s1 & r1 & s2 & E0 & E1 & -> & -> & _).
  destruct (two_draws _ _ _ _ _ _ _ E0 E1) as (_ & _ & _ & _ & _ & Hin).
  apply in_range_not_out. exact Hin.
Qed.



(** A roll returns with the kind it was called with or, after a
    fallback, with the Mersenne Twister. *)
Lemma RollDice_kinds (fuel : nat) (k : rng) (x : ctx) (w : world) (r : rolled) :
  k <> RNG_MANUAL ->
  RollDice fuel k x w = Some r -> kind r = k \/ kind r = RNG_MERSENNE.
Proof.
  intros Hm H.
  destruct (RollDice_inv _ _ _ _ _ Hm H)
    as (f & d0 & d1 & x1 & w1 & out1 & _ & _ & [[_ ->]|[_ (r' & Hr' & ->)]]).
  - left. reflexivity.
  - right. apply RollDice_MERSENNE_inv in Hr'. cbn [kind]. apply Hr'.
Qed.



Lemma RollDice_times_MERSENNE (fuel : nat) (count : nat) :
  forall (x x2 : ctx) (w w2 : world) (ds : list (Z * Z)) (k' : rng),
    RollDice_times fuel count RNG_MERSENNE x w = Some (ds, k', x2, w2) ->
    k' = RNG_MERSENNE.
Proof.
  induction count as [|count IH]; intros x x2 w w2 ds k' H.
  - inversion H. reflexivity.
  - cbn [RollDice_times] in H.
    destruct (RollDice fuel RNG_MERSENNE x w) as [r|] eqn:E; [|discriminate].
    cbn [bind] in H.
    apply RollDice_MERSENNE_inv in E. destruct E as (_ & _ & Hk & _).
    rewrite Hk in H.
    destruct (RollDice_times fuel count RNG_MERSENNE (rctx r) (rworld r))
      as [[[[ds' k2] x3] w3]|] eqn:E2; [|discriminate].
    cbn [bind] in H. inversion H; subst. eapply IH. exact E2.
Qed.



End SeededRuns.

Section Seeding.

Context {L : Library}.

Abbreviation ctx := (rngcontext randctx sfmt_t).









End Seeding.


(** The condition on the libraries of ISAAC and SFMT cannot be dropped:
    with seeding routines that keep part of the old state, two contexts
    whose generators differ roll differently after the same seed 5. *)
Lemma seeded_rolls_need_rebuilding :
  seeded_rolls (L := leaky_library) 4 5 2 RNG_ISAAC ctx0 tt
  = Some [(5, 3); (6, 1)]
  /\ seeded_rolls (L := leaky_library) 4 5 2 RNG_ISAAC ctx_two tt
     = Some [(5, 4); (4, 1)]
  /\ seeded_rolls (L := leaky_library) 4 5 2 RNG_MERSENNE ctx0 tt
     = Some [(2, 5); (6, 6)]
  /\ seeded_rolls (L := leaky_library) 4 5 2 RNG_MERSENNE ctx_two tt
     = Some [(2, 6); (4, 6)].
Proof. repeat split; reflexivity. Qed.



(** * Further properties of dice.c *)

(** ** Setting the modulus *)

Section ModulusSetup.

Context {L : Library}.

Abbreviation ctx := (rngcontext randctx sfmt_t).

Lemma InitRNGBBS_ready (x : ctx) : fZInit (InitRNGBBS x) = true.
Proof. unfold InitRNGBBS. destruct (fZInit x) eqn:E; [exact E|reflexivity]. Qed.

Lemma BBSCheckInitialSeed_returns (x : ctx) :
  zSeed x <= 0 \/ zModulus x <> 0 ->
  exists (r : Z) (x' : ctx) (out : list event),
    BBSCheckInitialSeed x = Some (r, x', out)
    /\ zModulus x' = zModulus x /\ fZInit x' = fZInit x.
Proof.
  intros H. unfold BBSCheckInitialSeed, mpz_sgn.
  destruct (Z.sgn (zSeed x) <? 1) eqn:E.
  - eexists. eexists. eexists. split; [reflexivity|]. split; reflexivity.
  - destruct H as [H|H].
    { apply Z.ltb_ge in E. pose proof (Z.sgn_nonpos (zSeed x)). lia. }
    rewrite attempt_loop_find by exact H. cbn [bind].
    destruct (find (fun j => negb (recurs (zModulus x) (zSeed x + Z.of_nat j)))
                   (seq 0 32)) as [j|].
    + destruct (0 + Z.of_nat j =? 32);
        eexists; eexists; eexists; (split; [reflexivity|split; reflexivity]).
    + destruct (0 + Z.of_nat 32 =? 32);
        eexists; eexists; eexists; (split; [reflexivity|split; reflexivity]).
Qed.

Lemma InitRNGSeed_BBS_returns (n0 : Z) (x : ctx) :
  fZInit x = true -> zModulus x <> 0 ->
  exists (x' : ctx) (out : list event),
    InitRNGSeed n0 RNG_BBS x = Some (x', out)
    /\ zModulus x' = zModulus x /\ c x' = 0 /\ n x' = u32 n0.
Proof.
  intros Hi Hm. unfold InitRNGSeed.
  change (fZInit (set_c (set_n x (u32 n0)) 0)) with (fZInit x). rewrite Hi.
  unfold BBSCheckInitialSeed, mpz_sgn.
  change (zSeed (set_zSeed (set_c (set_n x (u32 n0)) 0) (u32 n0))) with (u32 n0).
  destruct (Z.sgn (u32 n0) <? 1).
  - cbn [bind BBSInitialSeedFailure]. eexists. eexists.
    split; [reflexivity|]. repeat split.
  - rewrite attempt_loop_find by exact Hm. cbn [bind].
    change (zModulus (set_zSeed (set_c (set_n x (u32 n0)) 0) (u32 n0)))
      with (zModulus x).
    change (zSeed (set_zSeed (set_c (set_n x (u32 n0)) 0) (u32 n0))) with (u32 n0).
    destruct (find (fun j => negb (recurs (zModulus x) (u32 n0 + Z.of_nat j)))
                   (seq 0 32)) as [j|].
    + destruct (0 + Z.of_nat j =? 32); cbn [bind BBSInitialSeedFailure];
        eexists; eexists; (split; [reflexivity|repeat split]).
    + destruct (0 + Z.of_nat 32 =? 32); cbn [bind BBSInitialSeedFailure];
        eexists; eexists; (split; [reflexivity|repeat split]).
Qed.

Lemma InitRNGSeed_BBS_aborts (n0 : Z) (x : ctx) :
  fZInit x = false -> InitRNGSeed n0 RNG_BBS x = None.
Proof.
  intros Hi. unfold InitRNGSeed.
  change (fZInit (set_c (set_n x (u32 n0)) 0)) with (fZInit x). rewrite Hi.
  reflexivity.
Qed.

End ModulusSetup.

(** X1.  [InitRNGBBSModulus] returns 0 exactly when the string is given
    and is a positive number; the number is then the modulus and a
    following [InitRNGSeed] for BBS returns.  Without a string nothing
    changes.  A string that is a number but not a positive one gives -1,
    and that number is stored as the modulus all the same. *)
Theorem InitRNGBBSModulus_result :
  forall (L : Library) (sz : option string) (x : rngcontext randctx sfmt_t),
    (fst (InitRNGBBSModulus sz x) = 0
     <-> exists (s : string) (m : Z),
          sz = Some s /\ mpz_set_str s = Some m /\ 0 < m)
    /\ (fst (InitRNGBBSModulus sz x) = 0 \/ fst (InitRNGBBSModulus sz x) = -1)
    /\ (sz = None -> InitRNGBBSModulus sz x = (-1, x))
    /\ (forall (s : string) (m : Z),
           sz = Some s -> mpz_set_str s = Some m ->
           zModulus (snd (InitRNGBBSModulus sz x)) = m
           /\ fZInit (snd (InitRNGBBSModulus sz x)) = true
           /\ zSeed (snd (InitRNGBBSModulus sz x)) = zSeed (InitRNGBBS x)
           /\ (m <= 0 -> fst (InitRNGBBSModulus sz x) = -1))
    /\ (fst (InitRNGBBSModulus sz x) = 0 ->
        forall n0 : Z,
        exists (x' : rngcontext randctx sfmt_t) (out : list event),
          InitRNGSeed n0 RNG_BBS (snd (InitRNGBBSModulus sz x)) = Some (x', out)
          /\ zModulus x' = zModulus (snd (InitRNGBBSModulus sz x))).
Proof.
  intros L sz x.
  assert (Hchar : forall s m, sz = Some s -> mpz_set_str s = Some m ->
            InitRNGBBSModulus sz x
            = (if Z.sgn m <? 1 then -1 else 0, set_zModulus (InitRNGBBS x) m)).
  { intros s m -> Hs. unfold InitRNGBBSModulus, mpz_sgn. rewrite Hs.
    destruct (Z.sgn m <? 1); reflexivity. }
  assert (Hsgn : forall m, (Z.sgn m <? 1) = (m <=? 0)).
  { intros m. destruct (m <=? 0) eqn:E.
    - apply Z.leb_le in E. apply Z.ltb_lt. pose proof (Z.sgn_nonpos m). lia.
    - apply Z.leb_gt in E. apply Z.ltb_ge. rewrite (Z.sgn_pos m E). lia. }
  split; [|split; [|split; [|split]]].
  - split.
    + intros H. destruct sz as [s|]; [|discriminate].
      destruct (mpz_set_str s) as [m|] eqn:Es.
      * rewrite (Hchar s m eq_refl Es), Hsgn in H. cbn [fst] in H.
        destruct (m <=? 0) eqn:E; [discriminate|]. apply Z.leb_gt in E.
        exists s, m. auto.
      * unfold InitRNGBBSModulus in H. rewrite Es in H. discriminate.
    + intros (s & m & Hs & Hp & Hm). rewrite (Hchar s m Hs Hp), Hsgn.
      destruct (m <=? 0) eqn:E; [apply Z.leb_le in E; lia|reflexivity].
  - destruct sz as [s|]; [|right; reflexivity].
    destruct (mpz_set_str s) as [m|] eqn:Es.
    + rewrite (Hchar s m eq_refl Es). destruct (Z.sgn m <? 1); auto.
    + unfold InitRNGBBSModulus. rewrite Es. right. reflexivity.
  - intros ->. reflexivity.
  - intros s m Hs Hp. rewrite (Hchar s m Hs Hp), Hsgn. cbn [fst snd].
    split; [reflexivity|]. split; [apply InitRNGBBS_ready|]. split; [reflexivity|].
    intros Hm. destruct (m <=? 0) eqn:E; [reflexivity|apply Z.leb_gt in E; lia].
  - intros H n0. destruct sz as [s|]; [|discriminate].
    destruct (mpz_set_str s) as [m|] eqn:Es.
    + rewrite (Hchar s m eq_refl Es), Hsgn in *. cbn [fst snd] in *.
      destruct (m <=? 0) eqn:E; [discriminate|]. apply Z.leb_gt in E.
      destruct (InitRNGSeed_BBS_returns n0 (set_zModulus (InitRNGBBS x) m))
        as (x' & out & Hr & Hm' & _).
      * apply InitRNGBBS_ready.
      * cbn. lia.
      * exists x', out. split; [exact Hr|exact Hm'].
    + unfold InitRNGBBSModulus in H. rewrite Es in H. discriminate.
Qed.

Lemma InitRNGBBSModulus_result_witness :
  mpz_set_str "-437" = Some (-437)
  /\ zModulus (snd (InitRNGBBSModulus (L := sample_library)
                      (Some "-437"%string) ctx0)) = -437
  /\ fst (InitRNGBBSModulus (L := sample_library)
            (Some "-437"%string) ctx0) = -1.
Proof.
  split; [reflexivity|].
  destruct (InitRNGBBSModulus_result sample_library
              (Some "-437"%string) ctx0) as (_ & _ & _ & H & _).
  destruct (H "-437"%string (-437) eq_refl eq_refl) as (Hm & _ & _ & Hneg).
  split; [exact Hm|apply Hneg; lia].
Defined.

(** ** The modulus made of two factors *)

Section FactorsModulus.

Context {L : Library}.

Lemma blum_product (p q : Z) :
  19 <= p -> 19 <= q -> p mod 4 = 3 -> q mod 4 = 3 -> p <> q ->
  437 <= p * q /\ (p * q) mod 4 = 1.
Proof.
  intros Hp Hq Mp Mq Hne.
  pose proof (Z.div_mod p 4 ltac:(lia)) as Dp.
  pose proof (Z.div_mod q 4 ltac:(lia)) as Dq.
  rewrite Mp in Dp. rewrite Mq in Dq.
  set (a := p / 4) in *. set (b := q / 4) in *.
  assert (Ha : 4 <= a) by lia. assert (Hb : 4 <= b) by lia.
  assert (Hab : a <> b) by lia.
  split.
  - rewrite Dp, Dq. nia.
  - replace (p * q) with (1 + (4 * a * b + 3 * a + 3 * b + 2) * 4)
      by (rewrite Dp, Dq; ring).
    rewrite Z.mod_add by lia. reflexivity.
Qed.

Lemma InitRNGBBSFactors_refused (fuel : nat) (sz0 sz1 : option string)
  (x x' : rngcontext randctx sfmt_t) (r : Z) (out : list event) :
  InitRNGBBSFactors fuel sz0 sz1 x = Some (r, x', out) ->
  r <> 0 -> r = -1 /\ x' = x /\ out = [].
Proof.
  intros H Hr. destruct sz0 as [s0|]; [|inversion H; auto].
  destruct sz1 as [s1|]; [|inversion H; auto].
  destruct (mpz_set_str s0) as [p|] eqn:E0;
    [|unfold InitRNGBBSFactors in H; rewrite E0 in H; inversion H; auto].
  destruct (Z_le_gt_dec p 0) as [Hp|Hp].
  - rewrite (InitRNGBBSFactors_first_sign fuel s0 (Some s1) p x E0 Hp) in H.
    inversion H; auto.
  - destruct (mpz_set_str s1) as [q|] eqn:E1.
    + destruct (InitRNGBBSFactors_inv fuel s0 s1 p q x x' r out E0 E1
                  ltac:(lia) H) as (Hz & _).
      contradiction.
    + unfold InitRNGBBSFactors, mpz_sgn in H. rewrite E0, E1 in H.
      destruct (Z.sgn p <? 1); inversion H; auto.
Qed.

Lemma InitRNGBBSFactors_accepted (fuel : nat) (sz0 sz1 : option string)
  (x x' : rngcontext randctx sfmt_t) (out : list event) :
  InitRNGBBSFactors fuel sz0 sz1 x = Some (0, x', out) ->
  exists p' q' : Z,
    x' = set_zModulus (InitRNGBBS x) (p' * q')
    /\ p' <> q' /\ BBSGood p' = true /\ BBSGood q' = true.
Proof.
  intros H. destruct sz0 as [s0|]; [|discriminate].
  destruct sz1 as [s1|]; [|discriminate].
  destruct (mpz_set_str s0) as [p|] eqn:E0;
    [|unfold InitRNGBBSFactors in H; rewrite E0 in H; discriminate].
  destruct (Z_le_gt_dec p 0) as [Hp|Hp].
  - rewrite (InitRNGBBSFactors_first_sign fuel s0 (Some s1) p x E0 Hp) in H.
    discriminate.
  - destruct (mpz_set_str s1) as [q|] eqn:E1.
    + destruct (InitRNGBBSFactors_inv fuel s0 s1 p q x x' 0 out E0 E1
                  ltac:(lia) H) as (_ & p' & q' & Hx & Hne & Gp & Gq & _).
      exists p', q'. auto.
    + unfold InitRNGBBSFactors, mpz_sgn in H. rewrite E0, E1 in H.
      destruct (Z.sgn p <? 1); discriminate.
Qed.

End FactorsModulus.

(** X2.  Whatever the two strings are, a call of [InitRNGBBSFactors] that
    returns gives 0 or -1.  With -1 the context is left as it was and
    nothing is printed.  With 0 the modulus is at least 437 = 19 * 23 and
    is 1 modulo 4, every other field but the BBS ones is kept, and a
    following [InitRNGSeed] for BBS returns with that modulus. *)
Theorem InitRNGBBSFactors_modulus :
  forall (L : Library) (fuel : nat) (sz0 sz1 : option string)
         (x x' : rngcontext randctx sfmt_t) (r : Z) (out : list event),
    InitRNGBBSFactors fuel sz0 sz1 x = Some (r, x', out) ->
    (r = 0 \/ r = -1)
    /\ (r = -1 -> x' = x /\ out = [])
    /\ (r = 0 ->
        437 <= zModulus x' /\ zModulus x' mod 4 = 1 /\ fZInit x' = true
        /\ (fDice x', szDiceFilename x', rc x', nMD5 x', sfmt x', c x', nz x', n x')
           = (fDice x, szDiceFilename x, rc x, nMD5 x, sfmt x, c x, nz x, n x)
        /\ forall n0 : Z,
           exists (x'' : rngcontext randctx sfmt_t) (out' : list event),
             InitRNGSeed n0 RNG_BBS x' = Some (x'', out')
             /\ zModulus x'' = zModulus x').
Proof.
  intros L fuel sz0 sz1 x x' r out H.
  destruct (Z.eq_dec r 0) as [Hr|Hr].
  - subst r. split; [left; reflexivity|]. split; [discriminate|]. intros _.
    destruct (InitRNGBBSFactors_accepted fuel sz0 sz1 x x' out H)
      as (p' & q' & -> & Hne & Gp & Gq).
    apply BBSGood_spec in Gp. apply BBSGood_spec in Gq.
    destruct Gp as (Hp & Mp & _). destruct Gq as (Hq & Mq & _).
    destruct (blum_product p' q' Hp Hq Mp Mq Hne) as (Hm & H4).
    change (zModulus (set_zModulus (InitRNGBBS x) (p' * q'))) with (p' * q').
    split; [exact Hm|]. split; [exact H4|].
    split; [exact (InitRNGBBS_ready x)|].
    split.
    + unfold InitRNGBBS. destruct (fZInit x); reflexivity.
    + intros n0.
      destruct (InitRNGSeed_BBS_returns n0 (set_zModulus (InitRNGBBS x) (p' * q')))
        as (x'' & out' & Hs & Hm' & _).
      * exact (InitRNGBBS_ready x).
      * change (zModulus (set_zModulus (InitRNGBBS x) (p' * q'))) with (p' * q').
        lia.
      * exists x'', out'. split; [exact Hs|exact Hm'].
  - destruct (InitRNGBBSFactors_refused fuel sz0 sz1 x x' r out H Hr)
      as (-> & -> & ->).
    split; [right; reflexivity|]. split; [auto|]. intros Hz. discriminate.
Qed.

Lemma InitRNGBBSFactors_modulus_witness :
  InitRNGBBSFactors (L := sample_library) 30 (Some "19"%string) (Some "4"%string) ctx0
  = Some (0, set_zModulus (InitRNGBBS ctx0) 437, [EvInvalidBlumFactor "4" 23])
  /\ 437 <= zModulus (set_zModulus (InitRNGBBS (L := sample_library) ctx0) 437).
Proof.
  assert (H : InitRNGBBSFactors (L := sample_library) 30 (Some "19"%string)
                (Some "4"%string) ctx0
              = Some (0, set_zModulus (InitRNGBBS ctx0) 437,
                      [EvInvalidBlumFactor "4" 23])) by reflexivity.
  split; [exact H|].
  destruct (InitRNGBBSFactors_modulus sample_library 30 (Some "19"%string)
              (Some "4"%string) ctx0 _ 0 _ H) as (_ & _ & Hz).
  destruct (Hz eq_refl) as (Hm & _). exact Hm.
Defined.

(** ** A roll of the Blum-Blum-Shub generator *)

Section BBSAdvance.

Context {L : Library}.

Abbreviation ctx := (rngcontext randctx sfmt_t).

Lemma squared_range (m z : Z) : m <> 0 -> 0 <= squared m z < Z.abs m.
Proof. intros Hm. unfold squared. apply Z.mod_pos_bound. lia. Qed.

Lemma BBSGetBit_squares (x x' : ctx) (b : Z) :
  BBSGetBit x = Some (b, x') ->
  zModulus x <> 0
  /\ x' = set_zSeed x (squared (zModulus x) (zSeed x))
  /\ b = squared (zModulus x) (zSeed x) mod 2.
Proof.
  unfold BBSGetBit. intros H.
  assert (Em : zModulus x <> 0).
  { intros Hm. rewrite Hm in H. discriminate. }
  rewrite (mpz_powm_ui_squared (zSeed x) (zModulus x) Em) in H.
  cbn [bind] in H. inversion H; subst b x'. clear H.
  split; [exact Em|]. split; [reflexivity|].
  pose proof (squared_range (zModulus x) (zSeed x) Em) as Hr.
  set (s := squared (zModulus x) (zSeed x)) in *.
  unfold mpz_get_ui, u64. rewrite Z.abs_eq by lia.
  assert (Hl : Z.land (s mod 2 ^ 64) 1 = (s mod 2 ^ 64) mod 2)
    by exact (Z.land_ones (s mod 2 ^ 64) 1 ltac:(lia)).
  rewrite Hl. apply Z.mod_mod_divide. exists (2 ^ 63). reflexivity.
Qed.

Lemma BBSGetBit_next (x x' : ctx) (b : Z) (k : nat) :
  BBSGetBit x = Some (b, x') ->
  set_zSeed x' (Nat.iter k (squared (zModulus x')) (zSeed x'))
  = set_zSeed x (Nat.iter (S k) (squared (zModulus x)) (zSeed x)).
Proof.
  intros H. apply BBSGetBit_squares in H. destruct H as (_ & -> & _).
  rewrite Nat.iter_succ_r. reflexivity.
Qed.

Lemma BBSGetTrit_loop_squares (fuel : nat) :
  forall (s : Z) (x x' : ctx) (t : Z),
    BBSGetTrit_loop BBSGetBit fuel s x = Some (t, x') ->
    exists k : nat,
      (1 <= k)%nat /\ (s = 0 -> (2 <= k)%nat)
      /\ x' = set_zSeed x (Nat.iter k (squared (zModulus x)) (zSeed x)).
Proof.
  induction fuel as [|fuel IH]; intros s x x' t H; [discriminate|].
  assert (Hstep : forall (s' : Z) (x1 : ctx) (b : Z),
            BBSGetBit x = Some (b, x1) ->
            BBSGetTrit_loop BBSGetBit fuel s' x1 = Some (t, x') ->
            exists k : nat,
              (2 <= k)%nat
              /\ x' = set_zSeed x (Nat.iter k (squared (zModulus x)) (zSeed x))).
  { intros s' x1 b Hb Hl. apply IH in Hl. destruct Hl as (k & Hk & _ & ->).
    exists (S k). split; [lia|]. exact (BBSGetBit_next x x1 b k Hb). }
  assert (Hone : forall (x1 : ctx) (b : Z),
            BBSGetBit x = Some (b, x1) ->
            x1 = set_zSeed x (Nat.iter 1 (squared (zModulus x)) (zSeed x))).
  { intros x1 b Hb. apply BBSGetBit_squares in Hb. destruct Hb as (_ & -> & _).
    reflexivity. }
  assert (Hweak : forall k : nat,
            (2 <= k)%nat
            /\ x' = set_zSeed x (Nat.iter k (squared (zModulus x)) (zSeed x)) ->
            (1 <= k)%nat /\ (s = 0 -> (2 <= k)%nat)
            /\ x' = set_zSeed x (Nat.iter k (squared (zModulus x)) (zSeed x))).
  { intros k (Hk & Hx). split; [lia|]. split; [intros _; exact Hk|exact Hx]. }
  cbn [BBSGetTrit_loop] in H.
  destruct s as [|p|p].
  - destruct (BBSGetBit x) as [[b x1]|] eqn:Eb; [|discriminate].
    cbn [bind] in H. destruct (Hstep _ x1 b eq_refl H) as (k & Hk).
    exists k. apply Hweak. exact Hk.
  - destruct p as [p|p|];
      [destruct p as [p|p|]|destruct p as [p|[p|p|]|]|].
    all: try (apply IH in H; destruct H as (k & Hk & _ & Hx);
              exists k; split; [exact Hk|]; split; [discriminate|exact Hx]).
    all: destruct (BBSGetBit x) as [[b x1]|] eqn:Eb; [|discriminate];
         cbn [bind] in H; destruct (negb (b =? 0)).
    all: try (destruct (Hstep _ x1 b eq_refl H) as (k & Hk);
              exists k; apply Hweak; exact Hk).
    all: inversion H; subst t x'; exists 1%nat;
         (split; [lia|]); (split; [discriminate|]); exact (Hone x1 b eq_refl).
  - apply IH in H. destruct H as (k & Hk & _ & Hx).
    exists k. split; [exact Hk|]. split; [discriminate|exact Hx].
Qed.

Lemma BBS_die_squares (fuel : nat) (x x' : ctx) (f : Z) :
  BBS_die_from BBSGetBit fuel x = Some (f, x') ->
  exists k : nat,
    (3 <= k)%nat
    /\ x' = set_zSeed x (Nat.iter k (squared (zModulus x)) (zSeed x)).
Proof.
  unfold BBS_die_from, BBSGetTrit_from. intros H.
  destruct (BBSGetTrit_loop BBSGetBit fuel 0 x) as [[t x1]|] eqn:Et; [|discriminate].
  cbn [bind] in H.
  destruct (BBSGetBit x1) as [[b x2]|] eqn:Eb; [|discriminate].
  cbn [bind] in H. inversion H; subst f x'. clear H.
  apply BBSGetTrit_loop_squares in Et. destruct Et as (k & _ & Hk & ->).
  specialize (Hk eq_refl).
  apply BBSGetBit_squares in Eb. destruct Eb as (_ & -> & _).
  exists (S k). split; [lia|]. reflexivity.
Qed.

Lemma iter_squared_range (m z : Z) (k : nat) :
  m <> 0 -> (1 <= k)%nat -> 0 <= Nat.iter k (squared m) z < Z.abs m.
Proof.
  intros Hm Hk. destruct k as [|k]; [lia|]. cbn [Nat.iter nat_rect].
  apply squared_range. exact Hm.
Qed.

End BBSAdvance.

(** X3.  A BBS roll that passes the entry check and returns has squared
    the seed at least six times modulo the modulus (two trit bits and one
    more bit for each die): the seed it leaves is that iterate, lies
    between 0 and the modulus, the counter went up by two, and no other
    field of the context has changed.  Such a roll needs a modulus other
    than zero; with modulus zero it does not return. *)
Theorem RollDice_BBS_advances :
  forall (L : Library) (fuel : nat) (x x1 : rngcontext randctx sfmt_t)
         (w w1 : world) (d0 d1 : Z) (out1 : list event),
    BBSCheck x = 0 ->
    roll_switch fuel RNG_BBS x w = Some (d0, d1, x1, w1, out1) ->
    zModulus x <> 0
    /\ exists k : nat,
        (6 <= k)%nat
        /\ x1 = count2 (set_zSeed x (Nat.iter k (squared (zModulus x)) (zSeed x)))
        /\ 0 <= zSeed x1 < Z.abs (zModulus x).
Proof.
  intros L fuel x x1 w w1 d0 d1 out1 Hc H.
  rewrite (roll_switch_BBS_sound fuel x w Hc) in H.
  destruct (BBS_die_from BBSGetBit fuel x) as [[e0 y1]|] eqn:E0; [|discriminate].
  cbn [bind] in H.
  destruct (BBS_die_from BBSGetBit fuel y1) as [[e1 y2]|] eqn:E1; [|discriminate].
  cbn [bind] in H. inversion H; subst d0 d1 x1 w1 out1. clear H.
  assert (Hm : zModulus x <> 0).
  { unfold BBS_die_from, BBSGetTrit_from in E0. destruct fuel as [|fuel];
      [discriminate|]. cbn [BBSGetTrit_loop] in E0.
    destruct (BBSGetBit x) as [[b x']|] eqn:Eb; [|discriminate].
    apply BBSGetBit_squares in Eb. tauto. }
  split; [exact Hm|].
  apply BBS_die_squares in E0. destruct E0 as (k0 & Hk0 & ->).
  apply BBS_die_squares in E1. destruct E1 as (k1 & Hk1 & ->).
  exists (k1 + k0)%nat. split; [lia|].
  change (zModulus (set_zSeed x (Nat.iter k0 (squared (zModulus x)) (zSeed x))))
    with (zModulus x).
  change (zSeed (set_zSeed x (Nat.iter k0 (squared (zModulus x)) (zSeed x))))
    with (Nat.iter k0 (squared (zModulus x)) (zSeed x)).
  rewrite set_zSeed_twice. rewrite <- Nat.iter_add.
  split; [reflexivity|].
  change (zSeed (count2 (set_zSeed x
            (Nat.iter (k1 + k0) (squared (zModulus x)) (zSeed x)))))
    with (Nat.iter (k1 + k0) (squared (zModulus x)) (zSeed x)).
  apply iter_squared_range; [exact Hm|lia].
Qed.

Lemma RollDice_BBS_advances_witness :
  BBSCheck (L := sample_library) ctx_bbs_seed2 = 0
  /\ roll_switch (L := sample_library) 40 RNG_BBS ctx_bbs_seed2 tt
     = Some (1, 3, ctx_bbs_rolled2, tt, [])
  /\ 0 <= zSeed ctx_bbs_rolled2 < Z.abs (zModulus ctx_bbs_seed2).
Proof.
  split; [reflexivity|]. split; [reflexivity|].
  destruct (RollDice_BBS_advances sample_library 40 ctx_bbs_seed2 ctx_bbs_rolled2
              tt tt 1 3 [] eq_refl eq_refl) as (_ & k & _ & _ & Hr).
  exact Hr.
Defined.

(** ** Bit strings that leave the trit undecided *)

Lemma trit_count_from_sum (n : nat) :
  (trit_count_from 1 n 0 + trit_count_from 1 n 1 + trit_count_from 1 n 2
   = 2 ^ Z.of_nat n - 1)
  /\ (trit_count_from 2 n 0 + trit_count_from 2 n 1 + trit_count_from 2 n 2
      = 2 ^ Z.of_nat n - 1)
  /\ (trit_count_from 3 n 0 + trit_count_from 3 n 1 + trit_count_from 3 n 2
      = 2 ^ Z.of_nat n - 1)
  /\ (trit_count_from 4 n 0 + trit_count_from 4 n 1 + trit_count_from 4 n 2
      = 2 ^ Z.of_nat n - 1).
Proof.
  induction n as [|n (I1 & I2 & I3 & I4)].
  - repeat split; reflexivity.
  - rewrite !trit_count_1, !trit_count_2, !trit_count_3, !trit_count_4.
    cbn [Z.eqb Pos.eqb].
    rewrite Nat2Z.inj_succ, Z.pow_succ_r by lia.
    repeat split; lia.
Qed.

(** X4.  Of the [2^n] strings of [n >= 1] bits, exactly two leave
    [BBSGetTrit] without a trit: on every other string it returns one
    of 0, 1 and 2 before the bits run out.  A trit is never returned
    on fewer than two bits. *)
Theorem BBSGetTrit_undecided :
  forall n : nat,
    trit_count (S n) 0 + trit_count (S n) 1 + trit_count (S n) 2
    = 2 ^ Z.of_nat (S n) - 2
    /\ (forall (bs : list bool) (fuel : nat),
           (List.length bs < 2)%nat -> BBSGetTrit_from toss fuel bs = None).
Proof.
  intros n. split.
  - unfold trit_count.
    change (trit_count_from 0 (S n) 0 + trit_count_from 0 (S n) 1
            + trit_count_from 0 (S n) 2 = 2 ^ Z.of_nat (S n) - 2).
    rewrite !trit_count_start.
    destruct (trit_count_from_sum n) as (I1 & I2 & _).
    rewrite Nat2Z.inj_succ, Z.pow_succ_r by lia. lia.
  - intros bs fuel Hl. unfold BBSGetTrit_from.
    destruct fuel as [|fuel]; [reflexivity|].
    destruct bs as [|b0 bs]; [reflexivity|].
    destruct bs as [|b1 bs]; [|cbn [List.length] in Hl; lia].
    cbn [BBSGetTrit_loop toss bind].
    destruct fuel as [|fuel]; [destruct b0; reflexivity|].
    destruct b0; reflexivity.
Qed.

Lemma BBSGetTrit_undecided_witness :
  (List.length [true] < 2)%nat /\ BBSGetTrit_from toss 5 [true] = None.
Proof.
  split; [cbn; lia|].
  destruct (BBSGetTrit_undecided 0) as (_ & H).
  apply H. cbn. lia.
Defined.

(** ** Seeding the Blum-Blum-Shub generator and the check at a roll *)

Transparent recurs.

Lemma squared_one_fixed (m : Z) : squared m (squared m 1) = squared m 1.
Proof.
  unfold squared. change (1 * 1) with 1.
  destruct (Z.eq_dec (Z.abs m) 0) as [H0|H0].
  - rewrite H0. rewrite !Z.mod_0_r. reflexivity.
  - destruct (Z.eq_dec (Z.abs m) 1) as [H1|H1].
    + rewrite H1. rewrite !Z.mod_1_r. reflexivity.
    + assert (E : 1 mod Z.abs m = 1) by (apply Z.mod_small; lia).
      rewrite !E. change (1 * 1) with 1. exact E.
Qed.

Lemma find_seq_first (f : nat -> bool) (n : nat) :
  forall a k : nat,
    find f (seq a n) = Some k ->
    forall j : nat, (a <= j < k)%nat -> f j = false.
Proof.
  induction n as [|n IH]; intros a k H j Hj; [discriminate|].
  cbn [seq find] in H. destruct (f a) eqn:Ea.
  - inversion H; subst. lia.
  - destruct (Nat.eq_dec j a) as [->|Hne]; [exact Ea|].
    apply (IH (S a) k H). lia.
Qed.

Lemma iter_squared_one (m : Z) (k : nat) :
  Nat.iter (S k) (squared m) 1 = squared m 1.
Proof.
  induction k as [|k IH]; [reflexivity|].
  change (Nat.iter (S (S k)) (squared m) 1)
    with (squared m (Nat.iter (S k) (squared m) 1)).
  rewrite IH. apply squared_one_fixed.
Qed.

Lemma recurs_one (m : Z) : recurs m 1 = true.
Proof.
  unfold recurs, reference_point. rewrite (iter_squared_one m 7).
  apply existsb_exists. exists 1%nat. split.
  - apply in_seq. lia.
  - cbn [Nat.iter nat_rect]. rewrite squared_one_fixed. apply Z.eqb_refl.
Qed.

Opaque recurs.

(** X5.  In a context set up for BBS, a seeding that returns leaves the
    generator either with nothing printed, a seed of at least 2 among
    the 32 numbers from the given one, the first of them whose
    reference point does not recur, and a state that [BBSCheck]
    accepts; or with the message printed, the seed 0 and a state that
    [BBSCheck] refuses.  The counter is 0 either way. *)
Theorem InitRNGSeed_BBS_checked :
  forall (L : Library) (n0 : Z) (x x' : rngcontext randctx sfmt_t)
         (out : list event),
    fZInit x = true -> zZero x = 0 -> zOne x = 1 ->
    InitRNGSeed n0 RNG_BBS x = Some (x', out) ->
    c x' = 0 /\ zModulus x' = zModulus x
    /\ ((out = [] /\ BBSCheck x' = 0 /\ 2 <= zSeed x'
         /\ u32 n0 <= zSeed x' < u32 n0 + 32
         /\ recurs (zModulus x) (zSeed x') = false
         /\ forall s : Z, u32 n0 <= s < zSeed x' -> recurs (zModulus x) s = true)
        \/ (out = [EvBBSInvalidSeed] /\ zSeed x' = 0 /\ BBSCheck x' = -1)).
Proof.
  intros L n0 x x' out Hi Hz Ho H.
  unfold InitRNGSeed in H.
  change (fZInit (set_c (set_n x (u32 n0)) 0)) with (fZInit x) in H.
  rewrite Hi in H.
  set (x0 := set_zSeed (set_c (set_n x (u32 n0)) 0) (u32 n0)) in H.
  assert (Hu : 0 <= u32 n0) by (unfold u32; apply Z.mod_pos_bound; lia).
  assert (Hfail : BBSCheck (set_zSeed x0 0) = -1).
  { apply BBSCheck_fails. left. cbn. symmetry. exact Hz. }
  destruct (Z.eq_dec (u32 n0) 0) as [Hn|Hn].
  - rewrite (BBSCheckInitialSeed_nonpositive x0 Hz) in H
      by (change (zSeed x0) with (u32 n0); lia).
    cbn [bind] in H. inversion H; subst x' out.
    split; [reflexivity|]. split; [reflexivity|]. right.
    split; [reflexivity|]. split; [reflexivity|exact Hfail].
  - destruct (Z.eq_dec (zModulus x) 0) as [Hm|Hm].
    { rewrite (BBSCheckInitialSeed_crash x0) in H;
        [discriminate|change (zSeed x0) with (u32 n0); lia|exact Hm]. }
    rewrite (BBSCheckInitialSeed_refines x0 Hz Hm) in H.
    unfold seed_check_described, first_sound_attempt in H.
    change (zSeed x0) with (u32 n0) in H.
    change (zModulus x0) with (zModulus x) in H.
    destruct (u32 n0 <=? 0) eqn:El; [apply Z.leb_le in El; lia|].
    destruct (find (fun k => negb (recurs (zModulus x) (u32 n0 + Z.of_nat k)))
                   (seq 0 32)) as [k|] eqn:Ef.
    + cbn [bind] in H. inversion H; subst x' out.
      split; [reflexivity|]. split; [reflexivity|]. left.
      pose proof (find_some _ _ Ef) as (Hin & Hk).
      apply in_seq in Hin. apply negb_true_iff in Hk.
      change (zSeed (set_zSeed x0 (u32 n0 + Z.of_nat k))) with (u32 n0 + Z.of_nat k).
      assert (Hne : u32 n0 + Z.of_nat k <> 1).
      { intros E. rewrite E, recurs_one in Hk. discriminate. }
      split; [reflexivity|]. split.
      { apply BBSCheck_passes; cbn; lia. }
      split; [lia|]. split; [lia|]. split; [exact Hk|].
      intros s Hs.
      assert (Hj : exists j : nat, s = u32 n0 + Z.of_nat j /\ (j < k)%nat).
      { exists (Z.to_nat (s - u32 n0)). split; lia. }
      destruct Hj as (j & -> & Hj).
      pose proof (find_seq_first _ 32 0 k Ef j ltac:(lia)) as Hf.
      apply negb_false_iff in Hf. exact Hf.
    + cbn [bind] in H. inversion H; subst x' out.
      split; [reflexivity|]. split; [reflexivity|]. right.
      split; [reflexivity|]. split; [reflexivity|exact Hfail].
Qed.

Lemma InitRNGSeed_BBS_checked_witness :
  InitRNGSeed (L := sample_library) 1 RNG_BBS ctx_bbs_seed1
  = Some (set_n (L := sample_library) ctx_bbs_seed2 1, [])
  /\ BBSCheck (L := sample_library) (set_n (L := sample_library) ctx_bbs_seed2 1) = 0
  /\ 2 <= zSeed (set_n (L := sample_library) ctx_bbs_seed2 1).
Proof.
  assert (H : InitRNGSeed (L := sample_library) 1 RNG_BBS ctx_bbs_seed1
              = Some (set_n (L := sample_library) ctx_bbs_seed2 1, []))
    by reflexivity.
  split; [exact H|].
  destruct (InitRNGSeed_BBS_checked sample_library 1 ctx_bbs_seed1 _ _
              eq_refl eq_refl eq_refl H)
    as (_ & _ & [(_ & Hc & H2 & _)|(Hout & _)]).
  - split; [exact Hc|exact H2].
  - discriminate Hout.
Defined.

(** ** The dice file: the next face, and files without one *)

Section DiceFileFaces.

Context {L : Library}.

Abbreviation ctx := (rngcontext randctx sfmt_t).

Lemma is_face_range (b : byte) :
  is_face b = true -> 1 <= face_of b <= 6 /\ u32 (face_of b) = face_of b.
Proof.
  unfold is_face, face_of. intros H. apply andb_true_iff in H.
  destruct H as [H1 H2]. apply Z.leb_le in H1. apply Z.leb_le in H2.
  split; [lia|]. unfold u32. apply Z.mod_small. lia.
Qed.

Lemma face_at_byte (bytes : list byte) (i : nat) :
  face_at bytes i = true ->
  exists b : byte, nth_error bytes i = Some b /\ is_face b = true.
Proof.
  unfold face_at. destruct (nth_error bytes i) as [b|]; [|discriminate].
  intros H. exists b. auto.
Qed.

Lemma uglyloop_skips (name : option string) (bytes : list byte) (d : nat) :
  forall (pos : nat) (b : byte) (fuel : nat),
    nth_error bytes (pos + d) = Some b -> is_face b = true ->
    (forall j : nat, (pos <= j < pos + d)%nat -> face_at bytes j = false) ->
    (d < fuel)%nat ->
    uglyloop fuel name (reading bytes pos)
    = Some (face_of b, reading bytes (S (pos + d)), []).
Proof.
  induction d as [|d IH]; intros pos b fuel Hb Hf Hskip Hfuel;
    (destruct fuel as [|fuel]; [lia|]).
  - rewrite Nat.add_0_r in *.
    rewrite (uglyloop_byte fuel name (reading bytes pos) b eq_refl eq_refl Hb).
    unfold is_face in Hf. rewrite Hf. reflexivity.
  - assert (Hlt : (pos < List.length bytes)%nat).
    { assert (Hi : (pos + S d < List.length bytes)%nat)
        by (apply nth_error_Some; congruence).
      lia. }
    destruct (nth_error bytes pos) as [c0|] eqn:Ec;
      [|apply nth_error_None in Ec; lia].
    rewrite (uglyloop_byte fuel name (reading bytes pos) c0 eq_refl eq_refl Ec).
    pose proof (Hskip pos ltac:(lia)) as Hc. unfold face_at in Hc.
    rewrite Ec in Hc. unfold is_face in Hc. rewrite Hc.
    change (advanced (reading bytes pos)) with (reading bytes (S pos)).
    replace (pos + S d)%nat with (S pos + d)%nat in * by lia.
    apply IH; [exact Hb|exact Hf| |lia].
    intros j Hj. apply Hskip. lia.
Qed.

Lemma uglyloop_rewinds (name : option string) (bytes : list byte) (d : nat) :
  forall (pos fuel : nat),
    d = (List.length bytes - pos)%nat ->
    (forall j : nat, (pos <= j)%nat -> face_at bytes j = false) ->
    (d < fuel)%nat ->
    uglyloop fuel name (reading bytes pos)
    = ('(r, f2, out) <- uglyloop (fuel - d - 1) name (reading bytes 0) ;;
       Some (r, f2, EvRewinding name :: out)).
Proof.
  induction d as [|d IH]; intros pos fuel Hd Hskip Hfuel;
    (destruct fuel as [|fuel]; [lia|]).
  - assert (Hn : nth_error bytes pos = None) by (apply nth_error_None; lia).
    rewrite (uglyloop_end fuel name (reading bytes pos) eq_refl eq_refl Hn).
    replace (S fuel - 0 - 1)%nat with fuel by lia. reflexivity.
  - destruct (nth_error bytes pos) as [c0|] eqn:Ec;
      [|apply nth_error_None in Ec; lia].
    rewrite (uglyloop_byte fuel name (reading bytes pos) c0 eq_refl eq_refl Ec).
    pose proof (Hskip pos ltac:(lia)) as Hc. unfold face_at in Hc.
    rewrite Ec in Hc. unfold is_face in Hc. rewrite Hc.
    change (advanced (reading bytes pos)) with (reading bytes (S pos)).
    rewrite (IH (S pos) fuel); [|lia| |lia].
    + replace (S fuel - S d - 1)%nat with (fuel - d - 1)%nat by lia. reflexivity.
    + intros j Hj. apply Hskip. lia.
Qed.

Lemma find_face_sound (bytes : list byte) (pos i : nat) :
  find_face bytes pos = Some i ->
  exists (b : byte) (d : nat),
    i = (pos + d)%nat /\ nth_error bytes i = Some b /\ is_face b = true
    /\ forall j : nat, (pos <= j < i)%nat -> face_at bytes j = false.
Proof.
  unfold find_face. intros H.
  pose proof (find_some _ _ H) as (Hin & Hf). apply in_seq in Hin.
  destruct (face_at_byte bytes i Hf) as (b & Hb & Hfb).
  exists b, (i - pos)%nat. split; [lia|]. split; [exact Hb|]. split; [exact Hfb|].
  intros j Hj. exact (find_seq_first _ _ _ _ H j Hj).
Qed.

Lemma find_face_none (bytes : list byte) (pos : nat) :
  find_face bytes pos = None ->
  forall j : nat, (pos <= j)%nat -> face_at bytes j = false.
Proof.
  unfold find_face. intros H j Hj.
  destruct (Nat.lt_ge_cases j (List.length bytes)) as [Hlt|Hge].
  - apply (find_none _ _ H). apply in_seq. lia.
  - unfold face_at. apply nth_error_None in Hge. rewrite Hge. reflexivity.
Qed.

Lemma uglyloop_next_face (name : option string) (bytes : list byte)
  (pos i fuel : nat) (rew : bool) :
  next_face bytes pos = Some (i, rew) ->
  (2 * List.length bytes + 1 <= fuel)%nat ->
  exists b : byte,
    nth_error bytes i = Some b /\ is_face b = true
    /\ uglyloop fuel name (reading bytes pos)
       = Some (face_of b, reading bytes (S i),
               if rew then [EvRewinding name] else []).
Proof.
  unfold next_face. intros H Hfuel.
  destruct (find_face bytes pos) as [i1|] eqn:E1.
  - inversion H; subst i1 rew.
    destruct (find_face_sound bytes pos i E1) as (b & d & -> & Hb & Hf & Hskip).
    exists b. split; [exact Hb|]. split; [exact Hf|].
    assert (Hi : (pos + d < List.length bytes)%nat)
      by (apply nth_error_Some; congruence).
    apply uglyloop_skips; [exact Hb|exact Hf|exact Hskip|lia].
  - destruct (find_face bytes 0) as [i0|] eqn:E0; [|discriminate].
    inversion H; subst i0 rew.
    destruct (find_face_sound bytes 0 i E0) as (b & d & Hd & Hb & Hf & Hskip).
    exists b. split; [exact Hb|]. split; [exact Hf|].
    assert (Hi : (i < List.length bytes)%nat)
      by (apply nth_error_Some; congruence).
    rewrite (uglyloop_rewinds name bytes (List.length bytes - pos) pos fuel eq_refl
               (find_face_none bytes pos E1) ltac:(lia)).
    cbn [Nat.add] in Hd. subst d.
    rewrite (uglyloop_skips name bytes i 0 b
               (fuel - (List.length bytes - pos) - 1) Hb Hf Hskip ltac:(lia)).
    reflexivity.
Qed.

Lemma uglyloop_no_face (name : option string) (fuel : nat) :
  forall f : FILE,
    f_fail f = false ->
    (forall j : nat, face_at (f_bytes f) j = false) ->
    uglyloop fuel name f = None.
Proof.
  induction fuel as [|fuel IH]; intros f Hfail Hno; [reflexivity|].
  cbn [uglyloop]. unfold fread1. rewrite Hfail.
  destruct (nth_error (f_bytes f) (f_pos f)) as [b|] eqn:Eb.
  - unfold feof. cbn [f_eof].
    destruct (f_eof f).
    + rewrite IH; [reflexivity|reflexivity|exact Hno].
    + cbn [negb Z.eqb Pos.eqb]. cbv iota.
      pose proof (Hno (f_pos f)) as Hb. unfold face_at in Hb. rewrite Eb in Hb.
      unfold is_face in Hb. rewrite Z.geb_leb, Hb.
      apply IH; [reflexivity|exact Hno].
  - unfold feof. cbn [f_eof]. rewrite IH; [reflexivity|reflexivity|exact Hno].
Qed.

End DiceFileFaces.

Section DiceFileRolls.

Context {L : Library}.

Abbreviation ctx := (rngcontext randctx sfmt_t).

Lemma next_face_sound (bytes : list byte) (pos i : nat) (rew : bool) :
  next_face bytes pos = Some (i, rew) ->
  face_at bytes i = true
  /\ (i < List.length bytes)%nat
  /\ (if rew
      then (forall j : nat, (pos <= j)%nat -> face_at bytes j = false)
           /\ (forall j : nat, (j < i)%nat -> face_at bytes j = false)
      else (pos <= i)%nat
           /\ forall j : nat, (pos <= j < i)%nat -> face_at bytes j = false).
Proof.
  unfold next_face. intros H.
  destruct (find_face bytes pos) as [i1|] eqn:E1.
  - inversion H; subst i1 rew.
    destruct (find_face_sound bytes pos i E1) as (b & d & Hd & Hb & Hf & Hskip).
    split; [unfold face_at; rewrite Hb; exact Hf|].
    split; [apply nth_error_Some; congruence|].
    split; [lia|exact Hskip].
  - destruct (find_face bytes 0) as [i0|] eqn:E0; [|discriminate].
    inversion H; subst i0 rew.
    destruct (find_face_sound bytes 0 i E0) as (b & d & Hd & Hb & Hf & Hskip).
    split; [unfold face_at; rewrite Hb; exact Hf|].
    split; [apply nth_error_Some; congruence|].
    split; [exact (find_face_none bytes pos E1)|].
    intros j Hj. apply Hskip. lia.
Qed.

Lemma next_face_exists (bytes : list byte) (i pos : nat) :
  face_at bytes i = true ->
  exists (i' : nat) (rew : bool), next_face bytes pos = Some (i', rew).
Proof.
  intros Hf. unfold next_face.
  destruct (find_face bytes pos) as [i1|]; [eexists; eexists; reflexivity|].
  destruct (find_face bytes 0) as [i0|] eqn:E0; [eexists; eexists; reflexivity|].
  rewrite (find_face_none bytes 0 E0 i ltac:(lia)) in Hf. discriminate.
Qed.

Lemma no_face_anywhere (bytes : list byte) :
  forallb (fun b => negb (is_face b)) bytes = true ->
  forall j : nat, face_at bytes j = false.
Proof.
  intros H j. unfold face_at.
  destruct (nth_error bytes j) as [b|] eqn:Eb; [|reflexivity].
  apply nth_error_In in Eb.
  pose proof (proj1 (forallb_forall _ _) H b Eb) as Hb.
  apply negb_true_iff in Hb. exact Hb.
Qed.

Lemma ReadDiceFile_reading (fuel : nat) (x : ctx) (bytes : list byte)
  (pos i : nat) (rew : bool) :
  fDice x = Some (reading bytes pos) ->
  next_face bytes pos = Some (i, rew) ->
  (2 * List.length bytes + 1 <= fuel)%nat ->
  exists b : byte,
    nth_error bytes i = Some b /\ is_face b = true
    /\ ReadDiceFile fuel x
       = Some (face_of b, set_fDice x (Some (reading bytes (S i))),
               if rew then [EvRewinding (szDiceFilename x)] else []).
Proof.
  intros Hx Hn Hfuel.
  destruct (uglyloop_next_face (szDiceFilename x) bytes pos i fuel rew Hn Hfuel)
    as (b & Hb & Hf & Hu).
  exists b. split; [exact Hb|]. split; [exact Hf|].
  unfold ReadDiceFile. rewrite Hx, Hu. reflexivity.
Qed.

Lemma RollDice_FILE_reading (fuel : nat) (x : ctx) (w : world)
  (bytes : list byte) (pos i0 : nat) (rew0 : bool) :
  fDice x = Some (reading bytes pos) ->
  next_face bytes pos = Some (i0, rew0) ->
  (2 * List.length bytes + 1 <= fuel)%nat ->
  exists (i1 : nat) (rew1 : bool) (b0 b1 : byte),
    next_face bytes (S i0) = Some (i1, rew1)
    /\ nth_error bytes i0 = Some b0 /\ nth_error bytes i1 = Some b1
    /\ in_range (face_of b0, face_of b1)
    /\ RollDice (S fuel) RNG_FILE x w
       = Some (mkrolled 0 (face_of b0, face_of b1) RNG_FILE
                 (count2 (set_fDice x (Some (reading bytes (S i1))))) w
                 ((if rew0 then [EvRewinding (szDiceFilename x)] else [])
                  ++ (if rew1 then [EvRewinding (szDiceFilename x)] else []))).
Proof.
  intros Hx Hn Hfuel.
  destruct (next_face_sound bytes pos i0 rew0 Hn) as (Hf0 & _).
  destruct (next_face_exists bytes i0 (S i0) Hf0) as (i1 & rew1 & Hn1).
  destruct (ReadDiceFile_reading fuel x bytes pos i0 rew0 Hx Hn Hfuel)
    as (b0 & Hb0 & Hfb0 & Hr0).
  destruct (ReadDiceFile_reading fuel (set_fDice x (Some (reading bytes (S i0))))
              bytes (S i0) i1 rew1 eq_refl Hn1 Hfuel)
    as (b1 & Hb1 & Hfb1 & Hr1).
  exists i1, rew1, b0, b1.
  split; [exact Hn1|]. split; [exact Hb0|]. split; [exact Hb1|].
  assert (Hin : in_range (face_of b0, face_of b1)).
  { split; cbn [fst snd]; [exact (proj1 (is_face_range b0 Hfb0))
                          |exact (proj1 (is_face_range b1 Hfb1))]. }
  split; [exact Hin|].
  apply (RollDice_direct fuel RNG_FILE x _ w w (face_of b0, face_of b1));
    [discriminate| |exact Hin].
  cbn [roll_switch fst snd]. rewrite Hr0. cbn [bind]. rewrite Hr1. reflexivity.
Qed.

End DiceFileRolls.

(** X6.  On a dice file that reads without failure, [ReadDiceFile] with
    fuel for two passes over the file returns the first of the bytes
    '1' to '6' at or after the read position as a face from 1 to 6, and
    leaves the position just behind it; every other byte before it is
    skipped.  When there is none up to the end of the file, the file is
    rewound once, which is printed, and the first face of the file is
    returned.  Nothing but the stream changes in the context. *)
Theorem ReadDiceFile_next_face :
  forall (L : Library) (fuel : nat) (x : rngcontext randctx sfmt_t)
         (bytes : list byte) (pos i : nat) (rew : bool),
    fDice x = Some (reading bytes pos) ->
    next_face bytes pos = Some (i, rew) ->
    (2 * List.length bytes + 1 <= fuel)%nat ->
    exists b : byte,
      nth_error bytes i = Some b /\ 1 <= face_of b <= 6
      /\ ReadDiceFile fuel x
         = Some (face_of b, set_fDice x (Some (reading bytes (S i))),
                 if rew then [EvRewinding (szDiceFilename x)] else [])
      /\ (if rew
          then (forall j : nat, (pos <= j)%nat -> face_at bytes j = false)
               /\ (forall j : nat, (j < i)%nat -> face_at bytes j = false)
          else (pos <= i)%nat
               /\ forall j : nat, (pos <= j < i)%nat -> face_at bytes j = false).
Proof.
  intros L fuel x bytes pos i rew Hx Hn Hfuel.
  destruct (ReadDiceFile_reading fuel x bytes pos i rew Hx Hn Hfuel)
    as (b & Hb & Hf & Hr).
  exists b. split; [exact Hb|]. split; [exact (proj1 (is_face_range b Hf))|].
  split; [exact Hr|]. exact (proj2 (proj2 (next_face_sound bytes pos i rew Hn))).
Qed.

Lemma ReadDiceFile_next_face_witness :
  next_face (f_bytes file_6x21) 1 = Some (3%nat, false)
  /\ exists b : byte,
      nth_error (f_bytes file_6x21) 3 = Some b /\ 1 <= face_of b <= 6
      /\ ReadDiceFile (L := sample_library) 11 ctx_file_6x21
         = Some (face_of b,
                 set_fDice (L := sample_library) ctx_file_6x21
                           (Some (reading (f_bytes file_6x21) 4)), []).
Proof.
  split; [reflexivity|].
  destruct (ReadDiceFile_next_face sample_library 11 ctx_file_6x21
              (f_bytes file_6x21) 1 3 false eq_refl eq_refl ltac:(cbn; lia))
    as (b & Hb & Hr & He & _).
  exists b. split; [exact Hb|]. split; [exact Hr|exact He].
Defined.

(** X7.  On a dice file that reads without failure and holds none of the
    bytes '1' to '6' (an empty file is one), [ReadDiceFile] does not
    return whatever the fuel: it rewinds for ever.  So neither does
    [RollDice] for the file kind; it does not fall back. *)
Theorem RollDice_FILE_without_face :
  forall (L : Library) (fuel : nat) (x : rngcontext randctx sfmt_t) (w : world)
         (f : FILE),
    fDice x = Some f -> f_fail f = false ->
    forallb (fun b => negb (is_face b)) (f_bytes f) = true ->
    ReadDiceFile fuel x = None /\ RollDice fuel RNG_FILE x w = None.
Proof.
  intros L fuel x w f Hx Hfail Hno.
  assert (Hr : forall fu : nat, ReadDiceFile fu x = None).
  { intros fu. unfold ReadDiceFile. rewrite Hx.
    rewrite (uglyloop_no_face (szDiceFilename x) fu f Hfail
               (no_face_anywhere (f_bytes f) Hno)).
    reflexivity. }
  split; [apply Hr|].
  destruct fuel as [|fuel]; [reflexivity|].
  rewrite RollDice_unfold by discriminate.
  cbn [roll_switch]. rewrite Hr. reflexivity.
Qed.

Lemma RollDice_FILE_without_face_witness :
  ReadDiceFile (L := sample_library) 1000 ctx_file_no_face = None
  /\ RollDice (L := sample_library) 1000 RNG_FILE ctx_file_no_face tt = None.
Proof.
  exact (RollDice_FILE_without_face sample_library 1000 ctx_file_no_face tt
           file_no_face eq_refl eq_refl eq_refl).
Defined.

(** X8.  On a dice file that reads without failure and holds a face,
    [RollDice] for the file kind, with fuel for two passes over the
    file, returns the next two faces of the file as the dice, keeps the
    file kind, does not fall back, counts two dice and leaves the
    position behind the second face. *)
Theorem RollDice_FILE_next_faces :
  forall (L : Library) (fuel : nat) (x : rngcontext randctx sfmt_t) (w : world)
         (bytes : list byte) (pos i0 : nat) (rew0 : bool),
    fDice x = Some (reading bytes pos) ->
    next_face bytes pos = Some (i0, rew0) ->
    (2 * List.length bytes + 1 <= fuel)%nat ->
    exists (i1 : nat) (rew1 : bool) (b0 b1 : byte),
      next_face bytes (S i0) = Some (i1, rew1)
      /\ nth_error bytes i0 = Some b0 /\ nth_error bytes i1 = Some b1
      /\ in_range (face_of b0, face_of b1)
      /\ RollDice (S fuel) RNG_FILE x w
         = Some (mkrolled 0 (face_of b0, face_of b1) RNG_FILE
                   (count2 (set_fDice x (Some (reading bytes (S i1))))) w
                   ((if rew0 then [EvRewinding (szDiceFilename x)] else [])
                    ++ (if rew1 then [EvRewinding (szDiceFilename x)] else []))).
Proof.
  intros L fuel x w bytes pos i0 rew0 Hx Hn Hfuel.
  exact (RollDice_FILE_reading fuel x w bytes pos i0 rew0 Hx Hn Hfuel).
Qed.

Lemma RollDice_FILE_next_faces_witness :
  next_face (f_bytes file_6x21) 1 = Some (3%nat, false)
  /\ exists (i1 : nat) (rew1 : bool) (b0 b1 : byte),
      next_face (f_bytes file_6x21) 4 = Some (i1, rew1)
      /\ nth_error (f_bytes file_6x21) 3 = Some b0
      /\ nth_error (f_bytes file_6x21) i1 = Some b1
      /\ in_range (face_of b0, face_of b1).
Proof.
  split; [reflexivity|].
  destruct (RollDice_FILE_next_faces sample_library 11 ctx_file_6x21 tt
              (f_bytes file_6x21) 1 3 false eq_refl eq_refl ltac:(cbn; lia))
    as (i1 & rew1 & b0 & b1 & Hn1 & Hb0 & Hb1 & Hin & _).
  exists i1, rew1, b0, b1. auto.
Defined.

(** ** Rolls that cannot read the dice file, and rolls from random.org *)

Section UnreadableFile.

Context {L : Library}.

Abbreviation ctx := (rngcontext randctx sfmt_t).

Lemma set_fDice_same (x : ctx) (f : FILE) :
  fDice x = Some f -> set_fDice x (Some f) = x.
Proof. destruct x. cbn. intros ->. reflexivity. Qed.

Lemma ReadDiceFile_unreadable (fuel : nat) (x : ctx) :
  fDice x = None
  \/ (exists f : FILE, fDice x = Some f /\ f_eof f = false /\ f_fail f = true) ->
  ReadDiceFile (S fuel) x
  = Some (UINT_MINUS_ONE, x,
          match fDice x with
          | None => []
          | Some _ => [EvDiceFileError (szDiceFilename x)]
          end).
Proof.
  intros [Hn|(f & Hf & He & Hfail)]; unfold ReadDiceFile.
  - rewrite Hn. reflexivity.
  - rewrite Hf. rewrite (uglyloop_error fuel (szDiceFilename x) f He Hfail).
    cbn [bind]. rewrite (set_fDice_same x f Hf). reflexivity.
Qed.

Lemma roll_switch_FILE_unreadable (fuel : nat) (x : ctx) (w : world) :
  fDice x = None
  \/ (exists f : FILE, fDice x = Some f /\ f_eof f = false /\ f_fail f = true) ->
  roll_switch (S fuel) RNG_FILE x w
  = Some (UINT_MINUS_ONE, UINT_MINUS_ONE, count2 x, w, unreadable_printed x).
Proof.
  intros H. cbn [roll_switch]. rewrite (ReadDiceFile_unreadable fuel x H).
  cbn [bind]. rewrite (ReadDiceFile_unreadable fuel x H). cbn [bind].
  unfold unreadable_printed. destruct (fDice x); reflexivity.
Qed.

Lemma RollDice_MERSENNE_shape (fuel : nat) (x : ctx) (w : world) (r : rolled) :
  RollDice fuel RNG_MERSENNE x w = Some r ->
  r = mkrolled 0 (anDice r) RNG_MERSENNE (rctx r) w [] /\ in_range (anDice r).
Proof.
  intros H. destruct (RollDice_MERSENNE_inv fuel x w r H)
    as (_ & Hin & Hk & Hp & Hr & Hw).
  split; [|exact Hin]. destruct r as [r0 d k0 x0 w0 p0]. cbn in *. subst.
  reflexivity.
Qed.

End UnreadableFile.

(** X9.  With the file kind and no open dice file, or one whose reads
    fail, both reads of a roll give the failure value [(unsigned) -1]
    (a failing file prints its error twice), two dice are counted all the
    same, and the roll falls back: it returns exactly when the Mersenne
    Twister roll after the reselection does, with its dice, the kind
    Mersenne and the fallback message printed once. *)
Theorem RollDice_FILE_unreadable :
  forall (L : Library) (fuel : nat) (x : rngcontext randctx sfmt_t) (w : world),
    fDice x = None
    \/ (exists f : FILE, fDice x = Some f /\ f_eof f = false /\ f_fail f = true) ->
    roll_switch (S fuel) RNG_FILE x w
    = Some (UINT_MINUS_ONE, UINT_MINUS_ONE, count2 x, w, unreadable_printed x)
    /\ RollDice (S (S fuel)) RNG_FILE x w
       = (r <- RollDice (S fuel) RNG_MERSENNE
                 (fst (reselect RNG_FILE (count2 x) w RNG_MERSENNE))
                 (snd (reselect RNG_FILE (count2 x) w RNG_MERSENNE)) ;;
          Some (mkrolled 0 (anDice r) RNG_MERSENNE (rctx r)
                  (snd (reselect RNG_FILE (count2 x) w RNG_MERSENNE))
                  (unreadable_printed x ++ [EvNotWorking])))
    /\ (forall r : rolled,
           RollDice (S (S fuel)) RNG_FILE x w = Some r -> in_range (anDice r)).
Proof.
  intros L fuel x w H.
  pose proof (roll_switch_FILE_unreadable fuel x w H) as Hs.
  assert (He : RollDice (S (S fuel)) RNG_FILE x w
       = (r <- RollDice (S fuel) RNG_MERSENNE
                 (fst (reselect RNG_FILE (count2 x) w RNG_MERSENNE))
                 (snd (reselect RNG_FILE (count2 x) w RNG_MERSENNE)) ;;
          Some (mkrolled 0 (anDice r) RNG_MERSENNE (rctx r)
                  (snd (reselect RNG_FILE (count2 x) w RNG_MERSENNE))
                  (unreadable_printed x ++ [EvNotWorking])))).
  { rewrite RollDice_unfold by discriminate. rewrite Hs. cbn [bind].
    change (out_of_range (UINT_MINUS_ONE, UINT_MINUS_ONE)) with true. cbv iota.
    unfold SetRNG.
    destruct (reselect RNG_FILE (count2 x) w RNG_MERSENNE) as [x2 w2] eqn:Er.
    cbn [fst snd].
    destruct (RollDice (S fuel) RNG_MERSENNE x2 w2) as [r'|] eqn:Em; [|reflexivity].
    cbn [bind].
    destruct (RollDice_MERSENNE_shape (S fuel) x2 w2 r' Em) as (Hsh & _).
    rewrite Hsh. reflexivity. }
  split; [exact Hs|]. split; [exact He|].
  intros r Hr. rewrite He in Hr.
  destruct (RollDice (S fuel) RNG_MERSENNE
              (fst (reselect RNG_FILE (count2 x) w RNG_MERSENNE))
              (snd (reselect RNG_FILE (count2 x) w RNG_MERSENNE)))
    as [r'|] eqn:Em; [|discriminate].
  cbn [bind] in Hr. inversion Hr; subst r. cbn [anDice].
  exact (proj2 (RollDice_MERSENNE_shape _ _ _ r' Em)).
Qed.

Lemma RollDice_FILE_unreadable_witness :
  (exists f : FILE,
      fDice ctx_file_failing = Some f /\ f_eof f = false /\ f_fail f = true)
  /\ roll_switch (L := sample_library) 1 RNG_FILE ctx_file_failing tt
     = Some (UINT_MINUS_ONE, UINT_MINUS_ONE,
             count2 (L := sample_library) ctx_file_failing, tt,
             [EvDiceFileError (Some "dice.txt"%string);
              EvDiceFileError (Some "dice.txt"%string)]).
Proof.
  assert (H : exists f : FILE,
             fDice ctx_file_failing = Some f /\ f_eof f = false /\ f_fail f = true).
  { exists file_failing. repeat split; reflexivity. }
  split; [exact H|].
  exact (proj1 (RollDice_FILE_unreadable sample_library 0 ctx_file_failing tt
                  (or_intror H))).
Defined.

(** X10.  A roll of the random.org kind asks for the first die and, when
    that is not 0 as an unsigned number (a negative answer is not), for
    the second; with a 0 it asks once.  When both numbers are faces the
    roll returns them with the context, and so the counter that
    [PrintRNGCounter] shows for this kind, unchanged.  Every other
    returning roll, and every roll of a build without HTTPS, has fallen
    back to the Mersenne Twister. *)
Theorem RollDice_RANDOM_DOT_ORG_requests :
  forall (L : Library) (fuel : nat) (x : rngcontext randctx sfmt_t) (w : world),
    let v0 := u32 (fst (getDiceRandomDotOrg w)) in
    let w1 := snd (getDiceRandomDotOrg w) in
    let v1 := u32 (fst (getDiceRandomDotOrg w1)) in
    let w2 := snd (getDiceRandomDotOrg w1) in
    roll_switch fuel RNG_RANDOM_DOT_ORG x w
    = Some (if LIBCURL_PROTOCOL_HTTPS
            then if v0 =? 0 then (0, 0, x, w1, []) else (v0, v1, x, w2, [])
            else (0, 0, x, w, []))
    /\ (LIBCURL_PROTOCOL_HTTPS = true -> in_range (v0, v1) ->
        RollDice (S fuel) RNG_RANDOM_DOT_ORG x w
        = Some (mkrolled 0 (v0, v1) RNG_RANDOM_DOT_ORG x w2 []))
    /\ (forall r : rolled,
           RollDice fuel RNG_RANDOM_DOT_ORG x w = Some r ->
           (kind r = RNG_RANDOM_DOT_ORG
            /\ LIBCURL_PROTOCOL_HTTPS = true /\ in_range (v0, v1)
            /\ r = mkrolled 0 (v0, v1) RNG_RANDOM_DOT_ORG x w2 []
            /\ PrintRNGCounter RNG_RANDOM_DOT_ORG (rctx r)
               = PrintRNGCounter RNG_RANDOM_DOT_ORG x)
           \/ (kind r = RNG_MERSENNE
               /\ (LIBCURL_PROTOCOL_HTTPS = false \/ ~ in_range (v0, v1))
               /\ printed r = [EvNotWorking] /\ in_range (anDice r))).
Proof.
  intros L fuel x w v0 w1 v1 w2.
  assert (Hv0 : 0 <= v0) by (unfold v0, u32; apply Z.mod_pos_bound; lia).
  assert (Hs : forall fu : nat, roll_switch fu RNG_RANDOM_DOT_ORG x w
    = Some (if LIBCURL_PROTOCOL_HTTPS
            then if v0 =? 0 then (0, 0, x, w1, []) else (v0, v1, x, w2, [])
            else (0, 0, x, w, []))).
  { intros fu. clear Hv0. subst v0 w1 v1 w2. cbn [roll_switch].
    destruct LIBCURL_PROTOCOL_HTTPS; [|reflexivity].
    destruct (getDiceRandomDotOrg w) as [a wa]. cbn [fst snd].
    destruct (u32 a =? 0) eqn:E0.
    - apply Z.eqb_eq in E0. rewrite E0. reflexivity.
    - apply Z.eqb_neq in E0.
      assert (Hp : (u32 a >? 0) = true).
      { apply Z.gtb_lt. unfold u32 in *. pose proof (Z.mod_pos_bound a (2 ^ 32)).
        lia. }
      rewrite Hp. destruct (getDiceRandomDotOrg wa) as [b wb]. reflexivity. }
  split; [apply Hs|]. split.
  - intros Hh Hin.
    apply (RollDice_direct fuel RNG_RANDOM_DOT_ORG x x w w2 (v0, v1));
      [discriminate| |exact Hin].
    rewrite Hs, Hh. cbn [fst snd].
    destruct (v0 =? 0) eqn:E0; [|reflexivity].
    apply Z.eqb_eq in E0. destruct Hin as [Hin _]. cbn [fst] in Hin. lia.
  - intros r Hr.
    destruct (RollDice_inv fuel RNG_RANDOM_DOT_ORG x w r ltac:(discriminate) Hr)
      as (f & d0 & d1 & x1 & wz & out1 & Hfu & Hsw & Hcase).
    subst fuel. rewrite Hs in Hsw.
    destruct Hcase as [(Hout & ->)|(Hout & r' & Hm & ->)].
    + left. apply in_range_not_out in Hout.
      destruct LIBCURL_PROTOCOL_HTTPS eqn:Eh.
      * destruct (v0 =? 0) eqn:E0; inversion Hsw; subst d0 d1 x1 wz out1.
        { destruct Hout as [Hout _]. cbn [fst] in Hout. lia. }
        split; [reflexivity|]. split; [reflexivity|]. split; [exact Hout|].
        split; reflexivity.
      * inversion Hsw; subst d0 d1 x1 wz out1.
        destruct Hout as [Hout _]. cbn [fst] in Hout. lia.
    + right.
      destruct (RollDice_MERSENNE_inv _ _ _ r' Hm) as (_ & Hin & Hk & Hp & _).
      cbn [kind printed anDice]. split; [exact Hk|].
      assert (Hnot : forall a b : Z, out_of_range (a, b) = true -> ~ in_range (a, b)).
      { intros a b Ho Hi. apply in_range_not_out in Hi. congruence. }
      split.
      * destruct LIBCURL_PROTOCOL_HTTPS eqn:Eh; [right|left; reflexivity].
        destruct (v0 =? 0) eqn:E0; inversion Hsw; subst d0 d1 x1 wz out1.
        { apply Z.eqb_eq in E0. intros [Hi _]. cbn [fst] in Hi. lia. }
        apply Hnot. exact Hout.
      * split; [|exact Hin].
        rewrite Hp.
        destruct LIBCURL_PROTOCOL_HTTPS; [destruct (v0 =? 0)|];
          inversion Hsw; reflexivity.
Qed.

Lemma RollDice_RANDOM_DOT_ORG_requests_witness :
  in_range (3, 5)
  /\ RollDice (L := dotorg_library) 1 RNG_RANDOM_DOT_ORG ctx0 [3; 5; 2]
     = Some (mkrolled (L := dotorg_library) 0 (3, 5) RNG_RANDOM_DOT_ORG ctx0 [2] []).
Proof.
  assert (Hin : in_range (3, 5)) by (repeat split; cbn; lia).
  split; [exact Hin|].
  exact (proj1 (proj2 (RollDice_RANDOM_DOT_ORG_requests dotorg_library 0 ctx0
                         [3; 5; 2])) eq_refl Hin).
Defined.

(** ** The counter and the fields a roll leaves alone *)

Section Counter.

Context {L : Library}.

Abbreviation ctx := (rngcontext randctx sfmt_t).

Ltac kept_fields :=
  unfold kept_by_roll; cbn;
  repeat match goal with |- _ /\ _ => split end;
  intros; try reflexivity; try congruence.

Lemma kept_by_roll_refl (k : rng) (x : ctx) : kept_by_roll k x x.
Proof. kept_fields. Qed.

Lemma kept_by_roll_trans (k : rng) (x y z : ctx) :
  kept_by_roll k x y -> kept_by_roll k y z -> kept_by_roll k x z.
Proof.
  unfold kept_by_roll.
  intros (A1 & A2 & A3 & A4 & A5 & A6 & A7 & A8 & A9 & A10 & A11 & A12)
         (B1 & B2 & B3 & B4 & B5 & B6 & B7 & B8 & B9 & B10 & B11 & B12).
  repeat match goal with |- _ /\ _ => split end; try congruence.
  - intros H. rewrite (B8 H). exact (A8 H).
  - intros H. rewrite (B9 H). exact (A9 H).
  - intros H. rewrite (B10 H). exact (A10 H).
  - intros H. rewrite (B11 H). exact (A11 H).
  - intros H. rewrite (B12 H). exact (A12 H).
Qed.

Lemma md5_loop_kept (fuel : nat) :
  forall (h h' : Z * Z) (x y : ctx),
    md5_loop fuel h x = Some (h', y) ->
    y = x \/ exists v : Z, y = set_nMD5 x v.
Proof.
  induction fuel as [|fuel IH]; intros h h' x y H; cbn [md5_loop] in H.
  - destruct ((u32 (fst h) >=? exp232_l) || (u32 (snd h) >=? exp232_l));
      [discriminate|]. inversion H. left. reflexivity.
  - destruct ((u32 (fst h) >=? exp232_l) || (u32 (snd h) >=? exp232_l)).
    + apply IH in H. right. destruct H as [->|(v & ->)].
      * eexists. reflexivity.
      * exists v. reflexivity.
    + inversion H. left. reflexivity.
Qed.

Lemma ReadDiceFile_kept (fuel : nat) (x y : ctx) (r : Z) (out : list event) :
  ReadDiceFile fuel x = Some (r, y, out) ->
  y = x \/ exists f : FILE, y = set_fDice x (Some f).
Proof.
  unfold ReadDiceFile. destruct (fDice x) as [f|].
  - destruct (uglyloop fuel (szDiceFilename x) f) as [[[r' f'] out']|];
      [|discriminate].
    cbn [bind]. intros H. inversion H. right. exists f'. reflexivity.
  - intros H. inversion H. left. reflexivity.
Qed.

Lemma roll_switch_kept (fuel : nat) (k : rng) (x x1 : ctx) (w w1 : world)
  (d0 d1 : Z) (out1 : list event) :
  roll_switch fuel k x w = Some (d0, d1, x1, w1, out1) ->
  kept_by_roll k x x1
  /\ (k <> RNG_RANDOM_DOT_ORG -> w1 = w)
  /\ (k <> RNG_RANDOM_DOT_ORG -> out_of_range (d0, d1) = false ->
      c x1 = u64 (c x + 2)).
Proof.
  intros H. destruct k.
  - (* BBS *)
    destruct (Z.eq_dec (BBSCheck x) 0) as [Hc|Hc].
    + rewrite (roll_switch_BBS_sound fuel x w Hc) in H.
      destruct (BBS_die_from BBSGetBit fuel x) as [[e0 y1]|] eqn:E0; [|discriminate].
      cbn [bind] in H.
      destruct (BBS_die_from BBSGetBit fuel y1) as [[e1 y2]|] eqn:E1; [|discriminate].
      cbn [bind] in H. inversion H; subst d0 d1 x1 w1 out1.
      apply BBS_die_squares in E0. destruct E0 as (k0 & _ & ->).
      apply BBS_die_squares in E1. destruct E1 as (k1 & _ & ->).
      split; [kept_fields|]. split; reflexivity.
    + rewrite (roll_switch_BBS_failed fuel x w Hc) in H.
      inversion H; subst d0 d1 x1 w1 out1.
      split; [kept_fields|]. split; [reflexivity|]. intros _ Ho. discriminate Ho.
  - (* ISAAC *)
    apply roll_switch_ISAAC in H.
    destruct H as (r0 & s1 & r1 & s2 & _ & _ & _ & _ & -> & -> & _).
    split; [kept_fields|]. split; reflexivity.
  - (* MD5 *)
    apply roll_switch_MD5 in H.
    destruct H as (h & y & Hl & _ & _ & -> & -> & _).
    apply md5_loop_kept in Hl.
    destruct Hl as [->|(v & ->)]; (split; [kept_fields|]); split; reflexivity.
  - (* MERSENNE *)
    apply roll_switch_MERSENNE in H.
    destruct H as (r0 & s1 & r1 & s2 & _ & _ & _ & _ & -> & -> & _).
    split; [kept_fields|]. split; reflexivity.
  - (* MANUAL *) discriminate.
  - (* random.org *)
    cbn [roll_switch] in H.
    assert (Hx : x1 = x).
    { destruct LIBCURL_PROTOCOL_HTTPS; [|inversion H; reflexivity].
      destruct (getDiceRandomDotOrg w) as [a wa].
      destruct (u32 a >? 0); [destruct (getDiceRandomDotOrg wa)|];
        inversion H; reflexivity. }
    subst x1. split; [apply kept_by_roll_refl|]. split; congruence.
  - (* FILE *)
    cbn [roll_switch] in H.
    destruct (ReadDiceFile fuel x) as [[[e0 y1] o0]|] eqn:E0; [|discriminate].
    cbn [bind] in H.
    destruct (ReadDiceFile fuel y1) as [[[e1 y2] o1]|] eqn:E1; [|discriminate].
    cbn [bind] in H. inversion H; subst d0 d1 x1 w1 out1.
    apply ReadDiceFile_kept in E0. apply ReadDiceFile_kept in E1.
    destruct E0 as [->|(f0 & ->)]; destruct E1 as [->|(f1 & ->)];
      (split; [kept_fields|]); split; reflexivity.
Qed.

Lemma RollDice_same_kind (fuel : nat) (k : rng) (x : ctx) (w : world) (r : rolled) :
  k <> RNG_MANUAL -> k <> RNG_RANDOM_DOT_ORG ->
  RollDice fuel k x w = Some r -> kind r = k ->
  in_range (anDice r) /\ c (rctx r) = u64 (c x + 2) /\ rworld r = w
  /\ kept_by_roll k x (rctx r)
  /\ filter event_is_fallback (printed r) = [].
Proof.
  intros Hm Hd H Hk.
  destruct (RollDice_inv fuel k x w r Hm H)
    as (f & d0 & d1 & x1 & w1 & out1 & _ & Hs & Hcase).
  destruct (roll_switch_kept f k x x1 w w1 d0 d1 out1 Hs) as (Hkept & Hw & Hc).
  destruct Hcase as [(Hout & ->)|(Hout & r' & Hr' & ->)].
  - cbn [anDice rctx rworld printed].
    split; [apply in_range_not_out; exact Hout|].
    split; [exact (Hc Hd Hout)|]. split; [exact (Hw Hd)|].
    split; [exact Hkept|]. exact (roll_switch_quiet f k x x1 w w1 d0 d1 out1 Hs).
  - exfalso. cbn [kind] in Hk.
    destruct (RollDice_MERSENNE_inv _ _ _ r' Hr') as (_ & _ & Hk' & _).
    rewrite Hk' in Hk. subst k.
    rewrite (roll_switch_MERSENNE_range f x x1 w w1 d0 d1 out1 Hs) in Hout.
    discriminate.
Qed.

Lemma RollDice_times_first (fuel count : nat) (k : rng) (x x' : ctx)
  (w w' : world) (ds : list (Z * Z)) :
  k <> RNG_MANUAL ->
  RollDice_times fuel (S count) k x w = Some (ds, k, x', w') ->
  exists (r : rolled) (ds' : list (Z * Z)),
    RollDice fuel k x w = Some r /\ kind r = k
    /\ RollDice_times fuel count k (rctx r) (rworld r) = Some (ds', k, x', w')
    /\ ds = anDice r :: ds'.
Proof.
  intros Hm H. cbn [RollDice_times] in H.
  destruct (RollDice fuel k x w) as [r|] eqn:Er; [|discriminate].
  cbn [bind] in H.
  destruct (RollDice_times fuel count (kind r) (rctx r) (rworld r))
    as [[[[ds' k'] x''] w'']|] eqn:Et; [|discriminate].
  cbn [bind] in H. inversion H; subst ds k' x'' w''.
  assert (Hk : kind r = k).
  { destruct (RollDice_kinds fuel k x w r Hm Er) as [Hk|Hk]; [exact Hk|].
    rewrite Hk in Et.
    pose proof (RollDice_times_MERSENNE fuel count _ _ _ _ _ _ Et) as Hk'.
    congruence. }
  exists r, ds'. rewrite Hk in Et. auto.
Qed.

End Counter.

(** X11.  For every kind but the manual and the random.org one, [count]
    rolls in a row that end in the kind they began with (none fell
    back) give [count] pairs of dice in range, leave the counter at its
    old value plus two for each roll, modulo [2^64], which is what
    [PrintRNGCounter] then shows (nothing for the Mersenne Twister), and
    change no field but the counter and the state of that kind's own
    generator. *)
Theorem RollDice_times_counter :
  forall (L : Library) (fuel count : nat) (k : rng)
         (x x' : rngcontext randctx sfmt_t) (w w' : world) (ds : list (Z * Z)),
    k <> RNG_MANUAL -> k <> RNG_RANDOM_DOT_ORG ->
    0 <= c x < 2 ^ 64 ->
    RollDice_times fuel count k x w = Some (ds, k, x', w') ->
    c x' = u64 (c x + 2 * Z.of_nat count)
    /\ List.length ds = count /\ Forall in_range ds /\ w' = w
    /\ kept_by_roll k x x'
    /\ PrintRNGCounter k x' = counter_shown k (u64 (c x + 2 * Z.of_nat count)).
Proof.
  intros L fuel count k x x' w w' ds Hm Hd Hc H.
  assert (Hmain : c x' = u64 (c x + 2 * Z.of_nat count)
                  /\ List.length ds = count /\ Forall in_range ds /\ w' = w
                  /\ kept_by_roll k x x').
  { revert x w ds Hc H. induction count as [|count IH]; intros x w ds Hc H.
    - cbn [RollDice_times] in H. inversion H; subst ds x' w'.
      split; [unfold u64; rewrite Z.add_0_r, Z.mod_small; [reflexivity|exact Hc]|].
      split; [reflexivity|]. split; [constructor|]. split; [reflexivity|].
      apply kept_by_roll_refl.
    - destruct (RollDice_times_first fuel count k x x' w w' ds Hm H)
        as (r & ds' & Hr & Hk & Ht & ->).
      destruct (RollDice_same_kind fuel k x w r Hm Hd Hr Hk)
        as (Hin & Hcr & Hw & Hkept & _).
      rewrite Hw in Ht.
      assert (Hrange : 0 <= c (rctx r) < 2 ^ 64).
      { rewrite Hcr. unfold u64. apply Z.mod_pos_bound. lia. }
      destruct (IH (rctx r) w ds' Hrange Ht) as (Hc' & Hl & Hf & Hw' & Hkept').
      split.
      { rewrite Hc', Hcr. unfold u64. rewrite Z.add_mod_idemp_l by lia.
        f_equal. lia. }
      split; [cbn [List.length]; rewrite Hl; reflexivity|].
      split; [constructor; assumption|]. split; [exact Hw'|].
      exact (kept_by_roll_trans k x (rctx r) x' Hkept Hkept'). }
  destruct Hmain as (H1 & H2 & H3 & H4 & H5).
  repeat (split; [assumption|]).
  unfold PrintRNGCounter, counter_shown. rewrite H1. reflexivity.
Qed.

Lemma RollDice_times_counter_witness :
  RollDice_times (L := sample_library) 3 2 RNG_FILE ctx_file_opened tt
  = Some ([(1, 3); (6, 1)], RNG_FILE, ctx_file_rolled_twice, tt)
  /\ c ctx_file_rolled_twice = u64 (c ctx_file_opened + 2 * Z.of_nat 2)
  /\ PrintRNGCounter (L := sample_library) RNG_FILE ctx_file_rolled_twice
     = [ShDiceFromFile 4].
Proof.
  assert (H : RollDice_times (L := sample_library) 3 2 RNG_FILE ctx_file_opened tt
              = Some ([(1, 3); (6, 1)], RNG_FILE, ctx_file_rolled_twice, tt))
    by reflexivity.
  split; [exact H|].
  destruct (RollDice_times_counter sample_library 3 2 RNG_FILE ctx_file_opened
              ctx_file_rolled_twice tt tt [(1, 3); (6, 1)]
              ltac:(discriminate) ltac:(discriminate) ltac:(cbn; lia) H)
    as (Hc & _ & _ & _ & _ & Hp).
  split; [exact Hc|exact Hp].
Defined.

(** ** The MD5 kind: which seed makes the dice, and which is next *)

Section DigestWalk.

Context {L : Library}.

Abbreviation ctx := (rngcontext randctx sfmt_t).

Lemma u32_add_l (a b : Z) : u32 (u32 a + b) = u32 (a + b).
Proof. unfold u32. apply Z.add_mod_idemp_l. lia. Qed.

Lemma u32_idem (a : Z) : u32 (u32 a) = u32 a.
Proof. unfold u32. apply Z.mod_mod. lia. Qed.

Lemma md5_loop_first_accepted (j : nat) :
  forall (fuel : nat) (h : Z * Z) (y : ctx),
    u32 (nMD5 y) = nMD5 y ->
    rejected_digest h = true ->
    (forall i : nat, (i < j)%nat ->
       rejected_digest (md5_buffer (u32 (nMD5 y + Z.of_nat i))) = true) ->
    rejected_digest (md5_buffer (u32 (nMD5 y + Z.of_nat j))) = false ->
    (j < fuel)%nat ->
    md5_loop fuel h y
    = Some (md5_buffer (u32 (nMD5 y + Z.of_nat j)),
            set_nMD5 y (u32 (nMD5 y + Z.of_nat j + 1))).
Proof.
  induction j as [|j IH]; intros fuel h y Hy Hh Hrej Hacc Hfuel;
    (destruct fuel as [|fuel]; [lia|]);
    rewrite (md5_loop_rejected fuel h y Hh).
  - cbn [Z.of_nat] in *. rewrite Z.add_0_r in *. rewrite Hy in Hacc.
    rewrite md5_loop_accepted_now by exact Hacc. rewrite Hy. reflexivity.
  - set (y' := set_nMD5 y (u32 (nMD5 y + 1))).
    assert (Hn : nMD5 y' = u32 (nMD5 y + 1)) by reflexivity.
    assert (Hshift : forall i : nat,
              u32 (nMD5 y' + Z.of_nat i) = u32 (nMD5 y + Z.of_nat (S i))).
    { intros i. rewrite Hn, u32_add_l. f_equal. lia. }
    assert (H0 : rejected_digest (md5_buffer (nMD5 y)) = true).
    { pose proof (Hrej O ltac:(lia)) as H0. cbn [Z.of_nat] in H0.
      rewrite Z.add_0_r, Hy in H0. exact H0. }
    rewrite (IH fuel (md5_buffer (nMD5 y)) y').
    + rewrite Hshift. unfold y'. cbn [set_nMD5 nMD5].
      replace (u32 (u32 (nMD5 y + 1) + Z.of_nat j + 1))
        with (u32 (nMD5 y + Z.of_nat (S j) + 1)); [reflexivity|].
      replace (u32 (nMD5 y + 1) + Z.of_nat j + 1)
        with (u32 (nMD5 y + 1) + (Z.of_nat j + 1)) by lia.
      rewrite u32_add_l. f_equal. lia.
    + rewrite Hn. apply u32_idem.
    + exact H0.
    + intros i Hi. rewrite Hshift. apply Hrej. lia.
    + rewrite Hshift. exact Hacc.
    + lia.
Qed.

End DigestWalk.

(** X12.  A roll of the MD5 kind makes its dice of the digest of the
    first seed, counting up from the stored one, whose digest the
    sampler accepts.  When that is the stored seed itself the seed
    stored afterwards is the next one; when it is the [j]-th after it,
    [j >= 1], the seed stored afterwards is the one after the next, so
    that one seed is passed over.  Fuel for [j + 1] digests is enough for
    the roll to return, and it does not fall back. *)
Theorem RollDice_MD5_first_accepted :
  forall (L : Library) (fuel j : nat) (x : rngcontext randctx sfmt_t) (w : world),
    u32 (nMD5 x) = nMD5 x ->
    (forall i : nat, (i < j)%nat ->
       rejected_digest (md5_buffer (u32 (nMD5 x + Z.of_nat i))) = true) ->
    rejected_digest (md5_buffer (u32 (nMD5 x + Z.of_nat j))) = false ->
    (j <= fuel)%nat ->
    RollDice (S (S fuel)) RNG_MD5 x w
    = Some (mkrolled 0 (digest_dice (md5_buffer (u32 (nMD5 x + Z.of_nat j))))
              RNG_MD5
              (count2 (set_nMD5 x
                 (u32 (nMD5 x + Z.of_nat j + (if Nat.eqb j 0 then 1 else 2)))))
              w [])
    /\ in_range (digest_dice (md5_buffer (u32 (nMD5 x + Z.of_nat j)))).
Proof.
  intros L fuel j x w Hx Hrej Hacc Hfuel.
  pose proof (digest_dice_range _ Hacc) as Hin.
  split; [|exact Hin].
  apply RollDice_direct; [discriminate| |exact Hin].
  cbn [roll_switch].
  destruct j as [|j].
  - cbn [Z.of_nat] in *. rewrite Z.add_0_r in *. rewrite Hx in *.
    rewrite md5_loop_accepted_now by exact Hacc. cbn [bind Nat.eqb].
    reflexivity.
  - assert (H0 : rejected_digest (md5_buffer (nMD5 x)) = true).
    { pose proof (Hrej O ltac:(lia)) as H0. cbn [Z.of_nat] in H0.
      rewrite Z.add_0_r, Hx in H0. exact H0. }
    rewrite (md5_loop_first_accepted (S j) (S fuel) (md5_buffer (nMD5 x)) x
               Hx H0 Hrej Hacc ltac:(lia)).
    cbn [bind Nat.eqb set_nMD5 nMD5].
    replace (u32 (u32 (nMD5 x + Z.of_nat (S j) + 1) + 1))
      with (u32 (nMD5 x + Z.of_nat (S j) + 2)); [reflexivity|].
    rewrite u32_add_l. f_equal. lia.
Qed.

Lemma RollDice_MD5_first_accepted_witness :
  rejected_digest (sample_digest 7) = true
  /\ rejected_digest (sample_digest 8) = false
  /\ RollDice (L := sample_library) 3 RNG_MD5 ctx_md5_seven tt
     = Some (mkrolled (L := sample_library) 0 (digest_dice (sample_digest 8))
               RNG_MD5
               (count2 (L := sample_library)
                  (set_nMD5 (L := sample_library) ctx_md5_seven 10)) tt []).
Proof.
  split; [reflexivity|]. split; [reflexivity|].
  assert (Hrej : forall i : nat, (i < 1)%nat ->
            rejected_digest
              (md5_buffer (Library := sample_library)
                 (u32 (nMD5 ctx_md5_seven + Z.of_nat i))) = true).
  { intros i Hi. assert (E : i = O) by lia. subst i. reflexivity. }
  exact (proj1 (RollDice_MD5_first_accepted sample_library 1 1 ctx_md5_seven tt
                  eq_refl Hrej eq_refl ltac:(lia))).
Defined.

(** ** Long seeds *)

Section LongSeeds.

Context {L : Library} {LS : LongSeedLibrary L}.

Abbreviation ctx := (rngcontext randctx sfmt_t).

Ltac seed_fields :=
  unfold kept_by_seed; cbn;
  repeat match goal with |- _ /\ _ => split end;
  intros; try reflexivity; try congruence.

Lemma attempt_loop_kept (k : nat) :
  forall (i0 i : Z) (x x1 : ctx),
    attempt_loop k i0 x = Some (i, x1) ->
    i0 <= i <= i0 + Z.of_nat k /\ exists v : Z, x1 = set_zSeed x v.
Proof.
  induction k as [|k IH]; intros i0 i x x1 H.
  - cbn [attempt_loop] in H. inversion H; subst.
    split; [cbn; lia|]. exists (zSeed x1). symmetry. apply set_zSeed_same.
  - cbn [attempt_loop] in H.
    destruct (square_loop 8 (zSeed x) (zModulus x)) as [z|]; [|discriminate].
    cbn [bind] in H.
    destruct (cycle_loop 16 0 z z (zModulus x)) as [j|]; [|discriminate].
    cbn [bind] in H. destruct (j =? 16).
    + inversion H; subst. split; [lia|].
      exists (zSeed x1). symmetry. apply set_zSeed_same.
    + apply IH in H. destruct H as (Hi & v & ->).
      split; [lia|]. exists v. reflexivity.
Qed.

Lemma BBSCheckInitialSeed_kept (x x' : ctx) (r : Z) (out : list event) :
  BBSCheckInitialSeed x = Some (r, x', out) ->
  (exists v : Z, x' = set_zSeed x v)
  /\ ((r = 0 /\ out = [])
      \/ (r = -1 /\ out = [EvBBSInvalidSeed] /\ zSeed x' = zZero x)).
Proof.
  unfold BBSCheckInitialSeed. intros H.
  destruct (mpz_sgn (zSeed x) <? 1).
  - unfold BBSInitialSeedFailure in H. inversion H; subst.
    split; [eexists; reflexivity|]. right. auto.
  - destruct (attempt_loop 32 0 x) as [[i x1]|] eqn:Ea; [|discriminate].
    cbn [bind] in H. apply attempt_loop_kept in Ea.
    destruct Ea as (Hi & v & ->).
    destruct (i =? 32) eqn:E32.
    + apply Z.eqb_eq in E32. subst i. unfold BBSInitialSeedFailure in H.
      change (32 <? 32) with false in H. inversion H; subst.
      split; [eexists; reflexivity|]. right. auto.
    + apply Z.eqb_neq in E32.
      destruct (i <? 32) eqn:El; [|apply Z.ltb_ge in El; cbn in Hi; lia].
      inversion H; subst. split; [eexists; reflexivity|]. left. auto.
Qed.

Lemma InitRNGSeed_fields (n0 : Z) (k : rng) (x x' : ctx) (out : list event) :
  InitRNGSeed n0 k x = Some (x', out) ->
  c x' = 0 /\ n x' = u32 n0 /\ nz x' = nz x /\ kept_by_seed k x x'
  /\ (out = [] \/ (k = RNG_BBS /\ out = [EvBBSInvalidSeed] /\ zSeed x' = zZero x)).
Proof.
  unfold InitRNGSeed. intros H. destruct k.
  - change (fZInit (set_c (set_n x (u32 n0)) 0)) with (fZInit x) in H.
    destruct (fZInit x); [|discriminate].
    destruct (BBSCheckInitialSeed (set_zSeed (set_c (set_n x (u32 n0)) 0) (u32 n0)))
      as [[[r y] o]|] eqn:Eb; [|discriminate].
    cbn [bind] in H. inversion H; subst y o.
    apply BBSCheckInitialSeed_kept in Eb. destruct Eb as ((v & ->) & Hout).
    split; [reflexivity|]. split; [reflexivity|]. split; [reflexivity|].
    split; [seed_fields|].
    destruct Hout as [(_ & ->)|(_ & -> & Hz)]; [left; reflexivity|right].
    split; [reflexivity|]. split; [reflexivity|exact Hz].
  - inversion H; subst. repeat (split; [reflexivity|]). split; [seed_fields|auto].
  - inversion H; subst. repeat (split; [reflexivity|]). split; [seed_fields|auto].
  - inversion H; subst. repeat (split; [reflexivity|]). split; [seed_fields|auto].
  - inversion H; subst. repeat (split; [reflexivity|]). split; [seed_fields|auto].
  - inversion H; subst. repeat (split; [reflexivity|]). split; [seed_fields|auto].
  - inversion H; subst. repeat (split; [reflexivity|]). split; [seed_fields|auto].
Qed.

Lemma InitRNGSeedMP_fields (n0 : Z) (k : rng) (x x' : ctx) (out : list event) :
  InitRNGSeedMP n0 k x = Some (x', out) ->
  c x' = 0 /\ nz x' = n0 /\ kept_by_seed k x x'
  /\ (out = [] \/ (k = RNG_BBS /\ out = [EvBBSInvalidSeed] /\ zSeed x' = zZero x)).
Proof.
  unfold InitRNGSeedMP. intros H. destruct k.
  - change (fZInit (set_c (set_nz x n0) 0)) with (fZInit x) in H.
    destruct (fZInit x); [|discriminate].
    destruct (BBSCheckInitialSeed (set_zSeed (set_c (set_nz x n0) 0) n0))
      as [[[r y] o]|] eqn:Eb; [|discriminate].
    cbn [bind] in H. inversion H; subst y o.
    apply BBSCheckInitialSeed_kept in Eb. destruct Eb as ((v & ->) & Hout).
    split; [reflexivity|]. split; [reflexivity|]. split; [seed_fields|].
    destruct Hout as [(_ & ->)|(_ & -> & Hz)]; [left; reflexivity|right].
    split; [reflexivity|]. split; [reflexivity|exact Hz].
  - inversion H; subst. repeat (split; [reflexivity|]). split; [seed_fields|auto].
  - apply InitRNGSeed_fields in H. destruct H as (Hc & _ & Hnz & Hk & Ho).
    split; [exact Hc|]. split; [exact Hnz|]. split; [|exact Ho].
    revert Hk. unfold kept_by_seed. cbn. tauto.
  - destruct (mpz_cmp_ui n0 UINT_MAX >? 0).
    + inversion H; subst. repeat (split; [reflexivity|]). split; [seed_fields|auto].
    + apply InitRNGSeed_fields in H. destruct H as (Hc & _ & Hnz & Hk & Ho).
      split; [exact Hc|]. split; [exact Hnz|]. split; [|exact Ho].
      revert Hk. unfold kept_by_seed. cbn. tauto.
  - inversion H; subst. repeat (split; [reflexivity|]). split; [seed_fields|auto].
  - inversion H; subst. repeat (split; [reflexivity|]). split; [seed_fields|auto].
  - inversion H; subst. repeat (split; [reflexivity|]). split; [seed_fields|auto].
Qed.

Lemma InitRNGSeedMP_returns (n0 : Z) (k : rng) (x : ctx) :
  k <> RNG_BBS ->
  exists (x' : ctx) (out : list event), InitRNGSeedMP n0 k x = Some (x', out).
Proof.
  intros Hk. unfold InitRNGSeedMP, InitRNGSeed. destruct k; try congruence;
    try (eexists; eexists; reflexivity).
  destruct (mpz_cmp_ui n0 UINT_MAX >? 0); eexists; eexists; reflexivity.
Qed.

End LongSeeds.

(** X13.  [InitRNGSeedLong] returns for every kind but BBS.  When it
    returns -1 the string is not a number or is a negative one, and the
    context is as it was.  When it returns 0 the string is a number that
    is not negative, the long seed kept in the context is that number,
    the counter is 0, and nothing else has changed but the seed word and
    the state of the generator of that kind.  For BBS it returns 0 also
    when the seed was refused, which is only printed. *)
Theorem InitRNGSeedLong_result :
  forall (L : Library) (LS : LongSeedLibrary L) (sz : string) (k : rng)
         (x : rngcontext randctx sfmt_t),
    (k <> RNG_BBS ->
     exists (r : Z) (x' : rngcontext randctx sfmt_t) (out : list event),
       InitRNGSeedLong sz k x = Some (r, x', out))
    /\ (forall (r : Z) (x' : rngcontext randctx sfmt_t) (out : list event),
           InitRNGSeedLong sz k x = Some (r, x', out) ->
           (r = -1 /\ x' = x /\ out = []
            /\ (mpz_set_str sz = None
                \/ exists v : Z, mpz_set_str sz = Some v /\ v < 0))
           \/ (r = 0
               /\ exists n0 : Z,
                   mpz_set_str sz = Some n0 /\ 0 <= n0
                   /\ nz x' = n0 /\ c x' = 0 /\ kept_by_seed k x x'
                   /\ (out = []
                       \/ (k = RNG_BBS /\ out = [EvBBSInvalidSeed]
                           /\ zSeed x' = zZero x)))).
Proof.
  intros L LS sz k x.
  assert (Hsgn : forall v : Z, (mpz_sgn v <? 0) = (v <? 0)).
  { intros v. unfold mpz_sgn. destruct (v <? 0) eqn:E.
    - apply Z.ltb_lt in E. apply Z.ltb_lt. rewrite (Z.sgn_neg v E). lia.
    - apply Z.ltb_ge in E. apply Z.ltb_ge. pose proof (Z.sgn_nonneg v). lia. }
  unfold InitRNGSeedLong. split.
  - intros Hk. destruct (mpz_set_str sz) as [n0|];
      [|eexists; eexists; eexists; reflexivity].
    destruct (mpz_sgn n0 <? 0); [eexists; eexists; eexists; reflexivity|].
    destruct (InitRNGSeedMP_returns n0 k x Hk) as (x' & out & ->).
    eexists. eexists. eexists. reflexivity.
  - intros r x' out H. destruct (mpz_set_str sz) as [n0|].
    + rewrite Hsgn in H. destruct (n0 <? 0) eqn:E.
      * apply Z.ltb_lt in E. inversion H; subst. left.
        repeat (split; [reflexivity|]). right. exists n0. auto.
      * apply Z.ltb_ge in E.
        destruct (InitRNGSeedMP n0 k x) as [[y o]|] eqn:Em; [|discriminate].
        cbn [bind] in H. inversion H; subst r y o.
        apply InitRNGSeedMP_fields in Em. destruct Em as (Hc & Hnz & Hk & Ho).
        right. split; [reflexivity|]. exists n0. auto 10.
    + inversion H; subst. left. auto.
Qed.

Lemma InitRNGSeedLong_result_witness :
  exists (r : Z) (x' : rngcontext Z Z) (out : list event),
    InitRNGSeedLong (L := sample_library) "18446744073709551616" RNG_ISAAC ctx0
    = Some (r, x', out).
Proof.
  exact (proj1 (InitRNGSeedLong_result sample_library sample_long_seeds
                  "18446744073709551616" RNG_ISAAC ctx0) ltac:(discriminate)).
Defined.

(** ** The words of a long seed *)

Section SeedWords.

Lemma export_size (a : Z) :
  0 < a -> a < 2 ^ (32 * (Z.log2 a / 32 + 1)).
Proof.
  intros Ha. pose proof (Z.log2_nonneg a) as Hl.
  pose proof (Z.log2_spec a Ha) as (_ & Hu).
  apply Z.lt_le_trans with (2 ^ Z.succ (Z.log2 a)); [exact Hu|].
  apply Z.pow_le_mono_r; [lia|].
  pose proof (Z.div_mod (Z.log2 a) 32 ltac:(lia)).
  pose proof (Z.mod_pos_bound (Z.log2 a) 32 ltac:(lia)). lia.
Qed.

Lemma nth_map_seq (f : nat -> Z) (cb i : nat) :
  nth i (map f (seq 0 cb)) 0 = if (i <? cb)%nat then f i else 0.
Proof.
  destruct (i <? cb)%nat eqn:E.
  - apply Nat.ltb_lt in E.
    rewrite (nth_indep _ 0 (f O)) by (rewrite length_map, length_seq; exact E).
    rewrite map_nth. rewrite seq_nth by exact E. reflexivity.
  - apply Nat.ltb_ge in E. apply nth_overflow.
    rewrite length_map, length_seq. exact E.
Qed.

Lemma export_length (v : Z) :
  List.length (mpz_export32 v)
  = if Z.abs v =? 0 then O else Z.to_nat (Z.log2 (Z.abs v) / 32 + 1).
Proof. unfold mpz_export32. rewrite length_map, length_seq. reflexivity. Qed.

Lemma export_nth (v : Z) (i : nat) : nth i (mpz_export32 v) 0 = word32 v i.
Proof.
  unfold mpz_export32, word32. cbv zeta. rewrite nth_map_seq.
  destruct (Z.abs v =? 0) eqn:E0.
  - apply Z.eqb_eq in E0. rewrite E0.
    destruct (i <? 0)%nat eqn:E; [apply Nat.ltb_lt in E; lia|].
    rewrite Z.div_0_l by (apply Z.pow_nonzero; lia). reflexivity.
  - apply Z.eqb_neq in E0.
    assert (Ha : 0 < Z.abs v) by lia.
    destruct (i <? Z.to_nat (Z.log2 (Z.abs v) / 32 + 1))%nat eqn:E; [reflexivity|].
    apply Nat.ltb_ge in E.
    pose proof (export_size (Z.abs v) Ha) as Hs.
    pose proof (Z.log2_nonneg (Z.abs v)) as Hl.
    assert (Hd : 0 <= Z.log2 (Z.abs v) / 32) by (apply Z.div_pos; lia).
    assert (Hle : 2 ^ (32 * (Z.log2 (Z.abs v) / 32 + 1)) <= 2 ^ (32 * Z.of_nat i)).
    { apply Z.pow_le_mono_r; lia. }
    rewrite Z.div_small by lia. reflexivity.
Qed.

Lemma word32_range (v : Z) (i : nat) : 0 <= word32 v i < 2 ^ 32.
Proof. unfold word32. apply Z.mod_pos_bound. lia. Qed.

Lemma word32_high_bits (v m : Z) (size i : nat) :
  0 <= v -> 0 <= m -> (i < size)%nat ->
  word32 (v + m * 2 ^ (32 * Z.of_nat size)) i = word32 v i.
Proof.
  intros Hv Hm Hi. unfold word32.
  assert (Hp : 0 <= m * 2 ^ (32 * Z.of_nat size))
    by (apply Z.mul_nonneg_nonneg; [lia|apply Z.pow_nonneg; lia]).
  rewrite !Z.abs_eq by lia.
  assert (E : 2 ^ (32 * Z.of_nat size)
              = 2 ^ (32 * Z.of_nat (size - S i)) * 2 ^ 32 * 2 ^ (32 * Z.of_nat i)).
  { rewrite <- !Z.pow_add_r by lia. f_equal. lia. }
  rewrite E.
  replace (m * (2 ^ (32 * Z.of_nat (size - S i)) * 2 ^ 32 * 2 ^ (32 * Z.of_nat i)))
    with (m * 2 ^ (32 * Z.of_nat (size - S i)) * 2 ^ 32 * 2 ^ (32 * Z.of_nat i))
    by ring.
  rewrite Z.div_add by (apply Z.pow_nonzero; lia).
  rewrite Z.mod_add by lia. reflexivity.
Qed.

Lemma import_nonneg (words : list Z) : 0 <= mpz_import32 words.
Proof.
  induction words as [|wd rest IH]; cbn [mpz_import32]; [lia|].
  pose proof (u32_range wd). lia.
Qed.

Lemma import_bound (words : list Z) :
  mpz_import32 words < 2 ^ (32 * Z.of_nat (List.length words)).
Proof.
  induction words as [|wd rest IH]; cbn [mpz_import32 List.length]; [cbn; lia|].
  pose proof (u32_range wd). pose proof (import_nonneg rest).
  rewrite Nat2Z.inj_succ.
  replace (32 * Z.succ (Z.of_nat (List.length rest)))
    with (32 + 32 * Z.of_nat (List.length rest)) by lia.
  rewrite Z.pow_add_r by lia. nia.
Qed.

Lemma import_word (words : list Z) :
  forall i : nat, word32 (mpz_import32 words) i = u32 (nth i words 0).
Proof.
  induction words as [|wd rest IH]; intros i.
  - cbn [mpz_import32]. unfold word32. cbn [Z.abs].
    rewrite Z.div_0_l by (apply Z.pow_nonzero; lia).
    destruct i; reflexivity.
  - cbn [mpz_import32]. pose proof (u32_range wd) as Hw.
    pose proof (import_nonneg rest) as Hr.
    unfold word32. rewrite Z.abs_eq by lia.
    destruct i as [|i].
    + cbn [nth Z.of_nat]. rewrite Z.mul_0_r, Z.pow_0_r, Z.div_1_r.
      rewrite Z.mul_comm, Z.mod_add by lia.
      unfold u32. apply Z.mod_mod. lia.
    + cbn [nth]. rewrite <- IH. unfold word32. rewrite (Z.abs_eq _ Hr).
      rewrite Nat2Z.inj_succ.
      replace (32 * Z.succ (Z.of_nat i)) with (32 + 32 * Z.of_nat i) by lia.
      rewrite Z.pow_add_r by lia.
      rewrite <- Z.div_div by (try apply Z.pow_pos_nonneg; lia).
      rewrite (Z.mul_comm (2 ^ 32)), Z.div_add by lia.
      rewrite (Z.div_small (u32 wd)) by lia. reflexivity.
Qed.

Lemma copy_words_cells {A : Type} (store : A -> nat -> Z -> A) (size : nat)
  (words : list Z) (a : A) :
  copy_words store size words a
  = fold_left (fun a' i => store a' i (nth i words 0)) (seq 0 size) a.
Proof.
  unfold copy_words.
  set (k := Nat.min size (List.length words)).
  assert (Hk : (k <= size)%nat) by (unfold k; lia).
  replace size with (k + (size - k))%nat at 2 by lia.
  rewrite seq_app, fold_left_app. cbn [Nat.add].
  generalize (fold_left (fun a' i => store a' i (nth i words 0)) (seq 0 k) a).
  intros a1.
  assert (Hz : forall i : nat, In i (seq k (size - k)) -> nth i words 0 = 0).
  { intros i Hi. apply in_seq in Hi.
    destruct (Nat.le_gt_cases (List.length words) i) as [Hl|Hl].
    - apply nth_overflow. exact Hl.
    - unfold k in Hi. lia. }
  revert a1 Hz. generalize (seq k (size - k)). intros l.
  induction l as [|h l IH]; intros a1 Hz; [reflexivity|].
  cbn [fold_left]. rewrite (Hz h (or_introl eq_refl)).
  apply IH. intros i Hi. apply Hz. right. exact Hi.
Qed.

End SeedWords.

(** X14.  A long seed for the MD5 kind is reduced modulo [2^64] and then
    modulo [UINT_MAX] = 4294967295, not [2^32]: the seed stored, which
    [PrintRNGSeed] shows, is below 4294967295.  Two long seeds give the
    same stored seed exactly when they agree after these two
    reductions.  So [n] and [n + 4294967295] give the same one whenever
    the low 64 bits of [n] do not wrap, that is when
    [n mod 2^64 + 4294967295 < 2^64]; when they wrap they need not:
    [2^64 - 1] is stored as 0 and [2^64 - 1 + 4294967295] as 4294967294.
    The seed 4294967295 itself can only be set with [InitRNGSeed]. *)
Theorem InitRNGSeedMP_MD5_reduced :
  forall (L : Library) (LS : LongSeedLibrary L) (n0 : Z)
         (x : rngcontext randctx sfmt_t),
    0 <= n0 ->
    (exists x' : rngcontext randctx sfmt_t,
        InitRNGSeedMP n0 RNG_MD5 x = Some (x', [])
        /\ nMD5 x' = (n0 mod 2 ^ 64) mod 4294967295
        /\ 0 <= nMD5 x' < 4294967295
        /\ nz x' = n0 /\ c x' = 0
        /\ PrintRNGSeed RNG_MD5 x' = [ShSeed ((n0 mod 2 ^ 64) mod 4294967295)]
        /\ (forall n1 : Z, 0 <= n1 ->
            exists y' : rngcontext randctx sfmt_t,
              InitRNGSeedMP n1 RNG_MD5 x = Some (y', [])
              /\ (nMD5 y' = nMD5 x'
                  <-> (n1 mod 2 ^ 64) mod 4294967295
                      = (n0 mod 2 ^ 64) mod 4294967295))
        /\ (n0 mod 2 ^ 64 + 4294967295 < 2 ^ 64 ->
            exists y' : rngcontext randctx sfmt_t,
              InitRNGSeedMP (n0 + 4294967295) RNG_MD5 x = Some (y', [])
              /\ nMD5 y' = nMD5 x'))
    /\ (exists y0 y1 : rngcontext randctx sfmt_t,
           InitRNGSeedMP (2 ^ 64 - 1) RNG_MD5 x = Some (y0, [])
           /\ nMD5 y0 = 0
           /\ InitRNGSeedMP (2 ^ 64 - 1 + 4294967295) RNG_MD5 x = Some (y1, [])
           /\ nMD5 y1 = 4294967294)
    /\ exists x'' : rngcontext randctx sfmt_t,
        InitRNGSeed 4294967295 RNG_MD5 x = Some (x'', [])
        /\ nMD5 x'' = 4294967295.
Proof.
  intros L LS n0 x Hn.
  assert (Hred : forall v : Z, 0 <= v ->
            u32 (mpz_get_ui v mod UINT_MAX) = (v mod 2 ^ 64) mod 4294967295).
  { intros v Hv. unfold mpz_get_ui, u64, UINT_MAX, u32. rewrite Z.abs_eq by exact Hv.
    apply Z.mod_small.
    pose proof (Z.mod_pos_bound (v mod 2 ^ 64) 4294967295 ltac:(lia)). lia. }
  assert (Hmp : forall v : Z, 0 <= v ->
            InitRNGSeedMP v RNG_MD5 x
            = Some (set_nMD5 (set_c (set_n (set_c (set_nz x v) 0)
                                       ((v mod 2 ^ 64) mod 4294967295)) 0)
                             ((v mod 2 ^ 64) mod 4294967295), [])).
  { intros v Hv. unfold InitRNGSeedMP, InitRNGSeed.
    assert (Hi : u32 (u32 (mpz_get_ui v mod UINT_MAX))
                 = (v mod 2 ^ 64) mod 4294967295).
    { rewrite (Hred v Hv). unfold u32. apply Z.mod_small.
      pose proof (Z.mod_pos_bound (v mod 2 ^ 64) 4294967295 ltac:(lia)). lia. }
    rewrite Hi. reflexivity. }
  split; [|split].
  - eexists. split; [apply Hmp; exact Hn|].
    split; [reflexivity|]. split; [cbn; apply Z.mod_pos_bound; lia|].
    split; [reflexivity|]. split; [reflexivity|]. split; [reflexivity|]. split.
    + intros n1 Hn1. eexists. split; [apply Hmp; exact Hn1|]. cbn. tauto.
    + intros Hlt. eexists. split; [apply Hmp; lia|]. cbn [nMD5 set_nMD5].
      pose proof (Z.mod_pos_bound n0 (2 ^ 64) ltac:(lia)) as Hb.
      rewrite <- (Z.add_mod_idemp_l n0 4294967295 (2 ^ 64)) by lia.
      rewrite (Z.mod_small (n0 mod 2 ^ 64 + 4294967295)) by lia.
      replace (n0 mod 2 ^ 64 + 4294967295)
        with (n0 mod 2 ^ 64 + 1 * 4294967295) by lia.
      apply Z.mod_add. lia.
  - eexists. eexists. split; [apply Hmp; lia|]. split; [reflexivity|].
    split; [apply Hmp; lia|]. reflexivity.
  - eexists. split; [reflexivity|]. reflexivity.
Qed.

Lemma InitRNGSeedMP_MD5_reduced_witness :
  exists x' : rngcontext Z Z,
    InitRNGSeedMP (L := sample_library) 4294967295 RNG_MD5 ctx0 = Some (x', [])
    /\ nMD5 x' = (4294967295 mod 2 ^ 64) mod 4294967295.
Proof.
  destruct (InitRNGSeedMP_MD5_reduced sample_library sample_long_seeds
              4294967295 ctx0 ltac:(lia)) as ((x' & H & Hn & _) & _).
  exists x'. split; [exact H|exact Hn].
Defined.

Section LongSeedWords.

Context {L : Library} {LS : LongSeedLibrary L}.

Abbreviation ctx := (rngcontext randctx sfmt_t).

Lemma fold_left_pointwise {A : Type} (f g : A -> nat -> A) (l : list nat) :
  (forall (a : A) (i : nat), In i l -> f a i = g a i) ->
  forall a : A, fold_left f l a = fold_left g l a.
Proof.
  induction l as [|h l IH]; intros H a; [reflexivity|].
  cbn [fold_left]. rewrite (H a h (or_introl eq_refl)).
  apply IH. intros a' i Hi. apply H. right. exact Hi.
Qed.

Lemma map_seq_zero (f : nat -> Z) (m : nat) :
  forall k : nat,
    (forall i : nat, (k <= i < k + m)%nat -> f i = 0) ->
    map f (seq k m) = repeat 0 m.
Proof.
  induction m as [|m IH]; intros k H; [reflexivity|].
  cbn [seq map repeat]. rewrite (H k ltac:(lia)). f_equal.
  apply IH. intros i Hi. apply H. lia.
Qed.

Lemma mt_key_words (v : Z) :
  mt_key (mpz_export32 v) = map (word32 v) (seq 0 SFMT_N32).
Proof.
  unfold mt_key.
  set (words := mpz_export32 v).
  set (k := Nat.min SFMT_N32 (List.length words)).
  assert (Hk : (k <= SFMT_N32)%nat) by (unfold k; lia).
  replace SFMT_N32 with (k + (SFMT_N32 - k))%nat at 2 by lia.
  rewrite seq_app, map_app. cbn [Nat.add]. f_equal.
  - apply map_ext. intros i. apply export_nth.
  - symmetry. apply map_seq_zero. intros i Hi.
    rewrite <- export_nth. fold words. apply nth_overflow. unfold k in Hi. lia.
Qed.

Lemma copy_words_export {A : Type} (store : A -> nat -> Z -> A) (size : nat)
  (v : Z) (a : A) :
  copy_words store size (mpz_export32 v) a
  = fold_left (fun a' i => store a' i (word32 v i)) (seq 0 size) a.
Proof.
  rewrite copy_words_cells. apply fold_left_pointwise.
  intros a' i _. rewrite export_nth. reflexivity.
Qed.

Lemma above_UINT_MAX (v : Z) : (mpz_cmp_ui v UINT_MAX >? 0) = (UINT_MAX <? v).
Proof.
  unfold mpz_cmp_ui. destruct (UINT_MAX <? v) eqn:E.
  - apply Z.ltb_lt in E. rewrite (Z.sgn_pos (v - UINT_MAX)) by lia. reflexivity.
  - apply Z.ltb_ge in E. pose proof (Z.sgn_nonpos (v - UINT_MAX)).
    destruct (Z.sgn (v - UINT_MAX) >? 0) eqn:Eg; [|reflexivity].
    apply Z.gtb_lt in Eg. lia.
Qed.

End LongSeedWords.

(** X15.  A long seed reaches ISAAC word by word: cell [i] of its seed
    array gets the [i]-th 32-bit word of the seed, for each of the
    [RANDSIZ] cells, so that the bits of the seed from [32 * RANDSIZ]
    on are not used.  The Mersenne Twister is keyed in the same way
    with [SFMT_N32] words when the seed is above [UINT_MAX], and is
    seeded as by [InitRNGSeed] when it is not. *)
Theorem InitRNGSeedMP_words :
  forall (L : Library) (LS : LongSeedLibrary L) (n0 : Z)
         (x : rngcontext randctx sfmt_t),
    0 <= n0 ->
    InitRNGSeedMP n0 RNG_ISAAC x
    = Some (set_rc (set_c (set_nz x n0) 0)
              (irandinit (fold_left (fun r i => randrsl_set r i (word32 n0 i))
                                    (seq 0 RANDSIZ) (rc x)) true), [])
    /\ (forall m : Z, 0 <= m ->
          InitRNGSeedMP (n0 + m * 2 ^ (32 * Z.of_nat RANDSIZ)) RNG_ISAAC x
          = Some (set_rc (set_c (set_nz x (n0 + m * 2 ^ (32 * Z.of_nat RANDSIZ))) 0)
                    (irandinit (fold_left (fun r i => randrsl_set r i (word32 n0 i))
                                          (seq 0 RANDSIZ) (rc x)) true), []))
    /\ (UINT_MAX < n0 ->
        InitRNGSeedMP n0 RNG_MERSENNE x
        = Some (set_sfmt (set_c (set_nz x n0) 0)
                  (sfmt_init_by_array (sfmt x) (map (word32 n0) (seq 0 SFMT_N32))),
                []))
    /\ (n0 <= UINT_MAX ->
        InitRNGSeedMP n0 RNG_MERSENNE x
        = InitRNGSeed n0 RNG_MERSENNE (set_c (set_nz x n0) 0)).
Proof.
  intros L LS n0 x Hn.
  assert (Hisaac : forall v : Z,
            InitRNGSeedMP v RNG_ISAAC x
            = Some (set_rc (set_c (set_nz x v) 0)
                      (irandinit (fold_left (fun r i => randrsl_set r i (word32 v i))
                                            (seq 0 RANDSIZ) (rc x)) true), [])).
  { intros v. unfold InitRNGSeedMP. rewrite copy_words_export. reflexivity. }
  split; [apply Hisaac|]. split; [|split].
  - intros m Hm. rewrite Hisaac. do 3 f_equal. f_equal.
    apply fold_left_pointwise. intros r i Hi. apply in_seq in Hi.
    rewrite (word32_high_bits n0 m RANDSIZ i Hn Hm ltac:(lia)). reflexivity.
  - intros Hbig. unfold InitRNGSeedMP. rewrite above_UINT_MAX.
    apply Z.ltb_lt in Hbig. rewrite Hbig. rewrite mt_key_words. reflexivity.
  - intros Hsmall. unfold InitRNGSeedMP. rewrite above_UINT_MAX.
    destruct (UINT_MAX <? n0) eqn:E; [apply Z.ltb_lt in E; lia|].
    assert (Hu : u32 (mpz_get_ui n0) = n0).
    { unfold mpz_get_ui, u64, u32, UINT_MAX in *. rewrite Z.abs_eq by exact Hn.
      rewrite (Z.mod_small n0 (2 ^ 64)) by lia. apply Z.mod_small. lia. }
    rewrite Hu. reflexivity.
Qed.

Lemma InitRNGSeedMP_words_witness :
  InitRNGSeedMP (L := sample_library) (7 + 3 * 2 ^ 64) RNG_MERSENNE ctx0
  = Some (set_sfmt (L := sample_library)
            (set_c (L := sample_library)
               (set_nz (L := sample_library) ctx0 (7 + 3 * 2 ^ 64)) 0)
            (sfmt_init_by_array (L := sample_library) (sfmt ctx0)
               (map (word32 (7 + 3 * 2 ^ 64)) (seq 0 SFMT_N32))), []).
Proof.
  destruct (InitRNGSeedMP_words sample_library sample_long_seeds (7 + 3 * 2 ^ 64)
              ctx0 ltac:(lia)) as (_ & _ & H & _).
  apply H. unfold UINT_MAX. lia.
Defined.

(** ** The seed from the system, and the seed that is shown *)

Section SystemSeed.

Context {L : Library} {LS : LongSeedLibrary L}.

Abbreviation ctx := (rngcontext randctx sfmt_t).

Lemma clock_seed_range (tv : Z) : 0 <= clock_seed tv < 2 ^ 32.
Proof. unfold clock_seed. cbv zeta. apply u32_range. Qed.

Lemma kept_by_seed_set_nz (k : rng) (x y : ctx) (v : Z) :
  kept_by_seed k x y -> kept_by_seed k x (set_nz y v).
Proof. unfold kept_by_seed. cbn. tauto. Qed.

Lemma RNGSystemSeed_by_clock (k : rng) (x : ctx) (want : bool)
  (device : option (list Z)) (tv : Z) :
  want = true \/ device = None ->
  RNGSystemSeed k x want device tv
  = ('(x1, out) <- InitRNGSeed (clock_seed tv) k x ;;
     Some (false, set_nz x1 (clock_seed tv), out,
           if want then Some (clock_seed tv) else None)).
Proof.
  intros [->| ->]; unfold RNGSystemSeed; [reflexivity|].
  destruct want; reflexivity.
Qed.

Lemma RNGSystemSeed_by_device (k : rng) (x : ctx) (words : list Z) (tv : Z) :
  RNGSystemSeed k x false (Some words) tv
  = ('(x1, out) <- InitRNGSeedMP (mpz_import32 words) k x ;;
     Some (true, x1, out, None)).
Proof. reflexivity. Qed.

End SystemSeed.

(** X16.  [RNGSystemSeed] asked to hand back the seed never reads the
    device: it seeds from the clock as [InitRNGSeed] does, returns FALSE
    and hands back that seed, a 32-bit number, which is also the long
    seed then kept.  Not asked, it seeds from the 16 words of the device
    when they can be read and returns TRUE, the long seed kept being the
    number that the words make, and from the clock otherwise.  In each
    case the counter is 0 and no field changes but the seeds and the
    state of the generator of that kind. *)
Theorem RNGSystemSeed_result :
  forall (L : Library) (LS : LongSeedLibrary L) (k : rng)
         (x x' : rngcontext randctx sfmt_t) (want : bool)
         (device : option (list Z)) (tv : Z) (f : bool) (out : list event)
         (pn : option Z),
    RNGSystemSeed k x want device tv = Some (f, x', out, pn) ->
    c x' = 0 /\ kept_by_seed k x x'
    /\ (want = true -> RNGSystemSeed k x want None tv = Some (f, x', out, pn))
    /\ ((f = false /\ (want = true \/ device = None)
         /\ nz x' = clock_seed tv /\ n x' = clock_seed tv
         /\ 0 <= clock_seed tv < 2 ^ 32
         /\ pn = (if want then Some (clock_seed tv) else None))
        \/ (f = true /\ want = false /\ pn = None
            /\ exists words : list Z,
                device = Some words /\ nz x' = mpz_import32 words
                /\ 0 <= nz x' < 2 ^ (32 * Z.of_nat (List.length words)))).
Proof.
  intros L LS k x x' want device tv f out pn H.
  assert (Hclock : want = true \/ device = None ->
            c x' = 0 /\ kept_by_seed k x x'
            /\ f = false /\ nz x' = clock_seed tv /\ n x' = clock_seed tv
            /\ pn = (if want then Some (clock_seed tv) else None)).
  { intros Hw. rewrite (RNGSystemSeed_by_clock k x want device tv Hw) in H.
    destruct (InitRNGSeed (clock_seed tv) k x) as [[x1 o]|] eqn:Ei; [|discriminate].
    cbn [bind] in H. inversion H; subst f x' out pn.
    apply InitRNGSeed_fields in Ei. destruct Ei as (Hc & Hn & _ & Hk & _).
    split; [exact Hc|]. split; [apply kept_by_seed_set_nz; exact Hk|].
    split; [reflexivity|]. split; [reflexivity|]. split; [|reflexivity].
    cbn. rewrite Hn. unfold u32. apply Z.mod_small. apply clock_seed_range. }
  destruct want.
  - destruct (Hclock (or_introl eq_refl)) as (Hc & Hk & Hf & Hnz & Hn & Hp).
    split; [exact Hc|]. split; [exact Hk|]. split; [intros _; exact H|].
    left. split; [exact Hf|]. split; [left; reflexivity|].
    split; [exact Hnz|]. split; [exact Hn|].
    split; [apply clock_seed_range|exact Hp].
  - destruct device as [words|].
    + rewrite RNGSystemSeed_by_device in H.
      destruct (InitRNGSeedMP (mpz_import32 words) k x) as [[x1 o]|] eqn:Em;
        [|discriminate].
      cbn [bind] in H. inversion H; subst f x1 o pn.
      apply InitRNGSeedMP_fields in Em. destruct Em as (Hc & Hnz & Hk & _).
      split; [exact Hc|]. split; [exact Hk|]. split; [discriminate|].
      right. split; [reflexivity|]. split; [reflexivity|]. split; [reflexivity|].
      exists words. split; [reflexivity|]. split; [exact Hnz|].
      rewrite Hnz. split; [apply import_nonneg|apply import_bound].
    + destruct (Hclock (or_intror eq_refl)) as (Hc & Hk & Hf & Hnz & Hn & Hp).
      split; [exact Hc|]. split; [exact Hk|]. split; [discriminate|].
      left. split; [exact Hf|]. split; [right; reflexivity|].
      split; [exact Hnz|]. split; [exact Hn|].
      split; [apply clock_seed_range|exact Hp].
Qed.

Lemma RNGSystemSeed_result_witness :
  RNGSystemSeed (L := sample_library) RNG_MERSENNE ctx0 true (Some [1; 2]) (2 ^ 33 + 5)
  = Some (false,
          set_nz (L := sample_library)
            (set_sfmt (L := sample_library)
               (set_c (L := sample_library) (set_n (L := sample_library) ctx0 7) 0) 7) 7,
          [], Some 7)
  /\ clock_seed (2 ^ 33 + 5) = 7
  /\ RNGSystemSeed (L := sample_library) RNG_MERSENNE ctx0 true None (2 ^ 33 + 5)
     = Some (false,
             set_nz (L := sample_library)
               (set_sfmt (L := sample_library)
                  (set_c (L := sample_library) (set_n (L := sample_library) ctx0 7) 0)
                  7) 7,
             [], Some 7).
Proof.
  assert (H : RNGSystemSeed (L := sample_library) RNG_MERSENNE ctx0 true
                (Some [1; 2]) (2 ^ 33 + 5)
              = Some (false,
                      set_nz (L := sample_library)
                        (set_sfmt (L := sample_library)
                           (set_c (L := sample_library)
                              (set_n (L := sample_library) ctx0 7) 0) 7) 7,
                      [], Some 7)) by reflexivity.
  split; [exact H|]. split; [reflexivity|].
  destruct (RNGSystemSeed_result sample_library sample_long_seeds RNG_MERSENNE
              ctx0 _ true (Some [1; 2]) (2 ^ 33 + 5) false [] (Some 7) H)
    as (_ & _ & Hd & _).
  exact (Hd eq_refl).
Defined.

(** X17.  What [PrintRNGSeed] shows for ISAAC and the Mersenne Twister is
    the long seed kept in the context.  After [InitRNGSeedLong] has
    returned 0 that is the number of the string, whole, and after
    [RNGSystemSeed] seeded from the clock it is that seed; but
    [InitRNGSeed] alone leaves what is shown as it was before.  When
    [RNGSystemSeed] has seeded ISAAC from the device, cell [i] of the
    seed array holds the [i]-th word of the device. *)
Theorem PrintRNGSeed_after_seeding :
  forall (L : Library) (LS : LongSeedLibrary L) (k : rng)
         (x : rngcontext randctx sfmt_t),
    k = RNG_ISAAC \/ k = RNG_MERSENNE ->
    (forall (sz : string) (x' : rngcontext randctx sfmt_t) (out : list event),
        InitRNGSeedLong sz k x = Some (0, x', out) ->
        exists n0 : Z, mpz_set_str sz = Some n0 /\ PrintRNGSeed k x' = [ShSeed n0])
    /\ (forall (n0 : Z) (x' : rngcontext randctx sfmt_t) (out : list event),
           InitRNGSeed n0 k x = Some (x', out) ->
           PrintRNGSeed k x' = PrintRNGSeed k x)
    /\ (forall (want : bool) (device : option (list Z)) (tv : Z)
               (x' : rngcontext randctx sfmt_t) (out : list event) (pn : option Z),
           RNGSystemSeed k x want device tv = Some (false, x', out, pn) ->
           PrintRNGSeed k x' = [ShSeed (clock_seed tv)])
    /\ (forall (words : list Z) (tv : Z),
           RNGSystemSeed RNG_ISAAC x false (Some words) tv
           = Some (true,
                   set_rc (set_c (set_nz x (mpz_import32 words)) 0)
                     (irandinit
                        (fold_left (fun r i => randrsl_set r i (u32 (nth i words 0)))
                                   (seq 0 RANDSIZ) (rc x)) true),
                   [], None)).
Proof.
  intros L LS k x Hk.
  assert (Hshow : forall y : rngcontext randctx sfmt_t,
            PrintRNGSeed k y = [ShSeed (nz y)]).
  { intros y. destruct Hk as [-> | ->]; reflexivity. }
  split; [|split; [|split]].
  - intros sz x' out H. unfold InitRNGSeedLong in H.
    destruct (mpz_set_str sz) as [n0|]; [|discriminate].
    destruct (mpz_sgn n0 <? 0); [discriminate|].
    destruct (InitRNGSeedMP n0 k x) as [[y o]|] eqn:Em; [|discriminate].
    cbn [bind] in H. inversion H; subst y o.
    apply InitRNGSeedMP_fields in Em. destruct Em as (_ & Hnz & _).
    exists n0. split; [reflexivity|]. rewrite Hshow, Hnz. reflexivity.
  - intros n0 x' out H. apply InitRNGSeed_fields in H.
    destruct H as (_ & _ & Hnz & _). rewrite !Hshow, Hnz. reflexivity.
  - intros want device tv x' out pn H.
    assert (Hw : want = true \/ device = None).
    { destruct want; [left; reflexivity|]. destruct device as [words|];
        [|right; reflexivity].
      rewrite RNGSystemSeed_by_device in H.
      destruct (InitRNGSeedMP (mpz_import32 words) k x) as [[y o]|];
        discriminate. }
    rewrite (RNGSystemSeed_by_clock k x want device tv Hw) in H.
    destruct (InitRNGSeed (clock_seed tv) k x) as [[x1 o]|]; [|discriminate].
    cbn [bind] in H. inversion H; subst. rewrite Hshow. reflexivity.
  - intros words tv. rewrite RNGSystemSeed_by_device.
    unfold InitRNGSeedMP. rewrite copy_words_export. cbn [bind].
    do 4 f_equal. f_equal. f_equal.
    apply fold_left_pointwise. intros r i _. rewrite import_word. reflexivity.
Qed.

Lemma PrintRNGSeed_after_seeding_witness :
  PrintRNGSeed (L := sample_library) RNG_MERSENNE
    (set_sfmt (L := sample_library)
       (set_c (L := sample_library) (set_n (L := sample_library) ctx0 7) 0) 7)
  = PrintRNGSeed (L := sample_library) RNG_MERSENNE ctx0.
Proof.
  destruct (PrintRNGSeed_after_seeding sample_library sample_long_seeds RNG_MERSENNE
              ctx0 (or_intror eq_refl)) as (_ & H & _).
  exact (H 7 _ [] eq_refl).
Defined.

(** ** Opening the dice file *)

(** X18.  [OpenDiceFile] records the name whether or not the file could
    be opened; [GetDiceFileName] and [PrintRNGSeed] for the file kind
    give it back.  When the file could not be opened a roll of the file
    kind reads the failure value twice and so falls back.  When it was
    opened and holds a face, the first roll gives the first two faces of
    the file; the first is found without rewinding, and a rewinding for
    the second is printed with the recorded name. *)
Theorem OpenDiceFile_then_roll :
  forall (L : Library) (fuel : nat) (x : rngcontext randctx sfmt_t) (w : world)
         (sz : string) (opened : option FILE),
    fst (OpenDiceFile x sz opened) = opened
    /\ GetDiceFileName (snd (OpenDiceFile x sz opened)) = Some sz
    /\ PrintRNGSeed RNG_FILE (snd (OpenDiceFile x sz opened))
       = [ShReadingFile (Some sz)]
    /\ (opened = None ->
        roll_switch fuel RNG_FILE (snd (OpenDiceFile x sz opened)) w
        = Some (UINT_MINUS_ONE, UINT_MINUS_ONE,
                count2 (snd (OpenDiceFile x sz opened)), w, [])
        /\ out_of_range (UINT_MINUS_ONE, UINT_MINUS_ONE) = true)
    /\ (forall (bytes : list byte) (i0 : nat) (rew0 : bool),
           opened = Some (reading bytes 0) ->
           next_face bytes 0 = Some (i0, rew0) ->
           (2 * List.length bytes + 1 <= fuel)%nat ->
           rew0 = false
           /\ exists (i1 : nat) (rew1 : bool) (b0 b1 : byte),
               next_face bytes (S i0) = Some (i1, rew1)
               /\ nth_error bytes i0 = Some b0 /\ nth_error bytes i1 = Some b1
               /\ in_range (face_of b0, face_of b1)
               /\ RollDice (S fuel) RNG_FILE (snd (OpenDiceFile x sz opened)) w
                  = Some (mkrolled 0 (face_of b0, face_of b1) RNG_FILE
                            (count2 (set_fDice (snd (OpenDiceFile x sz opened))
                                       (Some (reading bytes (S i1))))) w
                            (if rew1 then [EvRewinding (Some sz)] else []))).
Proof.
  intros L fuel x w sz opened.
  split; [reflexivity|]. split; [reflexivity|]. split; [reflexivity|]. split.
  - intros ->. split; [|reflexivity]. reflexivity.
  - intros bytes i0 rew0 -> Hn Hfuel.
    assert (Hr : rew0 = false).
    { unfold next_face in Hn. destruct (find_face bytes 0); inversion Hn; reflexivity. }
    split; [exact Hr|]. subst rew0.
    destruct (RollDice_FILE_reading fuel
                (snd (OpenDiceFile x sz (Some (reading bytes 0)))) w bytes 0 i0 false
                eq_refl Hn Hfuel)
      as (i1 & rew1 & b0 & b1 & H1 & H2 & H3 & H4 & H5).
    exists i1, rew1, b0, b1. repeat (split; [assumption|]). exact H5.
Qed.

Lemma OpenDiceFile_then_roll_witness :
  roll_switch (L := sample_library) 5 RNG_FILE
    (snd (OpenDiceFile (L := sample_library) ctx0 "dice.txt" None)) tt
  = Some (UINT_MINUS_ONE, UINT_MINUS_ONE,
          count2 (L := sample_library)
            (snd (OpenDiceFile (L := sample_library) ctx0 "dice.txt" None)), tt, [])
  /\ out_of_range (UINT_MINUS_ONE, UINT_MINUS_ONE) = true.
Proof.
  destruct (OpenDiceFile_then_roll sample_library 5 ctx0 tt
              "dice.txt" None) as (_ & _ & _ & H & _).
  exact (H eq_refl).
Defined.

(** ** A new context *)

(** X19.  [InitRNG] returns NULL when no memory is to be had.  Asked to
    seed the new context for BBS it does not return: the context is new,
    its BBS part is not set up, and the assertion of the seeding fails,
    whatever the device and the clock give.  For every other kind it
    returns a context with the counter 0, no dice file and the BBS part
    not set up, and reports TRUE exactly when it was asked to seed, was
    not asked for the seed, and read the device.  Not asked to seed, it
    returns the new context as it is. *)
Theorem InitRNG_result :
  forall (L : Library) (LS : LongSeedLibrary L) (FS : FreshStates L)
         (want fSet : bool) (rngx : rng) (device : option (list Z)) (tv : Z),
    InitRNG false want fSet rngx device tv = Some None
    /\ InitRNG true want true RNG_BBS device tv = None
    /\ InitRNG true want false rngx device tv
       = Some (Some (fresh_context, false, [], None))
    /\ (rngx <> RNG_BBS ->
        exists (x : rngcontext randctx sfmt_t) (f : bool) (pn : option Z),
          InitRNG true want fSet rngx device tv = Some (Some (x, f, [], pn))
          /\ c x = 0 /\ fDice x = None /\ fZInit x = false
          /\ f = (fSet && negb want
                  && match device with Some _ => true | None => false end)%bool
          /\ forall n0 : Z, InitRNGSeed n0 RNG_BBS x = None).
Proof.
  intros L LS FS want fSet rngx device tv.
  split; [reflexivity|]. split.
  { unfold InitRNG, RNGSystemSeed.
    assert (Hs : forall v : Z, InitRNGSeed v RNG_BBS fresh_context = None)
      by (intros v; apply InitRNGSeed_BBS_aborts; reflexivity).
    assert (Hm : forall v : Z, InitRNGSeedMP v RNG_BBS fresh_context = None)
      by reflexivity.
    rewrite Hs. destruct want; [reflexivity|].
    destruct device as [words|]; [rewrite Hm|]; reflexivity. }
  split; [reflexivity|].
  intros Hk. unfold InitRNG. destruct fSet.
  - destruct (RNGSystemSeed rngx fresh_context want device tv)
      as [[[[f x] out] pn]|] eqn:Es.
    + cbn [bind].
      assert (Hout : out = []).
      { unfold RNGSystemSeed in Es.
        assert (Hclock : forall y o p,
                  ('(x1, out0) <- InitRNGSeed (clock_seed tv) rngx fresh_context ;;
                   Some (false, set_nz x1 (clock_seed tv), out0, p))
                  = Some (f, y, o, pn) -> o = []).
        { intros y o p Hc.
          destruct (InitRNGSeed (clock_seed tv) rngx fresh_context)
            as [[x1 o1]|] eqn:Ei; [|discriminate].
          cbn [bind] in Hc. inversion Hc; subst.
          apply InitRNGSeed_fields in Ei.
          destruct Ei as (_ & _ & _ & _ & [Ho|(Hb & _)]); [exact Ho|contradiction]. }
        destruct want; [exact (Hclock _ _ _ Es)|].
        destruct device as [words|]; [|exact (Hclock _ _ _ Es)].
        destruct (InitRNGSeedMP (mpz_import32 words) rngx fresh_context)
          as [[x1 o1]|] eqn:Em; [|discriminate].
        cbn [bind] in Es. inversion Es; subst.
        apply InitRNGSeedMP_fields in Em.
        destruct Em as (_ & _ & _ & [Ho|(Hb & _)]); [exact Ho|contradiction]. }
      subst out. exists x, f, pn. split; [reflexivity|].
      assert (Hkept : c x = 0 /\ kept_by_seed rngx fresh_context x
                      /\ f = (negb want
                              && match device with Some _ => true | None => false end)%bool).
      { unfold RNGSystemSeed in Es.
        assert (Hclock : forall p,
                  ('(x1, out0) <- InitRNGSeed (clock_seed tv) rngx fresh_context ;;
                   Some (false, set_nz x1 (clock_seed tv), out0, p))
                  = Some (f, x, [], pn) ->
                  c x = 0 /\ kept_by_seed rngx fresh_context x /\ f = false).
        { intros p Hc.
          destruct (InitRNGSeed (clock_seed tv) rngx fresh_context)
            as [[x1 o1]|] eqn:Ei; [|discriminate].
          cbn [bind] in Hc. inversion Hc; subst.
          apply InitRNGSeed_fields in Ei. destruct Ei as (Hc0 & _ & _ & Hkp & _).
          split; [exact Hc0|]. split; [|reflexivity].
          apply kept_by_seed_set_nz. exact Hkp. }
        destruct want.
        - destruct (Hclock _ Es) as (A & B & C). auto.
        - destruct device as [words|].
          + destruct (InitRNGSeedMP (mpz_import32 words) rngx fresh_context)
              as [[x1 o1]|] eqn:Em; [|discriminate].
            cbn [bind] in Es. inversion Es; subst.
            apply InitRNGSeedMP_fields in Em. destruct Em as (Hc0 & _ & Hkp & _).
            auto.
          + destruct (Hclock _ Es) as (A & B & C). auto. }
      destruct Hkept as (Hc & Hkp & Hf).
      destruct Hkp as (K1 & _ & _ & _ & _ & K6 & _).
      split; [exact Hc|]. split; [exact K1|]. split; [exact K6|].
      split; [exact Hf|].
      intros n0. apply InitRNGSeed_BBS_aborts. exact K6.
    + exfalso. unfold RNGSystemSeed in Es.
      destruct (InitRNGSeedMP_returns (mpz_import32 match device with
                                                     | Some ws => ws
                                                     | None => []
                                                     end) rngx fresh_context Hk)
        as (y & o & Hy).
      assert (Hi : exists y' o', InitRNGSeed (clock_seed tv) rngx fresh_context
                                 = Some (y', o')).
      { unfold InitRNGSeed. destruct rngx; try congruence;
          eexists; eexists; reflexivity. }
      destruct Hi as (y' & o' & Hi). rewrite Hi in Es. cbn [bind] in Es.
      destruct want; [discriminate|].
      destruct device as [words|]; [|discriminate].
      rewrite Hy in Es. discriminate.
  - exists fresh_context, false, None. split; [reflexivity|].
    split; [reflexivity|]. split; [reflexivity|]. split; [reflexivity|].
    split; [reflexivity|]. intros n0. apply InitRNGSeed_BBS_aborts. reflexivity.
Qed.

Lemma InitRNG_result_witness :
  exists (x : rngcontext Z Z) (f : bool) (pn : option Z),
    InitRNG (L := sample_library) true false true RNG_MERSENNE (Some [1; 2]) 0
    = Some (Some (x, f, [], pn))
    /\ c x = 0 /\ f = true.
Proof.
  destruct (InitRNG_result sample_library sample_long_seeds sample_fresh
              false true RNG_MERSENNE (Some [1; 2]) 0) as (_ & _ & _ & H).
  destruct (H ltac:(discriminate)) as (x & f & pn & He & Hc & _ & _ & Hf & _).
  exists x, f, pn. split; [exact He|]. split; [exact Hc|exact Hf].
Defined.

(** ** The dice file is played round and round *)

Section Replay.

Context {L : Library}.

Abbreviation ctx := (rngcontext randctx sfmt_t).

Lemma skipn_nth_error (bytes : list byte) :
  forall (p : nat) (b : byte),
    nth_error bytes p = Some b -> skipn p bytes = b :: skipn (S p) bytes.
Proof.
  induction bytes as [|h t IH]; intros p b H.
  - destruct p; discriminate.
  - destruct p as [|p]; cbn in H.
    + inversion H. reflexivity.
    + cbn [skipn]. rewrite (IH p b H). reflexivity.
Qed.

Lemma find_face_step (bytes : list byte) (p : nat) (b : byte) :
  nth_error bytes p = Some b ->
  find_face bytes p = if is_face b then Some p else find_face bytes (S p).
Proof.
  intros H. unfold find_face.
  assert (Hlt : (p < List.length bytes)%nat) by (apply nth_error_Some; congruence).
  replace (List.length bytes - p)%nat with (S (List.length bytes - S p)) by lia.
  cbn [seq find]. unfold face_at at 1. rewrite H. reflexivity.
Qed.

Lemma faces_ahead_find (bytes : list byte) (d : nat) :
  forall p : nat,
    (List.length bytes - p)%nat = d ->
    match faces_ahead bytes p with
    | b :: ahead' =>
        exists i : nat,
          find_face bytes p = Some i /\ nth_error bytes i = Some b
          /\ faces_ahead bytes (S i) = ahead'
    | [] => find_face bytes p = None
    end.
Proof.
  induction d as [|d IH]; intros p Hd.
  - unfold faces_ahead. rewrite skipn_all2 by lia. cbn [filter].
    unfold find_face. rewrite Hd. reflexivity.
  - destruct (nth_error bytes p) as [b|] eqn:Eb;
      [|apply nth_error_None in Eb; lia].
    unfold faces_ahead. rewrite (skipn_nth_error bytes p b Eb). cbn [filter].
    rewrite (find_face_step bytes p b Eb).
    destruct (is_face b) eqn:Ef.
    + exists p. auto.
    + apply (IH (S p)). lia.
Qed.

Lemma pop_face_next (bytes : list byte) (p : nat) (b : byte) (ahead' : list byte) :
  pop_face (file_faces bytes) (faces_ahead bytes p) = Some (b, ahead') ->
  exists (i : nat) (rew : bool),
    next_face bytes p = Some (i, rew) /\ nth_error bytes i = Some b
    /\ faces_ahead bytes (S i) = ahead'.
Proof.
  unfold pop_face, next_face. intros H.
  pose proof (faces_ahead_find bytes _ p eq_refl) as Hp.
  destruct (faces_ahead bytes p) as [|b1 a1].
  - rewrite Hp.
    pose proof (faces_ahead_find bytes _ 0 eq_refl) as H0.
    change (faces_ahead bytes 0) with (file_faces bytes) in H0.
    destruct (file_faces bytes) as [|b0 f0]; [discriminate|].
    inversion H; subst b0 f0. destruct H0 as (i & Hf & Hb & Ha).
    exists i, true. rewrite Hf. auto.
  - inversion H; subst b1 a1. destruct Hp as (i & Hf & Hb & Ha).
    exists i, false. rewrite Hf. auto.
Qed.

Lemma pop_face_is_face (bytes : list byte) (p : nat) (b : byte) (ahead' : list byte) :
  pop_face (file_faces bytes) (faces_ahead bytes p) = Some (b, ahead') ->
  is_face b = true.
Proof.
  unfold pop_face, file_faces, faces_ahead. intros H.
  destruct (filter is_face (skipn p bytes)) as [|b1 a1] eqn:E1.
  - destruct (filter is_face bytes) as [|b0 f0] eqn:E0; [discriminate|].
    inversion H; subst b0.
    assert (Hin : In b (filter is_face bytes)) by (rewrite E0; left; reflexivity).
    apply filter_In in Hin. tauto.
  - inversion H; subst b1.
    assert (Hin : In b (filter is_face (skipn p bytes)))
      by (rewrite E1; left; reflexivity).
    apply filter_In in Hin. tauto.
Qed.

Lemma ReadDiceFile_pop (fuel : nat) (x : ctx) (bytes : list byte) (p : nat)
  (b : byte) (ahead' : list byte) :
  fDice x = Some (reading bytes p) ->
  pop_face (file_faces bytes) (faces_ahead bytes p) = Some (b, ahead') ->
  (2 * List.length bytes + 1 <= fuel)%nat ->
  exists (p' : nat) (out : list event),
    ReadDiceFile fuel x
    = Some (face_of b, set_fDice x (Some (reading bytes p')), out)
    /\ faces_ahead bytes p' = ahead'.
Proof.
  intros Hx Hpop Hfuel.
  destruct (pop_face_next bytes p b ahead' Hpop) as (i & rew & Hn & Hb & Ha).
  destruct (ReadDiceFile_reading fuel x bytes p i rew Hx Hn Hfuel)
    as (b' & Hb' & _ & Hr).
  assert (b' = b) by congruence. subst b'.
  exists (S i). eexists. split; [exact Hr|exact Ha].
Qed.

Lemma pop_face_some (faces ahead : list byte) :
  faces <> [] -> exists (b : byte) (ahead' : list byte),
    pop_face faces ahead = Some (b, ahead').
Proof.
  intros Hf. unfold pop_face.
  destruct ahead as [|b a]; [|eexists; eexists; reflexivity].
  destruct faces as [|b f]; [contradiction|eexists; eexists; reflexivity].
Qed.

Lemma ReadDiceFile_times_replay (fuel : nat) (bytes : list byte) (k : nat) :
  file_faces bytes <> [] ->
  (2 * List.length bytes + 1 <= fuel)%nat ->
  forall (x : ctx) (p : nat),
    fDice x = Some (reading bytes p) ->
    exists p' : nat,
      ReadDiceFile_times fuel k x
      = Some (replay (file_faces bytes) (faces_ahead bytes p) k,
              set_fDice x (Some (reading bytes p'))).
Proof.
  intros Hf Hfuel. induction k as [|k IH]; intros x p Hx.
  - exists p. cbn [ReadDiceFile_times replay].
    rewrite (set_fDice_same x _ Hx). reflexivity.
  - destruct (pop_face_some (file_faces bytes) (faces_ahead bytes p) Hf)
      as (b & ahead' & Hpop).
    destruct (ReadDiceFile_pop fuel x bytes p b ahead' Hx Hpop Hfuel)
      as (p1 & out & Hr & Ha).
    destruct (IH (set_fDice x (Some (reading bytes p1))) p1 eq_refl) as (p' & Ht).
    exists p'. cbn [ReadDiceFile_times replay]. rewrite Hr. cbn [bind].
    rewrite Ht. cbn [bind]. rewrite Hpop, Ha. reflexivity.
Qed.

Lemma RollDice_times_replay (fuel : nat) (bytes : list byte) (k : nat) :
  file_faces bytes <> [] ->
  (2 * List.length bytes + 1 <= fuel)%nat ->
  forall (x : ctx) (w : world) (p : nat),
    fDice x = Some (reading bytes p) ->
    exists x' : ctx,
      RollDice_times (S fuel) k RNG_FILE x w
      = Some (pair_up (replay (file_faces bytes) (faces_ahead bytes p) (2 * k)),
              RNG_FILE, x', w).
Proof.
  intros Hf Hfuel. induction k as [|k IH]; intros x w p Hx.
  - exists x. reflexivity.
  - destruct (pop_face_some (file_faces bytes) (faces_ahead bytes p) Hf)
      as (b0 & a0 & Hpop0).
    destruct (ReadDiceFile_pop fuel x bytes p b0 a0 Hx Hpop0 Hfuel)
      as (p1 & out0 & Hr0 & Ha0).
    destruct (pop_face_some (file_faces bytes) (faces_ahead bytes p1) Hf)
      as (b1 & a1 & Hpop1).
    destruct (ReadDiceFile_pop fuel (set_fDice x (Some (reading bytes p1))) bytes p1
                b1 a1 eq_refl Hpop1 Hfuel)
      as (p2 & out1 & Hr1 & Ha1).
    assert (Hin : in_range (face_of b0, face_of b1)).
    { split; cbn [fst snd];
        [apply is_face_range; exact (pop_face_is_face bytes p b0 a0 Hpop0)
        |apply is_face_range; exact (pop_face_is_face bytes p1 b1 a1 Hpop1)]. }
    assert (Hroll : RollDice (S fuel) RNG_FILE x w
              = Some (mkrolled 0 (face_of b0, face_of b1) RNG_FILE
                        (count2 (set_fDice x (Some (reading bytes p2)))) w
                        (out0 ++ out1))).
    { apply (RollDice_direct fuel RNG_FILE x _ w w (face_of b0, face_of b1));
        [discriminate| |exact Hin].
      cbn [roll_switch fst snd]. rewrite Hr0. cbn [bind]. rewrite Hr1. reflexivity. }
    destruct (IH (count2 (set_fDice x (Some (reading bytes p2)))) w p2 eq_refl)
      as (x' & Ht).
    exists x'. cbn [RollDice_times]. rewrite Hroll. cbn [bind kind rctx rworld anDice].
    rewrite Ht. cbn [bind].
    replace (2 * S k)%nat with (S (S (2 * k))) by lia.
    cbn [replay]. rewrite Hpop0, Ha0 in *. rewrite Hpop1. cbn [pair_up].
    rewrite Ha1. reflexivity.
Qed.

End Replay.

Section Cyclic.

Lemma replay_cyclic (faces : list byte) (k : nat) :
  faces <> [] ->
  forall j : nat,
    (j <= List.length faces)%nat ->
    replay faces (skipn j faces) k
    = map (fun t => face_of (nth ((j + t) mod List.length faces) faces x00))
          (seq 0 k).
Proof.
  intros Hf. set (m := List.length faces).
  assert (Hm : (0 < m)%nat).
  { unfold m. destruct faces; [contradiction|cbn; lia]. }
  induction k as [|k IH]; intros j Hj; [reflexivity|].
  rewrite <- cons_seq, <- seq_shift, map_cons, map_map.
  cbn [replay].
  destruct (Nat.eq_dec j m) as [->|Hne].
  - unfold m at 1. rewrite skipn_all. unfold pop_face.
    destruct faces as [|b0 f0] eqn:Ef; [contradiction|].
    rewrite <- Ef in *. fold m.
    rewrite Nat.add_0_r, Nat.Div0.mod_same.
    assert (H0 : nth 0 faces x00 = b0) by (rewrite Ef; reflexivity).
    rewrite H0. f_equal.
    assert (Hs : f0 = skipn 1 faces) by (rewrite Ef; reflexivity).
    rewrite Hs. rewrite (IH 1%nat ltac:(lia)).
    apply map_ext. intros t. do 2 f_equal.
    replace (m + S t)%nat with (1 + t + 1 * m)%nat by lia.
    symmetry. apply Nat.Div0.mod_add.
  - assert (Hlt : (j < m)%nat) by lia.
    destruct (nth_error faces j) as [b|] eqn:Eb;
      [|apply nth_error_None in Eb; unfold m in Hlt; lia].
    assert (Hsk : skipn j faces = b :: skipn (S j) faces).
    { clear -Eb. revert j Eb. induction faces as [|h t IH]; intros j Eb.
      - destruct j; discriminate.
      - destruct j as [|j]; cbn in Eb.
        + inversion Eb. reflexivity.
        + cbn [skipn]. rewrite (IH j Eb). reflexivity. }
    rewrite Hsk. cbn [pop_face].
    rewrite Nat.add_0_r, (Nat.mod_small j m Hlt).
    rewrite (nth_error_nth faces j x00 Eb). f_equal.
    rewrite (IH (S j) ltac:(lia)).
    apply map_ext. intros t. do 2 f_equal. f_equal. lia.
Qed.

Lemma cyclic_face_range (bytes : list byte) (t : nat) :
  file_faces bytes <> [] -> 1 <= cyclic_face bytes t <= 6.
Proof.
  intros Hf. unfold cyclic_face.
  assert (Hm : (0 < List.length (file_faces bytes))%nat).
  { destruct (file_faces bytes); [contradiction|cbn; lia]. }
  assert (Hin : In (nth (t mod List.length (file_faces bytes)) (file_faces bytes) x00)
                   (file_faces bytes)).
  { apply nth_In. apply Nat.mod_upper_bound. lia. }
  unfold file_faces in Hin at 2. apply filter_In in Hin.
  apply is_face_range. tauto.
Qed.

End Cyclic.

(** X20.  A dice file that reads without failure and holds [m >= 1]
    faces is played round and round: from the start of the file the
    [t]-th read gives face number [t mod m] of the file, a face from 1
    to 6, so that the reads repeat with period [m]; and [k] rolls of the
    file kind return, with fuel for two passes over the file, the first
    [2 * k] reads in pairs, without falling back. *)
Theorem RollDice_times_FILE_cyclic :
  forall (L : Library) (fuel k : nat) (x : rngcontext randctx sfmt_t) (w : world)
         (bytes : list byte),
    fDice x = Some (reading bytes 0) ->
    file_faces bytes <> [] ->
    (2 * List.length bytes + 1 <= fuel)%nat ->
    (exists x1 : rngcontext randctx sfmt_t,
        ReadDiceFile_times fuel k x = Some (map (cyclic_face bytes) (seq 0 k), x1))
    /\ (exists x2 : rngcontext randctx sfmt_t,
           RollDice_times (S fuel) k RNG_FILE x w
           = Some (pair_up (map (cyclic_face bytes) (seq 0 (2 * k))),
                   RNG_FILE, x2, w))
    /\ (forall t : nat,
           1 <= cyclic_face bytes t <= 6
           /\ cyclic_face bytes (t + List.length (file_faces bytes))
              = cyclic_face bytes t).
Proof.
  intros L fuel k x w bytes Hx Hf Hfuel.
  assert (Hcyc : forall n : nat,
            replay (file_faces bytes) (faces_ahead bytes 0) n
            = map (cyclic_face bytes) (seq 0 n)).
  { intros n. change (faces_ahead bytes 0) with (skipn 0 (file_faces bytes)).
    rewrite (replay_cyclic (file_faces bytes) n Hf 0 ltac:(lia)).
    reflexivity. }
  split; [|split].
  - destruct (ReadDiceFile_times_replay fuel bytes k Hf Hfuel x 0 Hx) as (p' & H).
    eexists. rewrite H, Hcyc. reflexivity.
  - destruct (RollDice_times_replay fuel bytes k Hf Hfuel x w 0 Hx) as (x' & H).
    exists x'. rewrite H, Hcyc. reflexivity.
  - intros t. split; [apply cyclic_face_range; exact Hf|].
    unfold cyclic_face. do 2 f_equal.
    replace (t + List.length (file_faces bytes))%nat
      with (t + 1 * List.length (file_faces bytes))%nat by lia.
    apply Nat.Div0.mod_add.
Qed.

Lemma RollDice_times_FILE_cyclic_witness :
  exists x2 : rngcontext Z Z,
    RollDice_times (L := sample_library) 10 3 RNG_FILE ctx_file_opened tt
    = Some (pair_up (map (cyclic_face [x31; x39; x33; x36]) (seq 0 (2 * 3))),
            RNG_FILE, x2, tt).
Proof.
  assert (Hf : file_faces [x31; x39; x33; x36] <> []) by discriminate.
  destruct (RollDice_times_FILE_cyclic sample_library 9 3 ctx_file_opened tt
              [x31; x39; x33; x36] eq_refl Hf ltac:(cbn; lia)) as (_ & H & _).
  exact H.
Defined.

(** ** Seeding with a word *)

(** X21.  [InitRNGSeed] returns for every kind but BBS and prints
    nothing there; for BBS it does not return in a context whose BBS
    part is not set up.  When it returns the counter is 0, the seed word
    kept is the seed as an [unsigned int], the long seed is as it was,
    and no other field has changed but the state of the generator of
    that kind: for the manual, random.org and file kinds nothing else at
    all, so that seeding does not move the dice file.  Seeds that differ
    by [2^32] seed alike. *)
Theorem InitRNGSeed_result :
  forall (L : Library) (n0 : Z) (k : rng) (x : rngcontext randctx sfmt_t),
    (k <> RNG_BBS ->
     exists x' : rngcontext randctx sfmt_t, InitRNGSeed n0 k x = Some (x', []))
    /\ (fZInit x = false -> InitRNGSeed n0 RNG_BBS x = None)
    /\ (forall (x' : rngcontext randctx sfmt_t) (out : list event),
           InitRNGSeed n0 k x = Some (x', out) ->
           c x' = 0 /\ n x' = u32 n0 /\ nz x' = nz x /\ kept_by_seed k x x'
           /\ (k = RNG_MANUAL \/ k = RNG_RANDOM_DOT_ORG \/ k = RNG_FILE ->
               x' = set_c (set_n x (u32 n0)) 0))
    /\ InitRNGSeed (n0 + 2 ^ 32) k x = InitRNGSeed n0 k x.
Proof.
  intros L n0 k x. split; [|split; [|split]].
  - intros Hk. unfold InitRNGSeed. destruct k; try congruence;
      eexists; reflexivity.
  - apply InitRNGSeed_BBS_aborts.
  - intros x' out H.
    destruct (InitRNGSeed_fields n0 k x x' out H) as (Hc & Hn & Hnz & Hk & _).
    repeat (split; [assumption|]).
    intros [-> | [-> | ->]]; unfold InitRNGSeed in H; inversion H; reflexivity.
  - unfold InitRNGSeed.
    assert (E : u32 (n0 + 2 ^ 32) = u32 n0).
    { unfold u32. replace (n0 + 2 ^ 32) with (n0 + 1 * 2 ^ 32) by lia.
      apply Z.mod_add. lia. }
    rewrite E. reflexivity.
Qed.

Lemma InitRNGSeed_result_witness :
  InitRNGSeed (L := sample_library) 5 RNG_FILE ctx_file_rolled
  = Some (set_c (L := sample_library)
            (set_n (L := sample_library) ctx_file_rolled 5) 0, [])
  /\ fDice (set_c (L := sample_library)
              (set_n (L := sample_library) ctx_file_rolled 5) 0)
     = fDice ctx_file_rolled.
Proof.
  assert (H : InitRNGSeed (L := sample_library) 5 RNG_FILE ctx_file_rolled
              = Some (set_c (L := sample_library)
                        (set_n (L := sample_library) ctx_file_rolled 5) 0, []))
    by reflexivity.
  split; [exact H|].
  destruct (InitRNGSeed_result sample_library 5 RNG_FILE ctx_file_rolled)
    as (_ & _ & Hf & _).
  destruct (Hf _ _ H) as (_ & _ & _ & Hk & _).
  exact (proj1 Hk).
Defined.
